(** * Metrics exporter of the AI support agent: instrumentation and cost model

    A shallow embedding of [monitoring/metrics_exporter.py]: the cost model
    [calculate_llm_cost], the three instrumentation decorators
    [track_ticket_processing], [track_llm_call], [track_http_request] and the
    budget refresh [update_cost_budget_tracking], over Python values, Python
    exceptions, IEEE 754 binary64 arithmetic and a metric registry. *)

From Stdlib Require Import ZArith Bool Lia QArith Qcanon.
From Stdlib Require Import SpecFloat.
From stdpp Require Import gmap strings list pretty.

#[local] Set Warnings "-register-all".
#[local] Open Scope Z_scope.

(* ===================================================================== *)
(** ** Binary64 arithmetic (Python's [float]) *)
(* ===================================================================== *)

Module F64.

(** Mantissa width and exponent bound of binary64. *)
Definition prec : Z := 53.
Definition emax : Z := 1024.

Definition add : spec_float -> spec_float -> spec_float := SFadd prec emax.
Definition sub : spec_float -> spec_float -> spec_float := SFsub prec emax.
Definition mul : spec_float -> spec_float -> spec_float := SFmul prec emax.
Definition div : spec_float -> spec_float -> spec_float := SFdiv prec emax.

Definition ltb : spec_float -> spec_float -> bool := SFltb.
Definition leb : spec_float -> spec_float -> bool := SFleb.
Definition eqb : spec_float -> spec_float -> bool := SFeqb.

(** The double nearest to an integer (round to nearest, ties to even);
    an infinity when the integer is out of range. *)
Definition of_Z (z : Z) : spec_float := binary_normalize prec emax z 0 false.

Definition zero : spec_float := S754_zero false.

Definition is_finite (f : spec_float) : bool :=
  match f with
  | S754_zero _ | S754_finite _ _ _ => true
  | S754_infinity _ | S754_nan => false
  end.

(** A decimal literal [n/d] with [d] a power of ten, such as [0.85 = 85/100]:
    the correctly rounded quotient of two exactly representable integers. *)
Definition lit (n d : Z) : spec_float := div (of_Z n) (of_Z d).

(** Neither a NaN nor carrying a minus sign: zero, positive finite, +inf. *)
Definition nonneg (f : spec_float) : bool :=
  match f with
  | S754_zero false | S754_finite false _ _ | S754_infinity false => true
  | _ => false
  end.

(** The sign carried by a float that is not a NaN. *)
Definition has_sign (s : bool) (f : spec_float) : Prop :=
  match f with
  | S754_zero s' | S754_infinity s' | S754_finite s' _ _ => s' = s
  | S754_nan => False
  end.

End F64.

(* ===================================================================== *)
(** ** Python values, numbers and exceptions *)
(* ===================================================================== *)

(** The objects that reach the instrumentation layer: tickets, results and
    usage records are dicts with string keys; requests and responses are
    objects with attributes. *)
Inductive value : Type :=
| VNone
| VBool (b : bool)
| VInt (z : Z)
| VFloat (f : spec_float)
| VStr (s : string)
| VDict (d : gmap string value)
| VObj (cls : string) (attrs : gmap string value).

(** [type(v).__name__] *)
Definition type_name (v : value) : string :=
  match v with
  | VNone => "NoneType"
  | VBool _ => "bool"
  | VInt _ => "int"
  | VFloat _ => "float"
  | VStr _ => "str"
  | VDict _ => "dict"
  | VObj cls _ => cls
  end.

(** A raised object: the name of its class ([type(e).__name__]), its text
    ([str(e)]) and whether the class derives from [Exception] (as opposed to
    deriving from [BaseException] only, like [KeyboardInterrupt], [SystemExit]
    or [asyncio.CancelledError]). *)
Record exn : Type := Exn {
  exn_type : string;
  exn_str : string;
  exn_is_Exception : bool
}.

Definition TypeError (msg : string) : exn := Exn "TypeError" msg true.
Definition AttributeError (msg : string) : exn := Exn "AttributeError" msg true.
Definition ValueError (msg : string) : exn := Exn "ValueError" msg true.
Definition OverflowError (msg : string) : exn := Exn "OverflowError" msg true.

Inductive outcome (A : Type) : Type :=
| Returned (a : A)
| Raised (e : exn).
Arguments Returned {A} a.
Arguments Raised {A} e.

(** Python numbers: [int] (unbounded) and [float] (binary64); [bool] is a
    subclass of [int]. *)
Inductive number : Type :=
| NInt (z : Z)
| NFloat (f : spec_float).

Definition number_of_value (v : value) : option number :=
  match v with
  | VBool b => Some (NInt (if b then 1 else 0))
  | VInt z => Some (NInt z)
  | VFloat f => Some (NFloat f)
  | _ => None
  end.

(** [bool(v)] *)
Definition truthy (v : value) : bool :=
  match v with
  | VNone => false
  | VBool b => b
  | VInt z => negb (z =? 0)
  | VFloat f => match f with S754_zero _ => false | _ => true end
  | VStr s => negb (String.eqb s "")
  | VDict d => negb (bool_decide (d = ∅))
  | VObj _ _ => true
  end.

(** Comparison of an [int] with a [float] is exact in Python: the integer is
    never rounded to a double first. *)
Definition Zcompare_float (z : Z) (f : spec_float) : option comparison :=
  match f with
  | S754_nan => None
  | S754_infinity s => Some (if s then Gt else Lt)
  | S754_zero _ => Some (z ?= 0)
  | S754_finite s m e =>
      let v := if s then Zneg m else Zpos m in
      Some (if 0 <=? e then z ?= v * 2 ^ e else z * 2 ^ (- e) ?= v)
  end.

Definition num_compare (a b : number) : option comparison :=
  match a, b with
  | NInt x, NInt y => Some (x ?= y)
  | NInt x, NFloat g => Zcompare_float x g
  | NFloat f, NInt y => CompOpp <$> Zcompare_float y f
  | NFloat f, NFloat g => SFcompare f g
  end.

(** [a > b] and [a < b] on numbers; every comparison with a NaN is false. *)
Definition num_gtb (a b : number) : bool :=
  match num_compare a b with Some Gt => true | _ => false end.

Definition num_ltb (a b : number) : bool :=
  match num_compare a b with Some Lt => true | _ => false end.

Definition num_leb (a b : number) : bool :=
  match num_compare a b with Some (Lt | Eq) => true | _ => false end.

(** [float(z)] as the interpreter performs it inside mixed arithmetic. *)
Definition int_to_float (z : Z) : outcome spec_float :=
  let f := F64.of_Z z in
  if F64.is_finite f then Returned f
  else Raised (OverflowError "int too large to convert to float").

Definition number_to_float (n : number) : outcome spec_float :=
  match n with
  | NInt z => int_to_float z
  | NFloat f => Returned f
  end.

(** [needle in haystack] on strings. *)
Fixpoint is_substring (needle hay : string) : bool :=
  String.prefix needle hay ||
  match hay with
  | EmptyString => false
  | String _ rest => is_substring needle rest
  end.

(* ===================================================================== *)
(** ** The metric registry *)
(* ===================================================================== *)

Module Registry.

(** The instruments (counters, histograms, gauges) and the registry behind
    them come from the metrics library the module imports; its code is not
    part of the sources. This module models that missing part from sections 3
    and 4.1 of the specification. *)

(** Modelled from the spec: the numeric domain of the registry. Section 3
    makes a counter's emitted value "the sum since process start" and the
    testable properties ask for "the exact sum of increments", so values are
    exact: rationals, extended with the infinities and the not-a-number that
    a [float] amount can carry. *)
Inductive xnum : Type :=
| XFin (q : Qc)
| XInf (neg : bool)
| XNaN.

(** Modelled from the spec: the exact value denoted by a double. *)
Definition exact_float (f : spec_float) : xnum :=
  match f with
  | S754_zero _ => XFin 0
  | S754_infinity s => XInf s
  | S754_nan => XNaN
  | S754_finite s m e =>
      let v := if s then Zneg m else Zpos m in
      XFin (Q2Qc (if 0 <=? e then inject_Z (v * 2 ^ e)
                  else Qmake v (Z.to_pos (2 ^ (- e)))))
  end.

(** Modelled from the spec: the exact value denoted by a number. *)
Definition exact (n : number) : xnum :=
  match n with
  | NInt z => XFin (Q2Qc (inject_Z z))
  | NFloat f => exact_float f
  end.

(** Modelled from the spec: exact addition ("the sum"). *)
Definition xadd (a b : xnum) : xnum :=
  match a, b with
  | XNaN, _ | _, XNaN => XNaN
  | XInf s, XInf t => if Bool.eqb s t then XInf s else XNaN
  | XInf s, XFin _ => XInf s
  | XFin _, XInf t => XInf t
  | XFin p, XFin q => XFin (p + q)
  end.

(** Modelled from the spec: strictly below (what "observed to decrease"
    compares); false as soon as a not-a-number is involved. *)
Definition xltb (a b : xnum) : bool :=
  match a, b with
  | XNaN, _ | _, XNaN => false
  | XInf s, XInf t => s && negb t
  | XInf s, XFin _ => s
  | XFin _, XInf t => negb t
  | XFin p, XFin q => bool_decide (p < q)%Qc
  end.

(** Modelled from the spec: at most; false as soon as a not-a-number is
    involved. *)
Definition xleb (a b : xnum) : bool :=
  match a, b with
  | XNaN, _ | _, XNaN => false
  | XInf s, XInf t => s || negb t
  | XInf s, XFin _ => s
  | XFin _, XInf t => negb t
  | XFin p, XFin q => bool_decide (p <= q)%Qc
  end.

(** A later value [b] that did not fall below an earlier value [a]: it is at
    least [a], or it has become a not-a-number (which then stays). *)
Definition not_below (a b : xnum) : Prop := b = XNaN \/ xleb a b = true.

(** Modelled from the spec: the sum of a list of values. *)
Definition xsum (l : list xnum) : xnum := foldr xadd (XFin 0) l.

(** Modelled from the spec: the kinds of instrument the module declares. *)
Inductive kind : Type := Counter | Histogram | Gauge.

(** Modelled from the spec: a declared instrument (section 3): its kind,
    name, label names and, for a histogram, its bucket boundaries. *)
Record metric : Type := Metric {
  m_kind : kind;
  m_name : string;
  m_labelnames : list string;
  m_buckets : list spec_float
}.

(** Modelled from the spec: a time series, an instrument's name with one
    label-value combination (a tuple of strings). *)
Definition series : Type := string * list string.

(** Modelled from the spec: the registry state (sections 3 and 4.1): per
    series, a counter's value, a histogram's observations in order of
    arrival, a gauge's last-set value. Series are created lazily. *)
Record registry : Type := Reg {
  reg_counters : gmap (string * list string) xnum;
  reg_histograms : gmap (string * list string) (list number);
  reg_gauges : gmap (string * list string) number
}.

(** Modelled from the spec: the registry at process start. *)
Definition empty : registry := Reg ∅ ∅ ∅.

(** Modelled from the spec: the value a snapshot reports for a counter
    series; a series never incremented reads zero. *)
Definition counter_value (r : registry) (k : series) : xnum :=
  default (XFin 0) (reg_counters r !! k).

(** Modelled from the spec: the observations a histogram series received. *)
Definition observations (r : registry) (k : series) : list number :=
  default [] (reg_histograms r !! k).

(** Modelled from the spec: the value a snapshot reports for a gauge series,
    if it was ever set. *)
Definition gauge_value (r : registry) (k : series) : option number :=
  reg_gauges r !! k.

(** The value passed for the keyword [name]. *)
Fixpoint kw_lookup (name : string) (kw : list (string * string)) : option string :=
  match kw with
  | [] => None
  | (n, v) :: rest => if String.eqb n name then Some v else kw_lookup name rest
  end.

(** Modelled from the spec: the label-value tuple for keyword labels, in
    the order of the declared label names; [None] is the spec's
    [LabelMismatch] (the keywords are not exactly the declared names). *)
Definition label_values (m : metric) (kw : list (string * string))
  : option (list string) :=
  if Nat.eqb (length kw) (length (m_labelnames m))
  then mapM (fun name => kw_lookup name kw) (m_labelnames m)
  else None.

(** Modelled from the spec: [inc] (section 4.1); [None] is the spec's
    [InvalidValue]: counters reject negative increments. *)
Definition inc (k : series) (amount : number) (r : registry) : option registry :=
  if num_ltb amount (NInt 0) then None
  else Some (Reg (<[k := xadd (counter_value r k) (exact amount)]> (reg_counters r))
                 (reg_histograms r) (reg_gauges r)).

(** Modelled from the spec: [observe] records one observation. *)
Definition observe (k : series) (amount : number) (r : registry) : registry :=
  Reg (reg_counters r)
      (<[k := observations r k ++ [amount]]> (reg_histograms r))
      (reg_gauges r).

(** Modelled from the spec: [set] overwrites a gauge (last-set value). *)
Definition set (k : series) (amount : number) (r : registry) : registry :=
  Reg (reg_counters r) (reg_histograms r) (<[k := amount]> (reg_gauges r)).

(** Modelled from the spec: the number of observations of a histogram
    series (section 3). *)
Definition hist_count (r : registry) (k : series) : nat :=
  length (observations r k).

(** Modelled from the spec: the cumulative count of a histogram series at or
    below a bucket boundary (section 3). *)
Definition hist_bucket (r : registry) (k : series) (le : spec_float) : nat :=
  length (filter (fun o => num_leb o (NFloat le) = true) (observations r k)).

(** Registry operations as data, to speak about sequences of them. *)
Inductive op : Type :=
| OpInc (k : series) (amount : number)
| OpObserve (k : series) (amount : number)
| OpSet (k : series) (amount : number).

(** A rejected increment leaves the registry as it was. *)
Definition apply (o : op) (r : registry) : registry :=
  match o with
  | OpInc k a => default r (inc k a r)
  | OpObserve k a => observe k a r
  | OpSet k a => set k a r
  end.

Definition run (ops : list op) (r : registry) : registry :=
  foldl (fun r o => apply o r) r ops.

(** The increments of a sequence that target series [k] and are accepted. *)
Definition accepted (k : series) (o : op) : option number :=
  match o with
  | OpInc k' a =>
      if bool_decide (k' = k) && negb (num_ltb a (NInt 0)) then Some a else None
  | _ => None
  end.

(** What an accepted increment is worth: never negative. *)
Definition nonnegative (c : xnum) : Prop :=
  match c with
  | XFin q => (0 <= q)%Qc
  | XInf s => s = false
  | XNaN => True
  end.

(** What one operation adds to the series [k]. *)
Definition contribution (k : series) (o : op) : xnum :=
  from_option exact (XFin 0) (accepted k o).

End Registry.

(* ===================================================================== *)
(** ** The world of the exporter: registry, log and wall clock *)
(* ===================================================================== *)

Inductive level : Type := WARNING | ERROR.

Record log_record : Type := Log { log_level : level; log_text : string }.

(** What the exporter acts on: the registry, the records emitted through
    [logger] (most recent first) and the wall clock ([w_now] is what
    [time.time()] returns). A wrapped operation is a computation of its own:
    while it is awaited it may touch the registry and the log, and time
    passes. *)
Record world : Type := World {
  w_registry : Registry.registry;
  w_log : list log_record;
  w_now : spec_float
}.

(** A computation may change the world and either returns or raises. *)
Definition M (A : Type) : Type := world -> outcome A * world.

(** [return a] *)
Definition ret {A} (a : A) : M A := fun w => (Returned a, w).

(** [raise e] *)
Definition raise {A} (e : exn) : M A := fun w => (Raised e, w).

(** Sequencing: what follows a raise is not run. *)
Definition bind {A B} (c : M A) (k : A -> M B) : M B :=
  fun w =>
    match c w with
    | (Returned a, w') => k a w'
    | (Raised e, w') => (Raised e, w')
    end.

Notation "x <- c ;; k" := (bind c (fun x => k))
  (at level 20, c at level 99, k at level 200, format "x  <-  c  ;;  '/' k").
Notation "c ;; k" := (bind c (fun _ => k))
  (at level 100, k at level 200, right associativity, format "c  ;;  '/' k").

(** An outcome that does not depend on the world. *)
Definition lift {A} (o : outcome A) : M A := fun w => (o, w).

(** [try: body except Exception as e: handler e]. Only instances of
    [Exception] are caught; anything else passes through the statement. *)
Definition try_except_Exception {A} (body : M A) (handler : exn -> M A) : M A :=
  fun w =>
    match body w with
    | (Returned a, w') => (Returned a, w')
    | (Raised e, w') =>
        if exn_is_Exception e then handler e w' else (Raised e, w')
    end.

(** [for x in l: body x] *)
Fixpoint for_each {A} (l : list A) (body : A -> M unit) : M unit :=
  match l with
  | [] => ret tt
  | x :: rest => body x ;; for_each rest body
  end.

(** [time.time()] *)
Definition time_time : M spec_float := fun w => (Returned (w_now w), w).

(** The world with its registry replaced. *)
Definition with_registry (r : Registry.registry) (w : world) : world :=
  World r (w_log w) (w_now w).

(** [logger.warning(text)] and [logger.error(text)] *)
Definition logger (lv : level) (text : string) : M unit :=
  fun w => (Returned tt, World (w_registry w) (Log lv text :: w_log w) (w_now w)).

(** [d.get(key, default)]; only dicts have the method. *)
Definition dict_get (v : value) (key : string) (dflt : value) : M value :=
  match v with
  | VDict d => ret (default dflt (d !! key))
  | _ => raise (AttributeError
                  ("'" +:+ type_name v +:+ "' object has no attribute 'get'"))
  end.

(** [o.name] *)
Definition getattr (v : value) (name : string) : M value :=
  match v with
  | VObj _ attrs =>
      match attrs !! name with
      | Some a => ret a
      | None => raise (AttributeError
                  ("'" +:+ type_name v +:+ "' object has no attribute '" +:+ name +:+ "'"))
      end
  | _ => raise (AttributeError
                  ("'" +:+ type_name v +:+ "' object has no attribute '" +:+ name +:+ "'"))
  end.

(** [key in v] for a string [key] *)
Definition contains (key : string) (v : value) : M bool :=
  match v with
  | VDict d => ret (bool_decide (is_Some (d !! key)))
  | VStr s => ret (is_substring key s)
  | _ => raise (TypeError
                  ("argument of type '" +:+ type_name v +:+ "' is not iterable"))
  end.

(** [v[key]] for a string [key] *)
Definition getitem (v : value) (key : string) : M value :=
  match v with
  | VDict d =>
      match d !! key with
      | Some a => ret a
      | None => raise (Exn "KeyError" ("'" +:+ key +:+ "'") true)
      end
  | VStr _ => raise (TypeError "string indices must be integers, not 'str'")
  | _ => raise (TypeError
                  ("'" +:+ type_name v +:+ "' object is not subscriptable"))
  end.

(** [v > c] for a float [c] *)
Definition py_gt (v : value) (c : spec_float) : M bool :=
  match number_of_value v with
  | Some n => ret (num_gtb n (NFloat c))
  | None => raise (TypeError
      ("'>' not supported between instances of '" +:+ type_name v +:+ "' and 'float'"))
  end.

(** [v * r] for a float [r] *)
Definition py_mul (v : value) (r : spec_float) : M spec_float :=
  match number_of_value v with
  | Some n => f <- lift (number_to_float n) ;; ret (F64.mul f r)
  | None =>
      raise (TypeError
        match v with
        | VStr _ => "can't multiply sequence by non-int of type 'float'"
        | _ => "unsupported operand type(s) for *: '" +:+ type_name v +:+ "' and 'float'"
        end)
  end.

(* ===================================================================== *)
(** ** monitoring/metrics_exporter.py *)
(* ===================================================================== *)

Module Exporter.

Import Registry.

(** *** Instruments declared at import time *)

Definition tickets_processed_total : metric :=
  Metric Counter "ai_agent_tickets_processed_total"
         ["category"; "environment"; "channel"] [].

Definition tickets_resolved_auto_total : metric :=
  Metric Counter "ai_agent_tickets_resolved_auto_total"
         ["category"; "confidence_tier"] [].

Definition tickets_escalated_total : metric :=
  Metric Counter "ai_agent_tickets_escalated_total"
         ["category"; "escalation_reason"] [].

Definition http_requests_total : metric :=
  Metric Counter "ai_agent_http_requests_total"
         ["method"; "endpoint"; "status"] [].

Definition llm_api_requests_total : metric :=
  Metric Counter "ai_agent_llm_api_requests_total"
         ["provider"; "model"; "status"] [].

Definition llm_api_errors_total : metric :=
  Metric Counter "ai_agent_llm_api_errors_total" ["provider"; "error_type"] [].

Definition llm_tokens_total : metric :=
  Metric Counter "ai_agent_llm_tokens_total"
         ["provider"; "model"; "token_type"] [].

Definition llm_api_cost_dollars : metric :=
  Metric Counter "ai_agent_llm_api_cost_dollars" ["provider"; "model"] [].

Definition response_duration_milliseconds : metric :=
  Metric Histogram "ai_agent_response_duration_milliseconds" []
         (map F64.of_Z [100; 250; 500; 1000; 2000; 3000; 5000; 10000; 15000;
                        20000; 30000]).

Definition llm_response_duration_seconds : metric :=
  Metric Histogram "ai_agent_llm_response_duration_seconds"
         ["provider"; "model"]
         (F64.lit 5 10 :: map F64.of_Z [1; 2; 3; 5; 10; 15; 20; 30; 60]).

Definition cost_budget_monthly : metric :=
  Metric Gauge "ai_agent_cost_budget_monthly" ["category"] [].

Definition support_agent_cost_savings_dollars : metric :=
  Metric Gauge "ai_agent_support_agent_cost_savings_dollars" [] [].

Definition monthly_cost_savings_dollars : metric :=
  Metric Gauge "ai_agent_monthly_cost_savings_dollars" [] [].

(** The single series of an instrument declared without labels. *)
Definition unlabelled (m : metric) : series := (m_name m, []).

(** *** Calls into the registry *)

Section WithStr.

(** [str(v)] for the values whose text has no simple closed form here: the
    shortest round-trip rendering of a [float], and the rendering of dicts
    and objects. The registry turns every label value into text with [str]. *)
Variable obj_str : value -> string.

Definition py_str (v : value) : string :=
  match v with
  | VStr s => s
  | VInt z => pretty z
  | VBool b => if b then "True" else "False"
  | VNone => "None"
  | VFloat _ | VDict _ | VObj _ _ => obj_str v
  end.

(** Modelled from the spec: [m.labels(name=value, ...)] with keyword
    arguments [kw]. Every label value is turned into text with [str]; the
    spec's [LabelMismatch] reaches Python as a [ValueError]. *)
Definition labels (m : metric) (kw : list (string * value)) : M series :=
  match label_values m (map (fun p => (p.1, py_str p.2)) kw) with
  | Some lv => ret (m_name m, lv)
  | None => raise (ValueError "Incorrect label names")
  end.

(** Modelled from the spec: [child.inc(amount)]. The amount is compared
    with zero ([amount < 0], a [TypeError] when it is not a number), a
    negative one is rejected (the spec's [InvalidValue], a [ValueError] in
    Python), any other is added. *)
Definition counter_inc (k : series) (amount : value) : M unit :=
  fun w =>
    match number_of_value amount with
    | None =>
        (Raised (TypeError ("'<' not supported between instances of '"
                            +:+ type_name amount +:+ "' and 'int'")), w)
    | Some n =>
        match inc k n (w_registry w) with
        | None => (Raised (ValueError
            "Counters can only be incremented by non-negative amounts."), w)
        | Some r => (Returned tt, with_registry r w)
        end
    end.

(** Modelled from the spec: [child.observe(amount)] for a float amount. *)
Definition hist_observe (k : series) (amount : spec_float) : M unit :=
  fun w => (Returned tt, with_registry (observe k (NFloat amount) (w_registry w)) w).

(** Modelled from the spec: [child.set(amount)] for an integer amount. *)
Definition gauge_set (k : series) (amount : Z) : M unit :=
  fun w => (Returned tt, with_registry (set k (NInt amount) (w_registry w)) w).

(** *** calculate_llm_cost *)

Record rates : Type := Rates { rate_input : spec_float; rate_output : spec_float }.

Definition per_million (dollars : spec_float) : spec_float :=
  F64.div dollars (F64.of_Z 1000000).

Definition pricing : gmap string (gmap string rates) :=
  <["anthropic" :=
      <["claude-sonnet-4" := Rates (per_million (F64.lit 30 10)) (per_million (F64.lit 150 10))]>
     (<["claude-haiku" := Rates (per_million (F64.lit 25 100)) (per_million (F64.lit 125 100))]> ∅)]>
 (<["openai" :=
      <["gpt-4" := Rates (per_million (F64.lit 300 10)) (per_million (F64.lit 600 10))]>
     (<["gpt-3.5-turbo" := Rates (per_million (F64.lit 5 10)) (per_million (F64.lit 15 10))]> ∅)]> ∅).

(** [pricing[provider][model]], when both keys are present. *)
Definition rates_for (provider model : string) : option rates :=
  pricing !! provider ≫= (fun models => models !! model).

Definition calculate_llm_cost (provider model : string)
    (input_tokens output_tokens : value) : M spec_float :=
  match rates_for provider model with
  | None =>
      logger WARNING ("Unknown pricing for " +:+ provider +:+ "/" +:+ model
                      +:+ ", using default") ;;
      ret F64.zero
  | Some r =>
      a <- py_mul input_tokens (rate_input r) ;;
      b <- py_mul output_tokens (rate_output r) ;;
      let cost := F64.add a b in
      ret cost
  end.

(** *** track_ticket_processing *)

(** Line 267: the conditional expression that names the tier. *)
Definition confidence_tier (confidence : value) : M string :=
  hi <- py_gt confidence (F64.lit 85 100) ;;
  if hi then ret "high"
  else mid <- py_gt confidence (F64.lit 70 100) ;;
       if mid then ret "medium" else ret "low".

Definition track_ticket_processing
    (func : value -> list value -> gmap string value -> M value)
    (ticket : value) (args : list value) (kwargs : gmap string value) : M value :=
  start_time <- time_time ;;
  category <- dict_get ticket "category" (VStr "general_inquiry") ;;
  channel <- dict_get ticket "channel" (VStr "web") ;;
  let environment := default (VStr "production") (kwargs !! "environment") in
  try_except_Exception
    (result <- func ticket args kwargs ;;
     now <- time_time ;;
     let duration_ms := F64.mul (F64.sub now start_time) (F64.of_Z 1000) in
     hist_observe (unlabelled response_duration_milliseconds) duration_ms ;;
     k <- labels tickets_processed_total
            [("category", category); ("environment", environment);
             ("channel", channel)] ;;
     counter_inc k (VInt 1) ;;
     auto_resolved <- dict_get result "auto_resolved" (VBool false) ;;
     (if truthy auto_resolved then
        confidence <- dict_get result "confidence" (VInt 0) ;;
        tier <- confidence_tier confidence ;;
        k <- labels tickets_resolved_auto_total
               [("category", category); ("confidence_tier", VStr tier)] ;;
        counter_inc k (VInt 1)
      else
        escalated <- dict_get result "escalated" (VBool false) ;;
        if truthy escalated then
          reason <- dict_get result "escalation_reason" (VStr "unknown") ;;
          k <- labels tickets_escalated_total
                 [("category", category); ("escalation_reason", reason)] ;;
          counter_inc k (VInt 1)
        else ret tt) ;;
     ret result)
    (fun e =>
       logger ERROR ("Error processing ticket: " +:+ exn_str e) ;;
       raise e).

(** *** track_llm_call *)

Definition track_llm_call (provider model : string)
    (func : list value -> gmap string value -> M value)
    (args : list value) (kwargs : gmap string value) : M value :=
  start_time <- time_time ;;
  try_except_Exception
    (result <- func args kwargs ;;
     now <- time_time ;;
     let duration_s := F64.sub now start_time in
     k <- labels llm_response_duration_seconds
            [("provider", VStr provider); ("model", VStr model)] ;;
     hist_observe k duration_s ;;
     has_usage <- contains "usage" result ;;
     (if has_usage then
        usage <- getitem result "usage" ;;
        input_tokens <- dict_get usage "input_tokens" (VInt 0) ;;
        usage <- getitem result "usage" ;;
        output_tokens <- dict_get usage "output_tokens" (VInt 0) ;;
        k <- labels llm_tokens_total
               [("provider", VStr provider); ("model", VStr model);
                ("token_type", VStr "input")] ;;
        counter_inc k input_tokens ;;
        k <- labels llm_tokens_total
               [("provider", VStr provider); ("model", VStr model);
                ("token_type", VStr "output")] ;;
        counter_inc k output_tokens ;;
        cost <- calculate_llm_cost provider model input_tokens output_tokens ;;
        k <- labels llm_api_cost_dollars
               [("provider", VStr provider); ("model", VStr model)] ;;
        counter_inc k (VFloat cost)
      else ret tt) ;;
     k <- labels llm_api_requests_total
            [("provider", VStr provider); ("model", VStr model);
             ("status", VStr "success")] ;;
     counter_inc k (VInt 1) ;;
     ret result)
    (fun e =>
       k <- labels llm_api_requests_total
              [("provider", VStr provider); ("model", VStr model);
               ("status", VStr "error")] ;;
       counter_inc k (VInt 1) ;;
       k <- labels llm_api_errors_total
              [("provider", VStr provider); ("error_type", VStr (exn_type e))] ;;
       counter_inc k (VInt 1) ;;
       logger ERROR ("LLM API error: " +:+ exn_str e) ;;
       raise e).

(** *** track_http_request *)

Definition track_http_request
    (func : value -> list value -> gmap string value -> M value)
    (request : value) (args : list value) (kwargs : gmap string value) : M value :=
  try_except_Exception
    (response <- func request args kwargs ;;
     method <- getattr request "method" ;;
     path <- getattr request "path" ;;
     status_code <- getattr response "status_code" ;;
     k <- labels http_requests_total
            [("method", method); ("endpoint", path); ("status", status_code)] ;;
     counter_inc k (VInt 1) ;;
     ret response)
    (fun e =>
       method <- getattr request "method" ;;
       path <- getattr request "path" ;;
       k <- labels http_requests_total
              [("method", method); ("endpoint", path); ("status", VInt 500)] ;;
       counter_inc k (VInt 1) ;;
       raise e).

(** *** update_cost_budget_tracking *)

(** The [budgets] dict, in insertion order (the order of [.items()]). *)
Definition budgets : list (string * Z) :=
  [("llm_api", 1200); ("aws_infrastructure", 800); ("vector_db", 300);
   ("monitoring", 200)].

Definition update_cost_budget_tracking : M value :=
  for_each budgets
    (fun item =>
       let '(category, amount) := item in
       k <- labels cost_budget_monthly [("category", VStr category)] ;;
       gauge_set k amount) ;;
  let monthly_operational_cost := 2500 in
  let monthly_support_savings := 4000 in
  gauge_set (unlabelled support_agent_cost_savings_dollars) monthly_support_savings ;;
  gauge_set (unlabelled monthly_cost_savings_dollars)
            (monthly_support_savings - monthly_operational_cost) ;;
  ret VNone.

End WithStr.

End Exporter.

(** The world after one more log record. *)
Definition logged (r : log_record) (w : world) : world :=
  World (w_registry w) (r :: w_log w) (w_now w).

(** The world after [calculate_llm_cost] has returned: a warning is logged
    exactly when the pair has no price. *)
Definition warned (provider model : string) (w : world) : world :=
  match Exporter.rates_for provider model with
  | Some _ => w
  | None => logged (Log WARNING ("Unknown pricing for " +:+ provider +:+ "/"
                                 +:+ model +:+ ", using default")) w
  end.

(* ===================================================================== *)
(** ** Concrete inputs used to exercise the statements *)
(* ===================================================================== *)

Module Samples.

(** A rendering for floats, dicts and objects; any would do. *)
Definition render (v : value) : string :=
  match v with
  | VFloat _ => "<float>"
  | VDict _ => "<dict>"
  | _ => "<object>"
  end.

Definition w0 : world := World Registry.empty [] (F64.of_Z 1700000000).

(** Two seconds pass. *)
Definition later (w : world) : world :=
  World (w_registry w) (w_log w) (F64.add (w_now w) (F64.of_Z 2)).

Definition CancelledError : exn := Exn "CancelledError" "" false.

Definition TimeoutError : exn := Exn "TimeoutError" "request timed out" true.

Definition llm_returning (v : value) : list value -> gmap string value -> M value :=
  fun _ _ w => (Returned v, later w).

Definition llm_raising (e : exn) : list value -> gmap string value -> M value :=
  fun _ _ w => (Raised e, later w).

Definition op_returning (v : value)
  : value -> list value -> gmap string value -> M value :=
  fun _ _ _ w => (Returned v, later w).

Definition op_raising (e : exn)
  : value -> list value -> gmap string value -> M value :=
  fun _ _ _ w => (Raised e, later w).

Definition ticket : gmap string value :=
  <["category" := VStr "billing"]> (<["channel" := VStr "email"]> ∅).

Definition request_attrs : gmap string value :=
  <["method" := VStr "GET"]> (<["path" := VStr "/tickets"]> ∅).

Definition request : value := VObj "Request" request_attrs.

Definition response_attrs : gmap string value := <["status_code" := VInt 200]> ∅.

Definition response : value := VObj "Response" response_attrs.

(** Auto-resolved, no confidence reported. *)
Definition unrated_result : gmap string value := <["auto_resolved" := VBool true]> ∅.

(** Auto-resolved and escalated at once. *)
Definition conflicting_result : gmap string value :=
  <["auto_resolved" := VBool true]> (<["escalated" := VBool true]> ∅).

Definition auto_resolved_result (confidence : value) : gmap string value :=
  <["auto_resolved" := VBool true]> (<["confidence" := confidence]> ∅).

Definition usage (input_tokens output_tokens : Z) : gmap string value :=
  <["input_tokens" := VInt input_tokens]>
    (<["output_tokens" := VInt output_tokens]> ∅).

Definition llm_result (input_tokens output_tokens : Z) : gmap string value :=
  <["response" := VStr "Here is the answer..."]>
    (<["usage" := VDict (usage input_tokens output_tokens)]> ∅).

End Samples.

(* ===================================================================== *)
(** ** monitoring/metrics_exporter.py: the periodic updaters *)
(* ===================================================================== *)

(** [a - b] on Python values: exact on integers, binary64 as soon as a
    [float] takes part (the integer operand is converted first). *)
Definition py_sub (a b : value) : M value :=
  match number_of_value a, number_of_value b with
  | Some (NInt x), Some (NInt y) => ret (VInt (x - y))
  | Some x, Some y =>
      fa <- lift (number_to_float x) ;;
      fb <- lift (number_to_float y) ;;
      ret (VFloat (F64.sub fa fb))
  | _, _ =>
      raise (TypeError ("unsupported operand type(s) for -: '" +:+ type_name a
                        +:+ "' and '" +:+ type_name b +:+ "'"))
  end.

Module Updaters.

Import Registry Exporter.

(** *** Instruments declared at import time *)

Definition queue_depth : metric :=
  Metric Gauge "ai_agent_queue_depth" ["priority"] [].

Definition db_connections_active : metric :=
  Metric Gauge "ai_agent_db_connections_active" [] [].

Definition db_connections_max : metric :=
  Metric Gauge "ai_agent_db_connections_max" [] [].

Definition db_connections_idle : metric :=
  Metric Gauge "ai_agent_db_connections_idle" [] [].

(** Modelled from the spec: [child.set(amount)] for any value. Section 4.1
    gives [set] a numeric value: a number becomes the gauge's last-set
    value; anything else is refused, a string with a [ValueError] and any
    other object with a [TypeError]. *)
Definition gauge_set_value (k : series) (amount : value) : M unit :=
  match number_of_value amount with
  | Some n => fun w => (Returned tt, with_registry (set k n (w_registry w)) w)
  | None =>
      raise match amount with
            | VStr s => ValueError ("could not convert string to float: '" +:+ s +:+ "'")
            | _ => TypeError ("float() argument must be a string or a real number, not '"
                              +:+ type_name amount +:+ "'")
            end
  end.

Section WithStr.

Variable obj_str : value -> string.

(** *** update_queue_metrics *)

(** The Redis client enters through its one method in use: [llen key] is
    [redis_client.llen(key)], a call that may return anything, raise, and
    change the world while it runs. *)
Definition update_queue_metrics (llen : string -> M value) : M value :=
  try_except_Exception
    (high_priority <- llen "queue:high" ;;
     medium_priority <- llen "queue:medium" ;;
     low_priority <- llen "queue:low" ;;
     k <- labels obj_str queue_depth [("priority", VStr "high")] ;;
     gauge_set_value k high_priority ;;
     k <- labels obj_str queue_depth [("priority", VStr "medium")] ;;
     gauge_set_value k medium_priority ;;
     k <- labels obj_str queue_depth [("priority", VStr "low")] ;;
     gauge_set_value k low_priority ;;
     ret VNone)
    (fun e =>
       logger ERROR ("Error updating queue metrics: " +:+ exn_str e) ;;
       ret VNone).

(** *** update_db_connection_metrics *)

Definition update_db_connection_metrics (db_pool : value) : M value :=
  try_except_Exception
    (size <- getattr db_pool "size" ;;
     free_count <- getattr db_pool "free_count" ;;
     active <- py_sub size free_count ;;
     gauge_set_value (unlabelled db_connections_active) active ;;
     max_size <- getattr db_pool "max_size" ;;
     gauge_set_value (unlabelled db_connections_max) max_size ;;
     free_count <- getattr db_pool "free_count" ;;
     gauge_set_value (unlabelled db_connections_idle) free_count ;;
     ret VNone)
    (fun e =>
       logger ERROR ("Error updating DB metrics: " +:+ exn_str e) ;;
       ret VNone).

End WithStr.

End Updaters.

(* ===================================================================== *)
(** ** Magnitudes of doubles *)
(* ===================================================================== *)

(** A double that is [+0.0], or positive and finite with a mantissa of at
    most 53 bits, a magnitude below [2^D] and an exponent of at most [E]. *)
Definition positive_within (D E : Z) (f : spec_float) : Prop :=
  match f with
  | S754_zero false => True
  | S754_finite false m e =>
      Zdigits2 (Z.pos m) <= 53 /\ Zdigits2 (Z.pos m) + e <= D /\ e <= E
  | _ => False
  end.

(* ===================================================================== *)
(** ** What a computation may do to the registry *)
(* ===================================================================== *)

(** Every run of [c] leaves a registry related by [R] to the one it found. *)
Definition respects {A} (R : Registry.registry -> Registry.registry -> Prop)
    (c : M A) : Prop :=
  forall w, R (w_registry w) (w_registry (snd (c w))).

(** A computation that raises nothing but instances of [Exception]. *)
Definition raises_Exception_only {A} (c : M A) : Prop :=
  forall w e w', c w = (Raised e, w') -> exn_is_Exception e = true.

(** Recording only: no counter falls, every histogram series keeps the
    observations it had (new ones come after them) and no gauge changes. *)
Definition only_records (r r' : Registry.registry) : Prop :=
  (forall k, Registry.not_below (Registry.counter_value r k)
                                (Registry.counter_value r' k))
  /\ (forall k, Registry.observations r k `prefix_of` Registry.observations r' k)
  /\ Registry.reg_gauges r' = Registry.reg_gauges r.

(** Gauges only: counters and histograms are as they were. *)
Definition only_gauges (r r' : Registry.registry) : Prop :=
  Registry.reg_counters r' = Registry.reg_counters r
  /\ Registry.reg_histograms r' = Registry.reg_histograms r.

(** The counter instrument [name] reads as it did, in every series. *)
Definition keeps_counter (name : string) (r r' : Registry.registry) : Prop :=
  forall lv, Registry.counter_value r' (name, lv) = Registry.counter_value r (name, lv).

(** A computation that accounts for itself in the counter series [ok]: when
    it returns, [ok] went up by one and its sibling series are as they were;
    when it raises, it raises an instance of [Exception] and left the whole
    instrument as it was. *)
Definition accounts {A} (ok : Registry.series) (c : M A) : Prop :=
  forall w,
    match c w with
    | (Returned _, w') =>
        Registry.counter_value (w_registry w') ok
        = Registry.xadd (Registry.counter_value (w_registry w) ok) (Registry.XFin 1)
        /\ (forall lv, lv <> ok.2 ->
              Registry.counter_value (w_registry w') (ok.1, lv)
              = Registry.counter_value (w_registry w) (ok.1, lv))
    | (Raised e, w') =>
        exn_is_Exception e = true /\ keeps_counter ok.1 (w_registry w) (w_registry w')
    end.

(* ===================================================================== *)
(** ** More concrete inputs *)
(* ===================================================================== *)

Module Cases.

Import Samples.

(** A queue store holding lists of the given lengths. *)
Definition redis_lengths (high medium low : Z) : string -> M value :=
  fun key =>
    ret (VInt (if String.eqb key "queue:high" then high
               else if String.eqb key "queue:medium" then medium
               else low)).

Definition ConnectionError : exn :=
  Exn "ConnectionError" "Error 111 connecting to localhost:6379" true.

(** A queue store that fails on one key and holds seven items elsewhere. *)
Definition redis_failing_at (bad : string) (e : exn) : string -> M value :=
  fun key => if String.eqb key bad then raise e else ret (VInt 7).



Definition escalated_result : gmap string value :=
  <["escalated" := VBool true]> (<["escalation_reason" := VStr "low_confidence"]> ∅).

Definition plain_result : gmap string value :=
  <["response" := VStr "Your issue has been resolved."]> ∅.

(** A usage record with a negative output count. *)
Definition negative_usage : gmap string value :=
  <["input_tokens" := VInt 150]> (<["output_tokens" := VInt (-1)]> ∅).

Definition negative_usage_result : gmap string value :=
  <["usage" := VDict negative_usage]> ∅.

(** A request object without a [method] attribute. *)
Definition bare_request_attrs : gmap string value := <["path" := VStr "/tickets"]> ∅.

(** A response object without a [status_code] attribute. *)
Definition bare_response_attrs : gmap string value := <["body" := VStr "ok"]> ∅.

(** A ticket operation that makes one LLM call through the LLM wrapper. *)
Definition op_calling_llm (llm : list value -> gmap string value -> M value)
  : value -> list value -> gmap string value -> M value :=
  fun _ _ _ => Exporter.track_llm_call render "anthropic" "claude-sonnet-4" llm [] ∅.

End Cases.

(* ===================================================================== *)
(** ** Facts about binary64 rounding *)
(* ===================================================================== *)

Module F64Facts.

Import F64.

Lemma shr_1_nonneg mrs : 0 <= shr_m mrs -> 0 <= shr_m (shr_1 mrs).
Proof.
  destruct mrs as [m r s]; simpl.
  destruct m as [|p|p]; [simpl; lia | | lia].
  intros _. destruct p; simpl; lia.
Qed.

Lemma iter_pos_shr_1_nonneg p : forall mrs,
  0 <= shr_m mrs -> 0 <= shr_m (SpecFloat.iter_pos shr_1 p mrs).
Proof.
  induction p as [p IH|p IH|]; intros mrs H; simpl.
  - apply IH, IH, shr_1_nonneg, H.
  - apply IH, IH, H.
  - apply shr_1_nonneg, H.
Qed.

Lemma shr_fexp_nonneg m e l :
  0 <= m -> 0 <= shr_m (fst (shr_fexp prec emax m e l)).
Proof.
  intros H. unfold shr_fexp, shr.
  assert (H0 : 0 <= shr_m (shr_record_of_loc m l)).
  { destruct l as [|[]]; exact H. }
  destruct (fexp prec emax (Zdigits2 m + e) - e); simpl; auto.
  apply iter_pos_shr_1_nonneg, H0.
Qed.

Lemma round_nearest_even_bounds m l :
  m <= round_nearest_even m l <= m + 1.
Proof. destruct l as [|[]]; simpl; try lia. destruct (Z.even m); lia. Qed.

(** Rounding a nonnegative mantissa keeps the sign it was given and never
    produces a NaN. *)
Lemma binary_round_aux_sign s m e l :
  0 <= m -> has_sign s (binary_round_aux prec emax s m e l).
Proof.
  intros H. unfold binary_round_aux.
  pose proof (shr_fexp_nonneg m e l H) as H1.
  destruct (shr_fexp prec emax m e l) as [mrs' e'] eqn:E1. simpl in H1.
  pose proof (round_nearest_even_bounds (shr_m mrs') (loc_of_shr_record mrs')) as Hr.
  assert (Hm1 : 0 <= round_nearest_even (shr_m mrs') (loc_of_shr_record mrs')) by lia.
  pose proof (shr_fexp_nonneg _ e' loc_Exact Hm1) as H2.
  destruct (shr_fexp prec emax _ e' loc_Exact) as [mrs'' e''] eqn:E2.
  simpl in H2.
  destruct (shr_m mrs'') as [|p|p]; simpl; [reflexivity | | lia].
  destruct (e'' <=? emax - prec); reflexivity.
Qed.

Lemma binary_round_sign s m e : has_sign s (binary_round prec emax s m e).
Proof.
  unfold binary_round.
  destruct (shl_align m e _) as [mz ez].
  apply binary_round_aux_sign. lia.
Qed.

Lemma nonneg_has_sign f : nonneg f = true <-> has_sign false f.
Proof.
  destruct f as [[]|[]| |[] m e]; simpl; split; intros H; congruence || tauto.
Qed.

Lemma of_Z_nonneg z : 0 <= z -> nonneg (of_Z z) = true.
Proof.
  intros H. apply nonneg_has_sign. unfold of_Z, binary_normalize.
  destruct z as [|p|p]; [reflexivity | apply binary_round_sign | lia].
Qed.

Lemma mul_nonneg x y :
  nonneg x = true -> nonneg y = true ->
  is_finite x = true -> is_finite y = true ->
  nonneg (mul x y) = true.
Proof.
  intros Hx Hy Fx Fy. apply nonneg_has_sign.
  destruct x as [[]|[]| |[] mx ex]; try discriminate;
  destruct y as [[]|[]| |[] my ey]; try discriminate; try reflexivity.
  unfold mul, SFmul. simpl xorb. apply binary_round_aux_sign. lia.
Qed.

Lemma add_nonneg x y :
  nonneg x = true -> nonneg y = true -> nonneg (add x y) = true.
Proof.
  intros Hx Hy. apply nonneg_has_sign.
  destruct x as [[]|[]| |[] mx ex]; try discriminate;
  destruct y as [[]|[]| |[] my ey]; try discriminate; try reflexivity.
  unfold add, SFadd, cond_Zopp, binary_normalize.
  destruct (shl_align mx ex _) as [a ?], (shl_align my ey _) as [b ?]. simpl fst.
  change (Z.pos a + Z.pos b) with (Z.pos (a + b)).
  apply binary_round_sign.
Qed.

(** [f >= 0.0] holds, and [f < 0] fails, for such a float. *)
Lemma nonneg_ge_zero f : nonneg f = true -> leb zero f = true.
Proof. destruct f as [[]|[]| |[] m e]; simpl; intros H; congruence || reflexivity. Qed.

Lemma nonneg_not_negative f : nonneg f = true -> num_ltb (NFloat f) (NInt 0) = false.
Proof.
  destruct f as [[]|[]| |[] m e]; simpl; intros H; try congruence; try reflexivity.
  unfold num_ltb, num_compare, Zcompare_float. simpl.
  destruct (0 <=? e) eqn:He; simpl; [|reflexivity].
  apply Z.leb_le in He.
  assert (0 < Z.pos m * 2 ^ e) by (apply Z.mul_pos_pos; [lia | apply Z.pow_pos_nonneg; lia]).
  destruct (Z.pos m * 2 ^ e) eqn:E; try lia. reflexivity.
Qed.

(** *** The range of integers that convert to a finite double *)

Lemma digits2_pos_size p : digits2_pos p = Pos.size p.
Proof. induction p; simpl; congruence. Qed.

Lemma digits_upper p : Z.pos p < 2 ^ Z.pos (digits2_pos p).
Proof.
  rewrite digits2_pos_size.
  pose proof (Pos.size_gt p) as H.
  apply Pos2Z.pos_lt_pos in H. rewrite Pos2Z.inj_pow in H. exact H.
Qed.

Lemma digits_lower p : 2 ^ (Z.pos (digits2_pos p) - 1) <= Z.pos p.
Proof.
  rewrite digits2_pos_size.
  pose proof (Pos.size_le p) as H.
  apply Pos2Z.pos_le_pos in H. rewrite Pos2Z.inj_pow in H.
  replace (Z.pos (Pos.size p)) with (Z.succ (Z.pos (Pos.size p) - 1)) in H by lia.
  rewrite Z.pow_succ_r in H by lia. lia.
Qed.

Lemma Zdigits2_le m k : 0 <= k -> 0 <= m < 2 ^ k -> Zdigits2 m <= k.
Proof.
  intros Hk [H0 Hm]. destruct m as [|p|p]; simpl; [lia | | lia].
  destruct (Z_le_gt_dec (Z.pos (digits2_pos p)) k) as [|Hgt]; [assumption|].
  pose proof (digits_lower p) as Hl.
  assert (2 ^ k <= 2 ^ (Z.pos (digits2_pos p) - 1)) by (apply Z.pow_le_mono_r; lia).
  lia.
Qed.

Lemma shr_1_m mrs : 0 <= shr_m mrs -> shr_m (shr_1 mrs) = shr_m mrs / 2.
Proof.
  destruct mrs as [m r s]; simpl. intros H.
  destruct m as [|p|p]; [reflexivity | | lia].
  destruct p as [p|p|]; simpl shr_m.
  - rewrite Pos2Z.inj_xI. apply Z.div_unique with 1; lia.
  - rewrite Pos2Z.inj_xO. apply Z.div_unique with 0; lia.
  - reflexivity.
Qed.

(** Shifting right [p] times divides the mantissa by [2^p]. *)
Lemma iter_pos_shr_1_m p : forall mrs,
  0 <= shr_m mrs ->
  shr_m (SpecFloat.iter_pos shr_1 p mrs) = shr_m mrs / 2 ^ Z.pos p.
Proof.
  assert (Hpow : forall q, 0 < 2 ^ Z.pos q) by (intros; apply Z.pow_pos_nonneg; lia).
  induction p as [p IH|p IH|]; intros mrs H; simpl SpecFloat.iter_pos.
  - rewrite IH, IH, shr_1_m by auto using iter_pos_shr_1_nonneg, shr_1_nonneg.
    pose proof (Hpow p).
    replace (Z.pos p~1) with (1 + Z.pos p + Z.pos p) by lia.
    rewrite !Z.pow_add_r, Z.pow_1_r by lia.
    rewrite !Z.div_div by lia. f_equal. lia.
  - rewrite IH, IH by auto using iter_pos_shr_1_nonneg.
    pose proof (Hpow p).
    replace (Z.pos p~0) with (Z.pos p + Z.pos p) by lia.
    rewrite Z.pow_add_r by lia.
    rewrite Z.div_div by lia. reflexivity.
  - rewrite shr_1_m by assumption. reflexivity.
Qed.

(** One truncation step on an exact positive mantissa: the exponent it
    yields, and the width of the mantissa once rounded. *)
Lemma shr_fexp_exact_bounds p e :
  let D := Zdigits2 (Z.pos p) + e in
  let '(mrs, e') := shr_fexp prec emax (Z.pos p) e loc_Exact in
  0 <= shr_m mrs /\
  e' <= Z.max e (fexp prec emax D) /\
  Zdigits2 (round_nearest_even (shr_m mrs) (loc_of_shr_record mrs)) + e'
    <= Z.max (D + 1) (e' + 1).
Proof.
  intros D. unfold shr_fexp, shr. fold D.
  destruct (fexp prec emax D - e) as [|q|q] eqn:En.
  - simpl. split; [lia|]. split; [lia|]. subst D. simpl. lia.
  - set (mrs := SpecFloat.iter_pos shr_1 q _).
    assert (Hm : shr_m mrs = Z.pos p / 2 ^ Z.pos q).
    { subst mrs. rewrite iter_pos_shr_1_m; simpl; [reflexivity | lia]. }
    assert (Hq : 0 < 2 ^ Z.pos q) by (apply Z.pow_pos_nonneg; lia).
    assert (H0 : 0 <= shr_m mrs) by (rewrite Hm; apply Z.div_pos; lia).
    split; [exact H0|]. split; [lia|].
    pose proof (round_nearest_even_bounds (shr_m mrs) (loc_of_shr_record mrs)) as Hr.
    set (m1 := round_nearest_even _ _) in *.
    set (d := Z.pos (digits2_pos p)).
    assert (Hd : Z.pos p < 2 ^ d) by apply digits_upper.
    destruct (Z_le_gt_dec (Z.pos q) d) as [Hle|Hgt].
    + assert (Hlt : shr_m mrs < 2 ^ (d - Z.pos q)).
      { rewrite Hm. apply Z.div_lt_upper_bound; [lia|].
        rewrite <- Z.pow_add_r by lia. replace (Z.pos q + (d - Z.pos q)) with d by lia.
        exact Hd. }
      assert (Zdigits2 m1 <= d - Z.pos q + 1).
      { apply Zdigits2_le; [lia|]. split; [lia|].
        rewrite Z.pow_add_r, Z.pow_1_r by lia.
        assert (0 < 2 ^ (d - Z.pos q)) by (apply Z.pow_pos_nonneg; lia). lia. }
      subst D. simpl Zdigits2. fold d. lia.
    + assert (Hz : shr_m mrs = 0).
      { rewrite Hm. apply Z.div_small. split; [lia|].
        apply Z.lt_le_trans with (2 ^ d); [exact Hd|].
        apply Z.pow_le_mono_r; lia. }
      assert (Zdigits2 m1 <= 1) by (apply Zdigits2_le; simpl; lia).
      lia.
  - simpl. split; [lia|]. split; [lia|]. subst D. simpl. lia.
Qed.

Lemma shr_fexp_exponent m e l :
  snd (shr_fexp prec emax m e l) <= Z.max e (fexp prec emax (Zdigits2 m + e)).
Proof.
  unfold shr_fexp, shr.
  destruct (fexp prec emax (Zdigits2 m + e) - e) eqn:E; simpl; lia.
Qed.

Lemma binary_round_aux_finite s p e :
  Zdigits2 (Z.pos p) + e <= 1023 -> e <= 970 ->
  is_finite (binary_round_aux prec emax s (Z.pos p) e loc_Exact) = true.
Proof.
  intros HD He. unfold binary_round_aux.
  pose proof (shr_fexp_exact_bounds p e) as H1. cbv zeta in H1.
  destruct (shr_fexp prec emax (Z.pos p) e loc_Exact) as [mrs' e'].
  destruct H1 as (Hm' & He' & Hd').
  set (m1 := round_nearest_even (shr_m mrs') (loc_of_shr_record mrs')) in *.
  assert (Hm1 : 0 <= m1).
  { pose proof (round_nearest_even_bounds (shr_m mrs') (loc_of_shr_record mrs')).
    subst m1. lia. }
  assert (He'' : e' <= 970).
  { revert He'. unfold fexp, emin, prec, emax. lia. }
  pose proof (shr_fexp_exponent m1 e' loc_Exact) as H2.
  pose proof (shr_fexp_nonneg m1 e' loc_Exact Hm1) as H3.
  destruct (shr_fexp prec emax m1 e' loc_Exact) as [mrs'' e''].
  simpl in H2, H3.
  assert (e'' <= 971).
  { revert H2. unfold fexp, emin, prec, emax. lia. }
  destruct (shr_m mrs'') as [|p2|p2]; [reflexivity | | lia].
  replace (e'' <=? emax - prec) with true; [reflexivity|].
  symmetry. apply Z.leb_le. unfold emax, prec. lia.
Qed.

Lemma digits2_pos_iter_xO p d :
  Z.pos (digits2_pos (Pos.iter xO p d)) = Z.pos (digits2_pos p) + Z.pos d.
Proof.
  induction d as [|d IH] using Pos.peano_ind.
  - simpl. lia.
  - rewrite Pos.iter_succ. simpl digits2_pos. lia.
Qed.

(** Every nonnegative integer of at most 1023 bits converts to a finite
    double: [float(z)] does not overflow. *)
Lemma of_Z_finite z : 0 <= z < 2 ^ 1023 -> is_finite (of_Z z) = true.
Proof.
  intros [H0 Hz]. destruct z as [|p|p]; [reflexivity | | lia].
  assert (Hd : Z.pos (digits2_pos p) <= 1023).
  { apply (Zdigits2_le (Z.pos p) 1023); lia. }
  unfold of_Z, binary_normalize, binary_round, shl_align.
  set (fe := fexp prec emax (Z.pos (digits2_pos p) + 0)).
  assert (Hfe : fe <= 970) by (subst fe; unfold fexp, emin, prec, emax; lia).
  destruct (fe - 0) as [|q|q] eqn:Eq.
  - apply binary_round_aux_finite; simpl; lia.
  - apply binary_round_aux_finite; simpl; lia.
  - apply binary_round_aux_finite; [|lia].
    simpl Zdigits2. rewrite digits2_pos_iter_xO. lia.
Qed.

Lemma shr_1_r mrs : 0 <= shr_m mrs -> shr_r (shr_1 mrs) = Z.testbit (shr_m mrs) 0.
Proof.
  destruct mrs as [m r s]; simpl. intros H.
  destruct m as [|p|p]; [reflexivity | | lia].
  destruct p; reflexivity.
Qed.

(** The round bit after [p] shifts is bit [p - 1] of the mantissa. *)
Lemma iter_pos_shr_1_r p : forall mrs,
  0 <= shr_m mrs ->
  shr_r (SpecFloat.iter_pos shr_1 p mrs) = Z.testbit (shr_m mrs) (Z.pos p - 1).
Proof.
  induction p as [p IH|p IH|]; intros mrs H; simpl SpecFloat.iter_pos.
  - rewrite IH by auto using iter_pos_shr_1_nonneg, shr_1_nonneg.
    rewrite iter_pos_shr_1_m, shr_1_m by auto using shr_1_nonneg.
    rewrite Z.div_pow2_bits by lia.
    change 2 with (2 ^ 1) at 1. rewrite Z.div_pow2_bits by lia.
    f_equal. lia.
  - rewrite IH by auto using iter_pos_shr_1_nonneg.
    rewrite iter_pos_shr_1_m by assumption.
    rewrite Z.div_pow2_bits by lia. f_equal. lia.
  - apply shr_1_r, H.
Qed.

Lemma Zdigits2_ge m k : 0 <= k -> 2 ^ k <= m -> k < Zdigits2 m.
Proof.
  intros Hk Hm.
  assert (0 < 2 ^ k) by (apply Z.pow_pos_nonneg; lia).
  destruct m as [|p|p]; try lia. simpl.
  pose proof (digits_upper p) as Hu.
  destruct (Z_lt_le_dec k (Z.pos (digits2_pos p))) as [|Hle]; [assumption|].
  assert (2 ^ Z.pos (digits2_pos p) <= 2 ^ k) by (apply Z.pow_le_mono_r; lia).
  lia.
Qed.

(** The largest integers that still convert: 1024 bits, below the midpoint
    between the largest double and [2^1024]. *)
Lemma of_Z_finite_top z :
  2 ^ 1023 <= z < 2 ^ 1024 - 2 ^ 970 -> is_finite (of_Z z) = true.
Proof.
  intros [Hlo Hhi].
  set (P := 2 ^ 970) in *.
  assert (HP : 0 < P) by (subst P; apply Z.pow_pos_nonneg; lia).
  assert (E971 : 2 ^ 971 = 2 * P) by (subst P; rewrite <- Z.pow_succ_r by lia; reflexivity).
  assert (E1023 : 2 ^ 1023 = 2 ^ 53 * P)
    by (subst P; rewrite <- Z.pow_add_r by lia; reflexivity).
  assert (E1024 : 2 ^ 1024 = 2 ^ 54 * P)
    by (subst P; rewrite <- Z.pow_add_r by lia; reflexivity).
  destruct z as [|p|p]; try lia.
  assert (Hd : Z.pos (digits2_pos p) = 1024).
  { pose proof (Zdigits2_le (Z.pos p) 1024) as Hle.
    pose proof (Zdigits2_ge (Z.pos p) 1023) as Hge. simpl in Hle, Hge. lia. }
  unfold of_Z, binary_normalize, binary_round, shl_align.
  rewrite Hd. change (fexp prec emax (1024 + 0) - 0) with 971.
  cbv iota beta. change (fexp prec emax (1024 + 0)) with 971.
  unfold binary_round_aux, shr_fexp at 1. simpl Zdigits2. rewrite Hd.
  change (fexp prec emax (1024 + 0) - 0) with 971. unfold shr at 1.
  set (mrs := SpecFloat.iter_pos shr_1 971 (shr_record_of_loc (Z.pos p) loc_Exact)).
  assert (Hm : shr_m mrs = Z.pos p / (2 * P)).
  { subst mrs. rewrite iter_pos_shr_1_m by (simpl; lia). simpl shr_m.
    rewrite E971. reflexivity. }
  assert (Hr : shr_r mrs = Z.testbit (Z.pos p) 970).
  { subst mrs. rewrite iter_pos_shr_1_r by (simpl; lia). reflexivity. }
  assert (Hmlo : 2 ^ 52 <= shr_m mrs).
  { rewrite Hm. apply Z.div_le_lower_bound; lia. }
  assert (Hmhi : shr_m mrs < 2 ^ 53).
  { rewrite Hm. apply Z.div_lt_upper_bound; lia. }
  set (m1 := round_nearest_even (shr_m mrs) (loc_of_shr_record mrs)).
  assert (Hm1 : 2 ^ 52 <= m1 < 2 ^ 53).
  { pose proof (round_nearest_even_bounds (shr_m mrs) (loc_of_shr_record mrs)) as Hb.
    fold m1 in Hb. split; [lia|].
    destruct (Z.eq_dec (shr_m mrs) (2 ^ 53 - 1)) as [Etop|]; [|lia].
    assert (Hbit : shr_r mrs = false).
    { rewrite Hr. apply Z.testbit_false; [lia|]. fold P.
      assert (Hq : Z.pos p / P = 2 * (2 ^ 53 - 1)).
      { symmetry. apply Z.div_unique with (Z.pos p - 2 * (2 ^ 53 - 1) * P).
        - left. rewrite Hm in Etop.
          pose proof (Z.mul_div_le (Z.pos p) (2 * P)) as Hle.
          rewrite Etop in Hle. lia.
        - lia. }
      rewrite Hq, Z.mul_comm. apply Z.mod_mul. lia. }
    subst m1. destruct mrs as [m r s]. simpl in Hbit. subst r.
    simpl. destruct s; simpl in *; lia. }
  assert (Hd1 : Zdigits2 m1 = 53).
  { pose proof (Zdigits2_le m1 53) as Hle.
    pose proof (Zdigits2_ge m1 52) as Hge. lia. }
  unfold shr_fexp. rewrite Hd1.
  change (fexp prec emax (53 + (0 + 971)) - (0 + 971)) with 0.
  unfold shr. simpl shr_m.
  destruct m1 as [|q|q]; try lia. reflexivity.
Qed.

(** [float(z)] does not overflow for [0 <= z < 2^1024 - 2^970]. *)
Lemma of_Z_finite_range z :
  0 <= z < 2 ^ 1024 - 2 ^ 970 -> is_finite (of_Z z) = true.
Proof.
  intros [H0 Hz]. destruct (Z_lt_le_dec z (2 ^ 1023)).
  - apply of_Z_finite. lia.
  - apply of_Z_finite_top. lia.
Qed.

(** The bound is tight: the conversion overflows at [2^1024 - 2^970]. *)
Example of_Z_last_finite :
  is_finite (of_Z (2 ^ 1024 - 2 ^ 970 - 1)) = true
  /\ is_finite (of_Z (2 ^ 1024 - 2 ^ 970)) = false.
Proof. split; vm_compute; reflexivity. Qed.

End F64Facts.

(* ===================================================================== *)
(** ** Facts about the registry *)
(* ===================================================================== *)

Module RegistryFacts.

Import Registry.

Lemma xadd_assoc a b c : xadd (xadd a b) c = xadd a (xadd b c).
Proof.
  destruct a as [p|[]|], b as [q|[]|], c as [r|[]|]; simpl; try reflexivity.
  f_equal. ring.
Qed.

Lemma xadd_0_r a : xadd a (XFin 0) = a.
Proof. destruct a as [p|s|]; simpl; try reflexivity. f_equal. ring. Qed.

Lemma xadd_0_l a : xadd (XFin 0) a = a.
Proof. destruct a as [p|s|]; simpl; try reflexivity. f_equal. ring. Qed.

Lemma counter_value_apply o r k :
  counter_value (apply o r) k = xadd (counter_value r k) (contribution k o).
Proof.
  unfold contribution. destruct o as [k' a|k' a|k' a]; simpl;
    try (symmetry; apply xadd_0_r).
  unfold inc. destruct (num_ltb a (NInt 0)) eqn:Hneg; simpl.
  - rewrite andb_false_r. simpl. symmetry. apply xadd_0_r.
  - rewrite andb_true_r. unfold counter_value at 1. simpl.
    destruct (decide (k' = k)) as [->|Hne].
    + rewrite lookup_insert_eq, bool_decide_eq_true_2 by reflexivity. reflexivity.
    + rewrite lookup_insert_ne, bool_decide_eq_false_2 by assumption.
      simpl. symmetry. apply xadd_0_r.
Qed.

Lemma run_cons o ops r : run (o :: ops) r = run ops (apply o r).
Proof. reflexivity. Qed.

Lemma run_app ops1 ops2 r : run (ops1 ++ ops2) r = run ops2 (run ops1 r).
Proof. unfold run. apply foldl_app. Qed.

Lemma counter_value_run ops : forall r k,
  counter_value (run ops r) k
  = xadd (counter_value r k) (xsum (contribution k <$> ops)).
Proof.
  induction ops as [|o ops IH]; intros r k.
  - simpl. symmetry. apply xadd_0_r.
  - rewrite run_cons, IH, counter_value_apply. simpl. apply xadd_assoc.
Qed.

Lemma xsum_contribution k ops :
  xsum (contribution k <$> ops) = xsum (exact <$> omap (accepted k) ops).
Proof.
  induction ops as [|o ops IH]; [reflexivity|].
  change (xsum (contribution k <$> o :: ops))
    with (xadd (contribution k o) (xsum (contribution k <$> ops))).
  change (omap (accepted k) (o :: ops))
    with (match accepted k o with
          | Some a => a :: omap (accepted k) ops
          | None => omap (accepted k) ops
          end).
  rewrite IH. unfold contribution.
  destruct (accepted k o) as [a|]; [reflexivity | apply xadd_0_l].
Qed.

(** Operations on other series and other instruments leave a counter alone. *)
Lemma counter_value_run_untouched ops r k :
  Forall (fun o => accepted k o = None) ops ->
  counter_value (run ops r) k = counter_value r k.
Proof.
  intros H. rewrite counter_value_run.
  replace (xsum (contribution k <$> ops)) with (XFin 0); [apply xadd_0_r|].
  induction H as [|o ops Ho _ IH]; [reflexivity|].
  change (xsum (contribution k <$> o :: ops))
    with (xadd (contribution k o) (xsum (contribution k <$> ops))).
  rewrite <- IH. unfold contribution. rewrite Ho. reflexivity.
Qed.

Lemma accepted_other_name k k' a : k'.1 <> k.1 -> accepted k (OpInc k' a) = None.
Proof.
  intros H. simpl. rewrite bool_decide_eq_false_2; [reflexivity|].
  intros ->. apply H. reflexivity.
Qed.

Lemma reg_histograms_apply_inc k a r :
  reg_histograms (apply (OpInc k a) r) = reg_histograms r.
Proof. simpl. unfold inc. destruct (num_ltb a (NInt 0)); reflexivity. Qed.

Lemma reg_gauges_apply_inc k a r :
  reg_gauges (apply (OpInc k a) r) = reg_gauges r.
Proof. simpl. unfold inc. destruct (num_ltb a (NInt 0)); reflexivity. Qed.

Lemma contribution_same k a :
  num_ltb a (NInt 0) = false -> contribution k (OpInc k a) = exact a.
Proof.
  intros H. unfold contribution. simpl.
  rewrite bool_decide_eq_true_2, H by reflexivity. reflexivity.
Qed.

Lemma contribution_other k k' a : k' <> k -> contribution k (OpInc k' a) = XFin 0.
Proof.
  intros H. unfold contribution. simpl.
  rewrite bool_decide_eq_false_2 by assumption. reflexivity.
Qed.

Lemma observations_apply_observe k a r :
  observations (apply (OpObserve k a) r) k = observations r k ++ [a].
Proof. unfold observations. simpl. rewrite lookup_insert_eq. reflexivity. Qed.

Lemma observations_apply_inc k k' a r :
  observations (apply (OpInc k' a) r) k = observations r k.
Proof. unfold observations. rewrite reg_histograms_apply_inc. reflexivity. Qed.

Lemma observations_run_incs ops r k :
  Forall (fun o => match o with OpInc _ _ => True | _ => False end) ops ->
  observations (run ops r) k = observations r k.
Proof.
  intros H. revert r. induction H as [|o ops Ho _ IH]; intros r; [reflexivity|].
  rewrite run_cons, IH. destruct o; try contradiction.
  apply observations_apply_inc.
Qed.

(** An observation followed by increments only. *)
Lemma observations_run_observe_incs k a ops r :
  Forall (fun o => match o with OpInc _ _ => True | _ => False end) ops ->
  observations (run (OpObserve k a :: ops) r) k = observations r k ++ [a].
Proof.
  intros H. rewrite run_cons, observations_run_incs by assumption.
  apply observations_apply_observe.
Qed.

Lemma gauge_value_set_eq k a r : gauge_value (apply (OpSet k a) r) k = Some a.
Proof. unfold gauge_value. simpl. apply lookup_insert_eq. Qed.

Lemma gauge_value_set_ne k k' a r :
  k' <> k -> gauge_value (apply (OpSet k' a) r) k = gauge_value r k.
Proof. intros H. unfold gauge_value. simpl. apply lookup_insert_ne, H. Qed.

(** *** Order facts behind "never decreases" *)

Lemma Q2Qc_nonneg q : (0 <= q)%Q -> (0 <= Q2Qc q)%Qc.
Proof.
  intros H. unfold Qcle. cbn [this Q2Qc].
  assert (E : (Qred q == q)%Q) by apply Qred_correct.
  rewrite E. exact H.
Qed.

Lemma exact_accepted a : num_ltb a (NInt 0) = false -> nonnegative (exact a).
Proof.
  destruct a as [z|f]; unfold num_ltb, num_compare.
  - intros H. simpl. apply Q2Qc_nonneg. unfold Qle. simpl.
    destruct (z ?= 0) eqn:E; try discriminate;
      [apply Z.compare_eq in E | apply Z.compare_gt_iff in E]; lia.
  - destruct f as [s|s| |s m e]; simpl.
    + intros _. apply Qcle_refl.
    + destruct s; [discriminate | reflexivity].
    + trivial.
    + destruct s.
      * intros H. exfalso.
        destruct (0 <=? e) eqn:He; simpl in H.
        -- apply Z.leb_le in He.
           assert (0 < 2 ^ e) by (apply Z.pow_pos_nonneg; lia).
           assert (Hlt : Z.neg m * 2 ^ e < 0) by nia.
           destruct (Z.neg m * 2 ^ e) eqn:E; try lia. discriminate.
        -- discriminate.
      * intros _. apply Q2Qc_nonneg.
        destruct (0 <=? e) eqn:He.
        -- apply Z.leb_le in He.
           assert (0 < 2 ^ e) by (apply Z.pow_pos_nonneg; lia).
           unfold Qle. simpl. nia.
        -- unfold Qle. simpl. lia.
Qed.

Lemma nonnegative_contribution k o : nonnegative (contribution k o).
Proof.
  unfold contribution. destruct o as [k' a|k' a|k' a]; simpl; try apply Qcle_refl.
  destruct (bool_decide (k' = k)); simpl; [|apply Qcle_refl].
  destruct (num_ltb a (NInt 0)) eqn:E; simpl; [apply Qcle_refl|].
  apply exact_accepted, E.
Qed.

Lemma not_below_refl a : not_below a a.
Proof.
  destruct a as [p|s|]; [right|right|left; reflexivity]; simpl.
  - apply bool_decide_eq_true_2, Qcle_refl.
  - destruct s; reflexivity.
Qed.

Lemma not_below_trans a b c : not_below a b -> not_below b c -> not_below a c.
Proof.
  intros [->|Hab] [->|Hbc]; [left; reflexivity | | left; reflexivity | right].
  - destruct c; discriminate.
  - destruct a as [p|s|], b as [q|t|], c as [r|u|]; simpl in *; try discriminate;
      try reflexivity; try assumption;
      try (apply bool_decide_eq_true_2;
           apply bool_decide_eq_true_1 in Hab, Hbc; eapply Qcle_trans; eassumption);
      repeat match goal with x : bool |- _ => destruct x end;
      simpl in *; try discriminate; try reflexivity.
Qed.

Lemma not_below_xadd v c : nonnegative c -> not_below v (xadd v c).
Proof.
  destruct v as [p|s|], c as [q|t|]; simpl; intros H;
    try (left; reflexivity); subst.
  - right. simpl. apply bool_decide_eq_true_2.
    rewrite <- (Qcplus_0_r p) at 1. apply Qcplus_le_compat; [apply Qcle_refl | exact H].
  - right. reflexivity.
  - right. simpl. destruct s; reflexivity.
  - destruct s; simpl; [left | right]; reflexivity.
Qed.

Lemma not_below_run ops : forall r k,
  not_below (counter_value r k) (counter_value (run ops r) k).
Proof.
  induction ops as [|o ops IH]; intros r k.
  - apply not_below_refl.
  - rewrite run_cons. eapply not_below_trans; [|apply IH].
    rewrite counter_value_apply. apply not_below_xadd, nonnegative_contribution.
Qed.

Lemma not_below_not_lt a b : not_below a b -> xltb b a = false.
Proof.
  intros [->|H]; [reflexivity|].
  destruct a as [p|s|], b as [q|t|]; simpl in *; try discriminate; try reflexivity;
    try (apply bool_decide_eq_true_1 in H; apply bool_decide_eq_false_2;
         apply Qcle_not_lt, H);
    repeat match goal with x : bool |- _ => destruct x end;
    simpl in *; try discriminate; try reflexivity.
Qed.

End RegistryFacts.

(* ===================================================================== *)
(** ** The literals and conversions of the module, evaluated *)
(* ===================================================================== *)

Section Literals.

Import Exporter.

(** [3.0], [15.0] and the thresholds [0.85], [0.70] as doubles:
    [0.85 = 0x1.b333333333333p-1] and [0.70 = 0x1.6666666666666p-1]. *)
Example float_literals :
  F64.lit 30 10 = F64.of_Z 3
  /\ F64.lit 150 10 = F64.of_Z 15
  /\ F64.lit 85 100 = S754_finite false 7656119366529843 (-53)
  /\ F64.lit 70 100 = S754_finite false 6305039478318694 (-53).
Proof. repeat split; vm_compute; reflexivity. Qed.

(** [3.0 / 1_000_000 = 0x1.92a737110e454p-19] is not three millionths
    exactly, yet one million times it rounds back to [3.0]. *)
Example sonnet_input_rate :
  per_million (F64.lit 30 10) = S754_finite false 7083549724304468 (-71)
  /\ F64.mul (F64.of_Z 1000000) (per_million (F64.lit 30 10)) = F64.of_Z 3.
Proof. split; vm_compute; reflexivity. Qed.

(** [str] of the label values that are not strings already. *)
Example py_str_scalars :
  py_str Samples.render (VInt 500) = "500"
  /\ py_str Samples.render (VInt (-7)) = "-7"
  /\ py_str Samples.render (VBool true) = "True"
  /\ py_str Samples.render VNone = "None"
  /\ py_str Samples.render (VStr "billing") = "billing".
Proof. repeat split; vm_compute; reflexivity. Qed.

(** [1 > 0.85], [0 > 0.70] and a NaN against both thresholds. *)
Example int_against_thresholds :
  num_gtb (NInt 1) (NFloat (F64.lit 85 100)) = true
  /\ num_gtb (NInt 0) (NFloat (F64.lit 70 100)) = false
  /\ num_gtb (NFloat S754_nan) (NFloat (F64.lit 85 100)) = false
  /\ num_gtb (NFloat S754_nan) (NFloat (F64.lit 70 100)) = false.
Proof. repeat split; vm_compute; reflexivity. Qed.

End Literals.

(* ===================================================================== *)
(** ** Running the exporter's computations *)
(* ===================================================================== *)

Section Execution.

Import Exporter Registry.

Variable obj_str : value -> string.

Lemma bind_assoc {A B C} (c : M A) (f : A -> M B) (g : B -> M C) w :
  bind (bind c f) g w = bind c (fun x => bind (f x) g) w.
Proof. unfold bind. destruct (c w) as [[a|e] w']; reflexivity. Qed.

Lemma bind_ret {A B} (a : A) (k : A -> M B) w : bind (ret a) k w = k a w.
Proof. reflexivity. Qed.

Lemma bind_raise {A B} (e : exn) (k : A -> M B) w :
  bind (raise e) k w = (Raised e, w).
Proof. reflexivity. Qed.

Lemma bind_returned {A B} (c : M A) (k : A -> M B) w a w' :
  c w = (Returned a, w') -> bind c k w = k a w'.
Proof. intros H. unfold bind. rewrite H. reflexivity. Qed.

Lemma bind_raised {A B} (c : M A) (k : A -> M B) w e w' :
  c w = (Raised e, w') -> bind c k w = (Raised e, w').
Proof. intros H. unfold bind. rewrite H. reflexivity. Qed.

Lemma bind_time_time {B} (k : spec_float -> M B) w :
  bind time_time k w = k (w_now w) w.
Proof. reflexivity. Qed.

Lemma bind_logger {B} lv text (k : unit -> M B) w :
  bind (logger lv text) k w = k tt (logged (Log lv text) w).
Proof. reflexivity. Qed.

Lemma bind_dict_get {B} d key dflt (k : value -> M B) w :
  bind (dict_get (VDict d) key dflt) k w = k (default dflt (d !! key)) w.
Proof. reflexivity. Qed.

Lemma bind_getattr {B} cls attrs name a (k : value -> M B) w :
  attrs !! name = Some a ->
  bind (getattr (VObj cls attrs) name) k w = k a w.
Proof. intros H. unfold getattr. rewrite H. reflexivity. Qed.

Lemma bind_hist_observe {B} key amount (k : unit -> M B) w :
  bind (hist_observe key amount) k w
  = k tt (with_registry (apply (OpObserve key (NFloat amount)) (w_registry w)) w).
Proof. reflexivity. Qed.

Lemma bind_gauge_set {B} key amount (k : unit -> M B) w :
  bind (gauge_set key amount) k w
  = k tt (with_registry (apply (OpSet key (NInt amount)) (w_registry w)) w).
Proof. reflexivity. Qed.

Lemma bind_labels {B} m kw lv (k : series -> M B) w :
  label_values m (map (fun p => (p.1, py_str obj_str p.2)) kw) = Some lv ->
  bind (labels obj_str m kw) k w = k (m_name m, lv) w.
Proof. intros H. unfold bind, labels. rewrite H. reflexivity. Qed.

Lemma bind_counter_inc {B} key amount n (k : unit -> M B) w :
  number_of_value amount = Some n ->
  num_ltb n (NInt 0) = false ->
  bind (counter_inc key amount) k w
  = k tt (with_registry (apply (OpInc key n) (w_registry w)) w).
Proof.
  intros Hn Hneg. unfold bind, counter_inc. rewrite Hn. simpl. unfold inc.
  rewrite Hneg. reflexivity.
Qed.

Lemma bind_contains_dict {B} key d (k : bool -> M B) w :
  bind (contains key (VDict d)) k w = k (bool_decide (is_Some (d !! key))) w.
Proof. reflexivity. Qed.

Lemma bind_getitem {B} d key a (k : value -> M B) w :
  d !! key = Some a -> bind (getitem (VDict d) key) k w = k a w.
Proof. intros H. unfold getitem. rewrite H. reflexivity. Qed.

Lemma num_ltb_nonneg_int z : 0 <= z -> num_ltb (NInt z) (NInt 0) = false.
Proof.
  intros H. unfold num_ltb, num_compare.
  destruct (Z.compare_spec z 0); try reflexivity. exfalso. lia.
Qed.

Lemma w_registry_warned provider model w :
  w_registry (warned provider model w) = w_registry w.
Proof. unfold warned. destruct (rates_for provider model); reflexivity. Qed.

Lemma w_now_warned provider model w : w_now (warned provider model w) = w_now w.
Proof. unfold warned. destruct (rates_for provider model); reflexivity. Qed.

Lemma try_returned {A} (body : M A) handler w a w' :
  body w = (Returned a, w') ->
  try_except_Exception body handler w = (Returned a, w').
Proof. intros H. unfold try_except_Exception. rewrite H. reflexivity. Qed.

Lemma try_caught {A} (body : M A) handler w e w' :
  body w = (Raised e, w') -> exn_is_Exception e = true ->
  try_except_Exception body handler w = handler e w'.
Proof. intros H He. unfold try_except_Exception. rewrite H, He. reflexivity. Qed.

Lemma try_passed {A} (body : M A) handler w e w' :
  body w = (Raised e, w') -> exn_is_Exception e = false ->
  try_except_Exception body handler w = (Raised e, w').
Proof. intros H He. unfold try_except_Exception. rewrite H, He. reflexivity. Qed.

End Execution.

(** One step of a computation whose next statement can be decided. *)
Ltac mstep :=
  first
    [ rewrite bind_assoc
    | rewrite bind_ret
    | rewrite bind_raise
    | rewrite bind_time_time
    | rewrite bind_logger
    | rewrite bind_dict_get
    | rewrite bind_hist_observe
    | rewrite bind_gauge_set
    | rewrite bind_contains_dict
    | erewrite bind_getitem by (first [eassumption | reflexivity])
    | erewrite bind_getattr by (first [eassumption | reflexivity])
    | erewrite bind_labels by reflexivity
    | erewrite bind_counter_inc by (first [eassumption | reflexivity])
    | erewrite bind_returned by eassumption
    | erewrite bind_raised by eassumption ];
  cbv beta iota zeta.

Ltac msteps := repeat mstep.


(** The value of a counter after a short, explicit run of operations. *)
Ltac counter_after_run :=
  rewrite RegistryFacts.counter_value_run;
  cbn [fmap list_fmap Registry.xsum foldr];
  repeat first
    [ rewrite RegistryFacts.contribution_same by (first [assumption | reflexivity])
    | rewrite RegistryFacts.contribution_other by congruence
    | change (Registry.contribution ?k (Registry.OpObserve ?k' ?a)) with (Registry.XFin 0)
    | change (Registry.contribution ?k (Registry.OpSet ?k' ?a)) with (Registry.XFin 0) ];
  rewrite ?RegistryFacts.xadd_0_l, ?RegistryFacts.xadd_0_r.

(* ===================================================================== *)
(** ** The cost model *)
(* ===================================================================== *)

Section CostModel.

Import Exporter Registry F64Facts.

(** Every rate of the price table is a finite, nonnegative double. *)
Lemma rates_for_sound provider model r :
  rates_for provider model = Some r ->
  (F64.nonneg (rate_input r) = true /\ F64.is_finite (rate_input r) = true) /\
  (F64.nonneg (rate_output r) = true /\ F64.is_finite (rate_output r) = true).
Proof.
  unfold rates_for, pricing.
  rewrite lookup_insert. case_decide; cbn [mbind option_bind].
  - rewrite lookup_insert. case_decide; cbn [mbind option_bind].
    + intros Hr. apply (inj Some) in Hr. destruct Hr. vm_compute. tauto.
    + rewrite lookup_insert. case_decide; cbn [mbind option_bind].
      * intros Hr. apply (inj Some) in Hr. destruct Hr. vm_compute. tauto.
      * rewrite lookup_empty. discriminate.
  - rewrite lookup_insert. case_decide; cbn [mbind option_bind].
    + rewrite lookup_insert. case_decide; cbn [mbind option_bind].
      * intros Hr. apply (inj Some) in Hr. destruct Hr. vm_compute. tauto.
      * rewrite lookup_insert. case_decide; cbn [mbind option_bind].
        -- intros Hr. apply (inj Some) in Hr. destruct Hr. vm_compute. tauto.
        -- rewrite lookup_empty. discriminate.
    + rewrite lookup_empty. discriminate.
Qed.

Lemma py_mul_int z r w :
  F64.is_finite (F64.of_Z z) = true ->
  py_mul (VInt z) r w = (Returned (F64.mul (F64.of_Z z) r), w).
Proof.
  intros H. unfold py_mul, number_to_float, int_to_float. simpl. rewrite H.
  reflexivity.
Qed.

(** The cost of nonnegative token counts that convert to doubles: the call
    returns, and what it returns is not negative. Unknown pairs only add a
    warning to the log. *)
Lemma calculate_llm_cost_returns provider model i o :
  0 <= i < 2 ^ 1024 - 2 ^ 970 -> 0 <= o < 2 ^ 1024 - 2 ^ 970 ->
  exists cost,
    F64.nonneg cost = true /\
    forall w, calculate_llm_cost provider model (VInt i) (VInt o) w
              = (Returned cost, warned provider model w).
Proof.
  intros Hi Ho.
  pose proof (of_Z_finite_range i Hi) as Fi.
  pose proof (of_Z_finite_range o Ho) as Fo.
  destruct Hi as [Hi _], Ho as [Ho _].
  unfold calculate_llm_cost, warned.
  destruct (rates_for provider model) as [r|] eqn:Er.
  - destruct (rates_for_sound _ _ _ Er) as ((Ni & Fin_i) & (No & Fin_o)).
    exists (F64.add (F64.mul (F64.of_Z i) (rate_input r))
                    (F64.mul (F64.of_Z o) (rate_output r))).
    split.
    + apply add_nonneg; apply mul_nonneg; auto using of_Z_nonneg.
    + intros w. unfold bind. rewrite !py_mul_int by assumption. reflexivity.
  - exists (S754_zero false). split; reflexivity.
Qed.

(** C1. The cost model returns exact dollar values for priced models and
    degrades to zero for unknown ones: in every world,
    [cost("anthropic", "claude-sonnet-4", 1000000, 0)] is exactly the double
    3.0 and [cost("anthropic", "claude-sonnet-4", 0, 1000000)] exactly 15.0
    (rates pre-divided by one million, double-precision multiply and add);
    for any (provider, model) pair absent from the price table, whatever the
    token arguments, the function returns 0.0, raises nothing and only logs
    a warning. *)
Theorem calculate_llm_cost_exact_and_graceful :
  (forall w,
     calculate_llm_cost "anthropic" "claude-sonnet-4" (VInt 1000000) (VInt 0) w
     = (Returned (F64.lit 30 10), w)) /\
  (forall w,
     calculate_llm_cost "anthropic" "claude-sonnet-4" (VInt 0) (VInt 1000000) w
     = (Returned (F64.lit 150 10), w)) /\
  (forall provider model input_tokens output_tokens w,
     rates_for provider model = None ->
     calculate_llm_cost provider model input_tokens output_tokens w
     = (Returned (S754_zero false),
        logged (Log WARNING ("Unknown pricing for " +:+ provider +:+ "/"
                             +:+ model +:+ ", using default")) w)).
Proof.
  split; [|split].
  - intros w. vm_compute. reflexivity.
  - intros w. vm_compute. reflexivity.
  - intros provider model i o w H. unfold calculate_llm_cost. rewrite H.
    reflexivity.
Qed.

(** C10 (as amended). For every provider, every model and all nonnegative
    integer token counts below [2^1024 - 2^970] (those that convert to a
    double), [calculate_llm_cost] returns a value that is [>= 0.0] (0.0 for
    an unpriced pair, otherwise a sum of products of nonnegative rates and
    counts); the counter accepts that value, so the cost increment of the
    LLM-call wrapper never raises the negative-increment error. *)
Theorem calculate_llm_cost_never_negative provider model i o w :
  0 <= i < 2 ^ 1024 - 2 ^ 970 -> 0 <= o < 2 ^ 1024 - 2 ^ 970 ->
  exists cost w',
    calculate_llm_cost provider model (VInt i) (VInt o) w = (Returned cost, w')
    /\ F64.leb F64.zero cost = true
    /\ (forall k r, inc k (NFloat cost) r
                    = Some (apply (OpInc k (NFloat cost)) r))
    /\ (forall k w2, counter_inc k (VFloat cost) w2
                     = (Returned tt,
                        with_registry (apply (OpInc k (NFloat cost)) (w_registry w2)) w2)).
Proof.
  intros Hi Ho.
  destruct (calculate_llm_cost_returns provider model i o Hi Ho)
    as (cost & Hnn & Hrun).
  exists cost, (warned provider model w).
  split; [apply Hrun|]. split; [apply nonneg_ge_zero, Hnn|].
  pose proof (nonneg_not_negative cost Hnn) as Hneg.
  split.
  - intros k r. simpl. unfold inc. rewrite Hneg. reflexivity.
  - intros k w2. unfold counter_inc. simpl. unfold inc. rewrite Hneg. reflexivity.
Qed.

End CostModel.

(* ===================================================================== *)
(** ** The instrumentation wrappers on a failing operation *)
(* ===================================================================== *)

Section Failures.

Import Exporter Registry RegistryFacts.

Variable obj_str : value -> string.

(** C3 (as amended). When the wrapped ticket-processing operation raises,
    the wrapper raises that same exception to its caller and no instrument
    of the registry changes (no observation in the response-duration
    histogram, no increment of the processed, auto-resolved or escalated
    counters). The exception is logged first when it is an instance of
    [Exception]; one that derives from [BaseException] only is not logged. *)
Theorem track_ticket_processing_failure func d args kwargs w e w1 :
  func (VDict d) args kwargs w = (Raised e, w1) ->
  exists w2,
    track_ticket_processing obj_str func (VDict d) args kwargs w = (Raised e, w2)
    /\ w_registry w2 = w_registry w1
    /\ w_log w2
       = (if exn_is_Exception e
          then [Log ERROR ("Error processing ticket: " +:+ exn_str e)]
          else []) ++ w_log w1.
Proof.
  intros Hf. unfold track_ticket_processing. msteps.
  destruct (exn_is_Exception e) eqn:He.
  - erewrite try_caught; [ | msteps; reflexivity | assumption ].
    msteps. eexists. split; [reflexivity|]. split; reflexivity.
  - erewrite try_passed; [ | msteps; reflexivity | assumption ].
    eexists. split; [reflexivity|]. split; reflexivity.
Qed.

(** C4 (as amended). When the wrapped LLM call raises an instance of
    [Exception], the wrapper increments the request counter labelled
    (provider, model, "error") exactly once and the error counter labelled
    (provider, name of the exception's type) exactly once, touches no other
    counter series (so neither the "success" request counter nor the token
    and cost counters) and no histogram, logs, and raises the same exception
    to its caller. An exception that derives from [BaseException] only is
    not caught: it reaches the caller unchanged and nothing is recorded. *)
Theorem track_llm_call_failure provider model func args kwargs w e w1 :
  func args kwargs w = (Raised e, w1) ->
  let requests_error := (m_name llm_api_requests_total, [provider; model; "error"]) in
  let errors := (m_name llm_api_errors_total, [provider; exn_type e]) in
  (exn_is_Exception e = true ->
   exists w2,
     track_llm_call obj_str provider model func args kwargs w = (Raised e, w2)
     /\ w_registry w2
        = run [OpInc requests_error (NInt 1); OpInc errors (NInt 1)] (w_registry w1)
     /\ counter_value (w_registry w2) requests_error
        = xadd (counter_value (w_registry w1) requests_error) (XFin 1)
     /\ counter_value (w_registry w2) errors
        = xadd (counter_value (w_registry w1) errors) (XFin 1)
     /\ (forall k, k <> requests_error -> k <> errors ->
           counter_value (w_registry w2) k = counter_value (w_registry w1) k)
     /\ reg_histograms (w_registry w2) = reg_histograms (w_registry w1)
     /\ w_log w2 = Log ERROR ("LLM API error: " +:+ exn_str e) :: w_log w1) /\
  (exn_is_Exception e = false ->
   track_llm_call obj_str provider model func args kwargs w = (Raised e, w1)).
Proof.
  intros Hf requests_error errors. split; intros He.
  - unfold track_llm_call. mstep.
    erewrite try_caught; [ | msteps; reflexivity | assumption ].
    msteps.
    exists (World (run [OpInc requests_error (NInt 1); OpInc errors (NInt 1)]
                       (w_registry w1))
                  (Log ERROR ("LLM API error: " +:+ exn_str e) :: w_log w1)
                  (w_now w1)).
    split; [reflexivity|]. cbn [w_registry w_log].
    split; [reflexivity|].
    split; [subst requests_error errors; counter_after_run; reflexivity|].
    split; [subst requests_error errors; counter_after_run; reflexivity|].
    split; [intros k H1 H2; counter_after_run; reflexivity|].
    split; reflexivity.
  - unfold track_llm_call. mstep.
    erewrite try_passed; [reflexivity | msteps; reflexivity | assumption ].
Qed.

(** C6 (as amended). On success the HTTP-request wrapper increments, once,
    the request counter labelled with the request's method, the request's
    path and the response's status code, and returns the response unchanged;
    when the handler raises an instance of [Exception] it increments the same
    counter with the request's method, its path and the fixed status 500, and
    raises the same exception. An exception that derives from [BaseException]
    only is not caught: it reaches the caller and nothing is counted. *)
Theorem track_http_request_outcomes func cls attrs method path args kwargs w :
  attrs !! "method" = Some method ->
  attrs !! "path" = Some path ->
  (forall rcls rattrs status w1,
     func (VObj cls attrs) args kwargs w = (Returned (VObj rcls rattrs), w1) ->
     rattrs !! "status_code" = Some status ->
     let k := (m_name http_requests_total,
               [py_str obj_str method; py_str obj_str path; py_str obj_str status]) in
     exists w2,
       track_http_request obj_str func (VObj cls attrs) args kwargs w
       = (Returned (VObj rcls rattrs), w2)
       /\ w_registry w2 = run [OpInc k (NInt 1)] (w_registry w1)
       /\ counter_value (w_registry w2) k
          = xadd (counter_value (w_registry w1) k) (XFin 1)
       /\ w_log w2 = w_log w1) /\
  (forall e w1,
     func (VObj cls attrs) args kwargs w = (Raised e, w1) ->
     exn_is_Exception e = true ->
     let k := (m_name http_requests_total,
               [py_str obj_str method; py_str obj_str path; "500"]) in
     exists w2,
       track_http_request obj_str func (VObj cls attrs) args kwargs w
       = (Raised e, w2)
       /\ w_registry w2 = run [OpInc k (NInt 1)] (w_registry w1)
       /\ counter_value (w_registry w2) k
          = xadd (counter_value (w_registry w1) k) (XFin 1)
       /\ w_log w2 = w_log w1) /\
  (forall e w1,
     func (VObj cls attrs) args kwargs w = (Raised e, w1) ->
     exn_is_Exception e = false ->
     track_http_request obj_str func (VObj cls attrs) args kwargs w = (Raised e, w1)).
Proof.
  intros Hm Hp. split; [|split].
  - intros rcls rattrs status w1 Hf Hs k.
    unfold track_http_request.
    erewrite try_returned; [ | msteps; reflexivity ].
    exists (with_registry (run [OpInc k (NInt 1)] (w_registry w1)) w1).
    split; [reflexivity|]. cbn [w_registry w_log with_registry].
    split; [reflexivity|]. split; [|reflexivity].
    counter_after_run. reflexivity.
  - intros e w1 Hf He k.
    unfold track_http_request.
    erewrite try_caught; [ | msteps; reflexivity | assumption ].
    msteps.
    exists (with_registry (run [OpInc k (NInt 1)] (w_registry w1)) w1).
    split; [reflexivity|]. cbn [w_registry w_log with_registry].
    split; [reflexivity|]. split; [|reflexivity].
    counter_after_run. reflexivity.
  - intros e w1 Hf He.
    unfold track_http_request.
    erewrite try_passed; [reflexivity | msteps; reflexivity | assumption ].
Qed.

End Failures.

(* ===================================================================== *)
(** ** The instrumentation wrappers on a successful operation *)
(* ===================================================================== *)

Section Successes.

Import Exporter Registry RegistryFacts F64Facts.

Variable obj_str : value -> string.

(** C5 (as amended). For every wrapped LLM call that returns a mapping
    which either has no 'usage' key, or has one holding a mapping whose input
    and output token counts (0 when missing) are nonnegative integers below
    [2^1024 - 2^970] (those that convert to a double): the wrapper observes
    the elapsed wall-clock seconds in the latency histogram labelled
    (provider, model) and increments the request counter labelled
    (provider, model, "success"); if and only if the mapping has a 'usage'
    key, the token counter for "input" grows by the input-token count, the
    one for "output" by the output-token count, and the cost counter
    labelled (provider, model) by
    [cost(provider, model, input_tokens, output_tokens)]; the wrapper returns
    the result unchanged. *)
Theorem track_llm_call_success provider model func args kwargs w d w1 :
  func args kwargs w = (Returned (VDict d), w1) ->
  let latency := (m_name llm_response_duration_seconds, [provider; model]) in
  let elapsed := NFloat (F64.sub (w_now w1) (w_now w)) in
  let success := (m_name llm_api_requests_total, [provider; model; "success"]) in
  let tokens_in := (m_name llm_tokens_total, [provider; model; "input"]) in
  let tokens_out := (m_name llm_tokens_total, [provider; model; "output"]) in
  let cost_series := (m_name llm_api_cost_dollars, [provider; model]) in
  (d !! "usage" = None ->
   exists w2,
     track_llm_call obj_str provider model func args kwargs w
     = (Returned (VDict d), w2)
     /\ w_registry w2
        = run [OpObserve latency elapsed; OpInc success (NInt 1)] (w_registry w1)
     /\ observations (w_registry w2) latency
        = observations (w_registry w1) latency ++ [elapsed]
     /\ counter_value (w_registry w2) success
        = xadd (counter_value (w_registry w1) success) (XFin 1)
     /\ (forall k, k <> success ->
           counter_value (w_registry w2) k = counter_value (w_registry w1) k)) /\
  (forall u i o,
     d !! "usage" = Some (VDict u) ->
     default (VInt 0) (u !! "input_tokens") = VInt i ->
     default (VInt 0) (u !! "output_tokens") = VInt o ->
     0 <= i < 2 ^ 1024 - 2 ^ 970 -> 0 <= o < 2 ^ 1024 - 2 ^ 970 ->
     exists cost w2,
       (forall w', fst (calculate_llm_cost provider model (VInt i) (VInt o) w')
                   = Returned cost)
       /\ track_llm_call obj_str provider model func args kwargs w
          = (Returned (VDict d), w2)
       /\ w_registry w2
          = run [OpObserve latency elapsed;
                 OpInc tokens_in (NInt i); OpInc tokens_out (NInt o);
                 OpInc cost_series (NFloat cost); OpInc success (NInt 1)]
                (w_registry w1)
       /\ observations (w_registry w2) latency
          = observations (w_registry w1) latency ++ [elapsed]
       /\ counter_value (w_registry w2) tokens_in
          = xadd (counter_value (w_registry w1) tokens_in) (exact (NInt i))
       /\ counter_value (w_registry w2) tokens_out
          = xadd (counter_value (w_registry w1) tokens_out) (exact (NInt o))
       /\ counter_value (w_registry w2) cost_series
          = xadd (counter_value (w_registry w1) cost_series) (exact (NFloat cost))
       /\ counter_value (w_registry w2) success
          = xadd (counter_value (w_registry w1) success) (XFin 1)).
Proof.
  intros Hf latency elapsed success tokens_in tokens_out cost_series. split.
  - intros Hu. unfold track_llm_call. mstep.
    erewrite try_returned; [ | msteps; rewrite Hu; msteps; reflexivity ].
    exists (with_registry
              (run [OpObserve latency elapsed; OpInc success (NInt 1)] (w_registry w1))
              w1).
    split; [reflexivity|]. cbn [w_registry with_registry].
    split; [reflexivity|].
    split.
    { apply observations_run_observe_incs. repeat constructor. }
    split; [counter_after_run; reflexivity|].
    intros k Hk. counter_after_run. reflexivity.
  - intros u i o Hu Hi Ho Pi Po.
    destruct (calculate_llm_cost_returns provider model i o Pi Po)
      as (cost & Hnn & Hcost).
    pose proof (num_ltb_nonneg_int i (proj1 Pi)) as Ni.
    pose proof (num_ltb_nonneg_int o (proj1 Po)) as No.
    pose proof (nonneg_not_negative cost Hnn) as Nc.
    exists cost,
      (World (run [OpObserve latency elapsed;
                   OpInc tokens_in (NInt i); OpInc tokens_out (NInt o);
                   OpInc cost_series (NFloat cost); OpInc success (NInt 1)]
                  (w_registry w1))
             (w_log (warned provider model w1)) (w_now w1)).
    split; [intros w'; rewrite Hcost; reflexivity|].
    split.
    { unfold track_llm_call. mstep.
      erewrite try_returned; [reflexivity|].
      msteps. rewrite Hu. rewrite bool_decide_eq_true_2 by eauto. msteps.
      rewrite Hi, Ho. msteps.
      erewrite bind_returned by apply Hcost. msteps.
      unfold ret. f_equal.
      unfold warned. destruct (rates_for provider model); reflexivity. }
    cbn [w_registry].
    split; [reflexivity|].
    split.
    { apply observations_run_observe_incs. repeat constructor. }
    subst tokens_in tokens_out cost_series success.
    repeat split; counter_after_run; try reflexivity.
Qed.

End Successes.

(* ===================================================================== *)
(** ** Ticket outcomes, budget refresh and counters *)
(* ===================================================================== *)

Section Tickets.

Import Exporter Registry RegistryFacts.

Variable obj_str : value -> string.

(** The tier named by line 267 for a numeric confidence. *)
Lemma confidence_tier_number c n w :
  number_of_value c = Some n ->
  confidence_tier c w
  = (Returned (if num_gtb n (NFloat (F64.lit 85 100)) then "high"
               else if num_gtb n (NFloat (F64.lit 70 100)) then "medium"
               else "low"), w).
Proof.
  intros Hn. unfold confidence_tier, py_gt. rewrite Hn. msteps.
  destruct (num_gtb n (NFloat (F64.lit 85 100))); [reflexivity|].
  msteps. destruct (num_gtb n (NFloat (F64.lit 70 100))); reflexivity.
Qed.

(** What the wrapper does with an auto-resolved result whose confidence is a
    number (or missing, which reads as the integer 0). *)
Lemma track_ticket_processing_auto_resolved func d args kwargs w res w1 n :
  func (VDict d) args kwargs w = (Returned (VDict res), w1) ->
  truthy (default (VBool false) (res !! "auto_resolved")) = true ->
  number_of_value (default (VInt 0) (res !! "confidence")) = Some n ->
  let category := py_str obj_str (default (VStr "general_inquiry") (d !! "category")) in
  let environment := py_str obj_str (default (VStr "production") (kwargs !! "environment")) in
  let channel := py_str obj_str (default (VStr "web") (d !! "channel")) in
  let tier := if num_gtb n (NFloat (F64.lit 85 100)) then "high"
              else if num_gtb n (NFloat (F64.lit 70 100)) then "medium"
              else "low" in
  track_ticket_processing obj_str func (VDict d) args kwargs w
  = (Returned (VDict res),
     with_registry
       (run [OpObserve (unlabelled response_duration_milliseconds)
               (NFloat (F64.mul (F64.sub (w_now w1) (w_now w)) (F64.of_Z 1000)));
             OpInc (m_name tickets_processed_total, [category; environment; channel])
               (NInt 1);
             OpInc (m_name tickets_resolved_auto_total, [category; tier]) (NInt 1)]
            (w_registry w1))
       w1).
Proof.
  intros Hf Ht Hn category environment channel tier.
  unfold track_ticket_processing. msteps.
  erewrite try_returned; [reflexivity|].
  msteps. rewrite Ht. msteps.
  erewrite bind_returned by (apply confidence_tier_number, Hn).
  fold tier. msteps. reflexivity.
Qed.

(** With a confidence that is not a number the comparison of line 267
    raises [TypeError]: the wrapper logs and re-raises it, after the
    duration and the processed counter were recorded. *)
Lemma track_ticket_processing_auto_resolved_untyped func d args kwargs w res w1 :
  func (VDict d) args kwargs w = (Returned (VDict res), w1) ->
  truthy (default (VBool false) (res !! "auto_resolved")) = true ->
  number_of_value (default (VInt 0) (res !! "confidence")) = None ->
  let category := py_str obj_str (default (VStr "general_inquiry") (d !! "category")) in
  let environment := py_str obj_str (default (VStr "production") (kwargs !! "environment")) in
  let channel := py_str obj_str (default (VStr "web") (d !! "channel")) in
  exists e,
    track_ticket_processing obj_str func (VDict d) args kwargs w
    = (Raised e,
       logged (Log ERROR ("Error processing ticket: " +:+ exn_str e))
         (with_registry
            (run [OpObserve (unlabelled response_duration_milliseconds)
                    (NFloat (F64.mul (F64.sub (w_now w1) (w_now w)) (F64.of_Z 1000)));
                  OpInc (m_name tickets_processed_total,
                         [category; environment; channel]) (NInt 1)]
                 (w_registry w1))
            w1)).
Proof.
  intros Hf Ht Hn category environment channel.
  unfold track_ticket_processing. msteps.
  eexists. erewrite try_caught; [ | | ].
  - msteps. reflexivity.
  - msteps. rewrite Ht. msteps.
    unfold confidence_tier, py_gt. rewrite Hn. msteps. reflexivity.
  - reflexivity.
Qed.

(** C2. For a ticket-processing result that signals auto-resolution the
    confidence tier uses strict greater-than boundaries: a confidence of
    exactly 0.85 is 'medium', 0.86 is 'high'; any number strictly greater
    than 0.85 is 'high', any number strictly greater than 0.70 but not
    greater than 0.85 is 'medium', any other number is 'low'; the
    auto-resolved counter labelled (category, tier) is then incremented. *)
Theorem confidence_tier_strict_boundaries :
  (forall w, confidence_tier (VFloat (F64.lit 85 100)) w = (Returned "medium", w)) /\
  (forall w, confidence_tier (VFloat (F64.lit 86 100)) w = (Returned "high", w)) /\
  (forall func d args kwargs w res w1 n,
     func (VDict d) args kwargs w = (Returned (VDict res), w1) ->
     truthy (default (VBool false) (res !! "auto_resolved")) = true ->
     number_of_value (default (VInt 0) (res !! "confidence")) = Some n ->
     let above_085 := num_gtb n (NFloat (F64.lit 85 100)) in
     let above_070 := num_gtb n (NFloat (F64.lit 70 100)) in
     let tier := if above_085 then "high" else if above_070 then "medium" else "low" in
     let category :=
       py_str obj_str (default (VStr "general_inquiry") (d !! "category")) in
     let resolved := (m_name tickets_resolved_auto_total, [category; tier]) in
     exists w2,
       fst (confidence_tier (default (VInt 0) (res !! "confidence")) w1)
       = Returned tier
       /\ track_ticket_processing obj_str func (VDict d) args kwargs w
          = (Returned (VDict res), w2)
       /\ counter_value (w_registry w2) resolved
          = xadd (counter_value (w_registry w1) resolved) (XFin 1)).
Proof.
  split; [intros w; vm_compute; reflexivity|].
  split; [intros w; vm_compute; reflexivity|].
  intros func d args kwargs w res w1 n Hf Ht Hn above_085 above_070 tier category resolved.
  eexists. split; [|split].
  - rewrite (confidence_tier_number _ _ _ Hn). reflexivity.
  - apply (track_ticket_processing_auto_resolved _ _ _ _ _ _ _ _ Hf Ht Hn).
  - cbn [w_registry with_registry]. subst resolved tier above_085 above_070 category.
    counter_after_run. reflexivity.
Qed.

(** C9. A result that maps 'auto_resolved' to a true value and has no
    'confidence' key is classified with confidence 0, tier 'low', and the
    auto-resolved counter labelled (category, 'low') is incremented. When
    'auto_resolved' and 'escalated' are both true, no series of the
    escalated counter moves, whatever else the result holds, and with a
    numeric or missing confidence the auto-resolved counter is the one
    incremented. *)
Theorem auto_resolved_default_and_precedence :
  (forall func d args kwargs w res w1 v,
     func (VDict d) args kwargs w = (Returned (VDict res), w1) ->
     res !! "auto_resolved" = Some v -> truthy v = true ->
     res !! "confidence" = None ->
     let category :=
       py_str obj_str (default (VStr "general_inquiry") (d !! "category")) in
     let resolved_low := (m_name tickets_resolved_auto_total, [category; "low"]) in
     exists w2,
       track_ticket_processing obj_str func (VDict d) args kwargs w
       = (Returned (VDict res), w2)
       /\ fst (confidence_tier (default (VInt 0) (res !! "confidence")) w1)
          = Returned "low"
       /\ counter_value (w_registry w2) resolved_low
          = xadd (counter_value (w_registry w1) resolved_low) (XFin 1)) /\
  (forall func d args kwargs w res w1 v v',
     func (VDict d) args kwargs w = (Returned (VDict res), w1) ->
     res !! "auto_resolved" = Some v -> truthy v = true ->
     res !! "escalated" = Some v' -> truthy v' = true ->
     let category :=
       py_str obj_str (default (VStr "general_inquiry") (d !! "category")) in
     (forall lv,
        counter_value
          (w_registry (snd (track_ticket_processing obj_str func (VDict d) args kwargs w)))
          (m_name tickets_escalated_total, lv)
        = counter_value (w_registry w1) (m_name tickets_escalated_total, lv)) /\
     (forall n,
        number_of_value (default (VInt 0) (res !! "confidence")) = Some n ->
        exists w2 tier,
          track_ticket_processing obj_str func (VDict d) args kwargs w
          = (Returned (VDict res), w2)
          /\ counter_value (w_registry w2)
               (m_name tickets_resolved_auto_total, [category; tier])
             = xadd (counter_value (w_registry w1)
                       (m_name tickets_resolved_auto_total, [category; tier]))
                    (XFin 1))).
Proof.
  split.
  - intros func d args kwargs w res w1 v Hf Ha Ht Hc category resolved_low.
    assert (Ht' : truthy (default (VBool false) (res !! "auto_resolved")) = true)
      by (rewrite Ha; exact Ht).
    assert (Hn : number_of_value (default (VInt 0) (res !! "confidence"))
                 = Some (NInt 0)) by (rewrite Hc; reflexivity).
    eexists. split; [|split].
    + apply (track_ticket_processing_auto_resolved _ _ _ _ _ _ _ _ Hf Ht' Hn).
    + rewrite (confidence_tier_number _ _ _ Hn). reflexivity.
    + cbn [w_registry with_registry].
      change (if num_gtb (NInt 0) (NFloat (F64.lit 85 100)) then "high"
              else if num_gtb (NInt 0) (NFloat (F64.lit 70 100)) then "medium"
              else "low") with "low".
      subst resolved_low category. counter_after_run. reflexivity.
  - intros func d args kwargs w res w1 v v' Hf Ha Ht He Ht2 category.
    assert (Ht' : truthy (default (VBool false) (res !! "auto_resolved")) = true)
      by (rewrite Ha; exact Ht).
    split.
    + intros lv.
      destruct (number_of_value (default (VInt 0) (res !! "confidence")))
        as [n|] eqn:Hn.
      * rewrite (track_ticket_processing_auto_resolved _ _ _ _ _ _ _ _ Hf Ht' Hn).
        cbn [snd w_registry with_registry]. counter_after_run. reflexivity.
      * destruct (track_ticket_processing_auto_resolved_untyped
                    _ _ _ _ _ _ _ Hf Ht' Hn) as (e & ->).
        cbn [snd w_registry with_registry logged]. counter_after_run. reflexivity.
    + intros n Hn. eexists _, _. split.
      * apply (track_ticket_processing_auto_resolved _ _ _ _ _ _ _ _ Hf Ht' Hn).
      * cbn [w_registry with_registry]. subst category.
        counter_after_run. reflexivity.
Qed.

(** C8. Every invocation of the budget refresh sets the four per-category
    monthly-budget gauges to the table values (llm_api 1200,
    aws_infrastructure 800, vector_db 300, monitoring 200), the
    support-staffing-savings gauge to 4000 and the net-savings gauge to
    4000 - 2500 = 1500, whatever the registry held before: the values are
    constants, and no counter, histogram or log record is touched. *)
Theorem update_cost_budget_tracking_constants w :
  exists w2,
    update_cost_budget_tracking obj_str w = (Returned VNone, w2)
    /\ gauge_value (w_registry w2) (m_name cost_budget_monthly, ["llm_api"])
       = Some (NInt 1200)
    /\ gauge_value (w_registry w2) (m_name cost_budget_monthly, ["aws_infrastructure"])
       = Some (NInt 800)
    /\ gauge_value (w_registry w2) (m_name cost_budget_monthly, ["vector_db"])
       = Some (NInt 300)
    /\ gauge_value (w_registry w2) (m_name cost_budget_monthly, ["monitoring"])
       = Some (NInt 200)
    /\ gauge_value (w_registry w2) (unlabelled support_agent_cost_savings_dollars)
       = Some (NInt 4000)
    /\ gauge_value (w_registry w2) (unlabelled monthly_cost_savings_dollars)
       = Some (NInt (4000 - 2500))
    /\ 4000 - 2500 = 1500
    /\ reg_counters (w_registry w2) = reg_counters (w_registry w)
    /\ reg_histograms (w_registry w2) = reg_histograms (w_registry w)
    /\ w_log w2 = w_log w.
Proof.
  unfold update_cost_budget_tracking, budgets. cbn [for_each]. msteps.
  eexists. split; [reflexivity|].
  cbn [w_registry with_registry w_log].
  repeat split;
    repeat first [ apply gauge_value_set_eq
                 | rewrite gauge_value_set_ne by discriminate ].
Qed.

End Tickets.

Section Counters.

Import Exporter Registry RegistryFacts.

(** The registry after a Python-level increment: the operation applied when
    the amount is a number (a rejected amount changes nothing), nothing
    otherwise. *)
Lemma counter_inc_registry k amount w :
  w_registry (snd (counter_inc k amount w))
  = match number_of_value amount with
    | Some n => apply (OpInc k n) (w_registry w)
    | None => w_registry w
    end.
Proof.
  unfold counter_inc. destruct (number_of_value amount) as [n|]; [|reflexivity].
  simpl. destruct (inc k n (w_registry w)); reflexivity.
Qed.

(** C7. For every counter series, after any finite sequence of registry
    operations since process start the value is the exact sum of the
    increments applied to that series (none lost, none counted twice, none
    taken from another series), and between any two snapshots the value
    never decreases. *)
Theorem counter_is_exact_sum_and_never_decreases :
  (forall ops k,
     counter_value (run ops empty) k = xsum (exact <$> omap (accepted k) ops)) /\
  (forall ops1 ops2 r k,
     not_below (counter_value (run ops1 r) k)
               (counter_value (run (ops1 ++ ops2) r) k)) /\
  (forall ops1 ops2 r k,
     xltb (counter_value (run (ops1 ++ ops2) r) k)
          (counter_value (run ops1 r) k) = false).
Proof.
  split; [|split].
  - intros ops k. rewrite counter_value_run, xsum_contribution.
    apply xadd_0_l.
  - intros ops1 ops2 r k. rewrite run_app. apply not_below_run.
  - intros ops1 ops2 r k. apply not_below_not_lt.
    rewrite run_app. apply not_below_run.
Qed.

End Counters.

(* ===================================================================== *)
(** ** Concrete runs *)
(* ===================================================================== *)

Section Runs.

Import Exporter Registry Samples.

(** The cost model on an unpriced pair. *)
Lemma calculate_llm_cost_exact_and_graceful_witness :
  rates_for "unknown-provider" "x" = None
  /\ calculate_llm_cost "unknown-provider" "x" (VInt 100) (VInt 100) w0
     = (Returned (S754_zero false),
        logged (Log WARNING "Unknown pricing for unknown-provider/x, using default") w0).
Proof.
  split; [reflexivity|].
  apply (proj2 (proj2 calculate_llm_cost_exact_and_graceful)). reflexivity.
Defined.

(** 150 input and 300 output tokens on a priced model. *)
Lemma calculate_llm_cost_never_negative_witness :
  0 <= 150 < 2 ^ 1024 - 2 ^ 970 /\ 0 <= 300 < 2 ^ 1024 - 2 ^ 970
  /\ exists cost w',
       calculate_llm_cost "anthropic" "claude-sonnet-4" (VInt 150) (VInt 300) w0
       = (Returned cost, w')
       /\ F64.leb F64.zero cost = true.
Proof.
  assert (H150 : 0 <= 150 < 2 ^ 1024 - 2 ^ 970) by (split; [lia | reflexivity]).
  assert (H300 : 0 <= 300 < 2 ^ 1024 - 2 ^ 970) by (split; [lia | reflexivity]).
  split; [exact H150|]. split; [exact H300|].
  destruct (calculate_llm_cost_never_negative
              "anthropic" "claude-sonnet-4" 150 300 w0 H150 H300)
    as (cost & w' & Hrun & Hge & _).
  exists cost, w'. split; assumption.
Defined.

(** C10 fails as stated: a token count of [2^1024] is a nonnegative integer,
    yet the priced cost does not return; it raises [OverflowError]. *)
Lemma calculate_llm_cost_overflow_counterexample :
  0 <= 2 ^ 1024
  /\ calculate_llm_cost "anthropic" "claude-sonnet-4" (VInt (2 ^ 1024)) (VInt 0) w0
     = (Raised (OverflowError "int too large to convert to float"), w0).
Proof. split; [lia | vm_compute; reflexivity]. Defined.

(** A ticket operation that times out. *)
Lemma track_ticket_processing_failure_witness :
  op_raising TimeoutError (VDict ticket) [] ∅ w0 = (Raised TimeoutError, later w0)
  /\ exists w2,
       track_ticket_processing render (op_raising TimeoutError) (VDict ticket) [] ∅ w0
       = (Raised TimeoutError, w2)
       /\ w_registry w2 = w_registry (later w0)
       /\ w_log w2 = [Log ERROR "Error processing ticket: request timed out"].
Proof.
  split; [reflexivity|].
  exact (track_ticket_processing_failure render (op_raising TimeoutError)
           ticket [] ∅ w0 TimeoutError (later w0) eq_refl).
Defined.

(** C3 fails as stated: a cancelled ticket operation raises, the wrapper lets
    the cancellation through, and nothing is logged. *)
Lemma track_ticket_processing_unlogged_counterexample :
  op_raising CancelledError (VDict ticket) [] ∅ w0 = (Raised CancelledError, later w0)
  /\ fst (track_ticket_processing render (op_raising CancelledError)
            (VDict ticket) [] ∅ w0) = Raised CancelledError
  /\ w_log (snd (track_ticket_processing render (op_raising CancelledError)
                   (VDict ticket) [] ∅ w0)) = [].
Proof. split; [reflexivity|]. split; vm_compute; reflexivity. Defined.

(** An LLM call that times out. *)
Lemma track_llm_call_failure_witness :
  llm_raising TimeoutError [] ∅ w0 = (Raised TimeoutError, later w0)
  /\ exn_is_Exception TimeoutError = true
  /\ exists w2,
       track_llm_call render "anthropic" "claude-sonnet-4"
         (llm_raising TimeoutError) [] ∅ w0 = (Raised TimeoutError, w2)
       /\ w_registry w2
          = run [OpInc (m_name llm_api_requests_total,
                        ["anthropic"; "claude-sonnet-4"; "error"]) (NInt 1);
                 OpInc (m_name llm_api_errors_total,
                        ["anthropic"; "TimeoutError"]) (NInt 1)]
                (w_registry (later w0)).
Proof.
  split; [reflexivity|]. split; [reflexivity|].
  pose proof (track_llm_call_failure render "anthropic" "claude-sonnet-4"
                (llm_raising TimeoutError) [] ∅ w0 TimeoutError (later w0)
                eq_refl) as H.
  cbv zeta in H. destruct H as [H _].
  destruct (H eq_refl) as (w2 & Hrun & Hreg & _).
  exists w2. split; assumption.
Defined.

(** C4 fails as stated: a cancelled LLM call raises, yet neither the request
    counter labelled "error" nor the error counter is incremented. *)
Lemma track_llm_call_cancelled_counterexample :
  llm_raising CancelledError [] ∅ w0 = (Raised CancelledError, later w0)
  /\ fst (track_llm_call render "anthropic" "claude-sonnet-4"
            (llm_raising CancelledError) [] ∅ w0) = Raised CancelledError
  /\ counter_value
       (w_registry (snd (track_llm_call render "anthropic" "claude-sonnet-4"
                           (llm_raising CancelledError) [] ∅ w0)))
       (m_name llm_api_requests_total, ["anthropic"; "claude-sonnet-4"; "error"])
     = XFin 0
  /\ counter_value
       (w_registry (snd (track_llm_call render "anthropic" "claude-sonnet-4"
                           (llm_raising CancelledError) [] ∅ w0)))
       (m_name llm_api_errors_total, ["anthropic"; "CancelledError"])
     = XFin 0.
Proof. split; [reflexivity|]. repeat split; vm_compute; reflexivity. Defined.

(** The example of the module: 150 input and 300 output tokens. *)
Lemma track_llm_call_success_witness :
  llm_returning (VDict (llm_result 150 300)) [] ∅ w0
  = (Returned (VDict (llm_result 150 300)), later w0)
  /\ llm_result 150 300 !! "usage" = Some (VDict (usage 150 300))
  /\ default (VInt 0) (usage 150 300 !! "input_tokens") = VInt 150
  /\ default (VInt 0) (usage 150 300 !! "output_tokens") = VInt 300
  /\ 0 <= 150 < 2 ^ 1024 - 2 ^ 970 /\ 0 <= 300 < 2 ^ 1024 - 2 ^ 970
  /\ exists cost w2,
       track_llm_call render "anthropic" "claude-sonnet-4"
         (llm_returning (VDict (llm_result 150 300))) [] ∅ w0
       = (Returned (VDict (llm_result 150 300)), w2)
       /\ counter_value (w_registry w2)
            (m_name llm_tokens_total, ["anthropic"; "claude-sonnet-4"; "input"])
          = xadd (counter_value (w_registry (later w0))
                    (m_name llm_tokens_total, ["anthropic"; "claude-sonnet-4"; "input"]))
                 (exact (NInt 150))
       /\ counter_value (w_registry w2)
            (m_name llm_api_cost_dollars, ["anthropic"; "claude-sonnet-4"])
          = xadd (counter_value (w_registry (later w0))
                    (m_name llm_api_cost_dollars, ["anthropic"; "claude-sonnet-4"]))
                 (exact (NFloat cost)).
Proof.
  assert (H150 : 0 <= 150 < 2 ^ 1024 - 2 ^ 970) by (split; [lia | reflexivity]).
  assert (H300 : 0 <= 300 < 2 ^ 1024 - 2 ^ 970) by (split; [lia | reflexivity]).
  repeat (split; [first [reflexivity | assumption]|]).
  pose proof (track_llm_call_success render "anthropic" "claude-sonnet-4"
                (llm_returning (VDict (llm_result 150 300))) [] ∅ w0
                (llm_result 150 300) (later w0) eq_refl) as H.
  cbv zeta in H. destruct H as [_ H].
  destruct (H (usage 150 300) 150 300)
    as (cost & w2 & _ & Hrun & _ & _ & Hin & _ & Hcost & _);
    try reflexivity; try assumption.
  exists cost, w2. split; [assumption|]. split; assumption.
Defined.

(** C5 fails as stated: the call returns a mapping whose usage carries the
    integer token count [2^1024]; the wrapper does not return the result, it
    raises [OverflowError], and the "success" request counter is not
    incremented. *)
Lemma track_llm_call_overflow_counterexample :
  llm_returning (VDict (llm_result (2 ^ 1024) 0)) [] ∅ w0
  = (Returned (VDict (llm_result (2 ^ 1024) 0)), later w0)
  /\ fst (track_llm_call render "anthropic" "claude-sonnet-4"
            (llm_returning (VDict (llm_result (2 ^ 1024) 0))) [] ∅ w0)
     = Raised (OverflowError "int too large to convert to float")
  /\ counter_value
       (w_registry (snd (track_llm_call render "anthropic" "claude-sonnet-4"
                           (llm_returning (VDict (llm_result (2 ^ 1024) 0))) [] ∅ w0)))
       (m_name llm_api_requests_total, ["anthropic"; "claude-sonnet-4"; "success"])
     = XFin 0.
Proof. split; [reflexivity|]. split; vm_compute; reflexivity. Defined.

(** A GET request answered with status 200, and one whose handler times out. *)
Lemma track_http_request_outcomes_witness :
  request_attrs !! "method" = Some (VStr "GET")
  /\ request_attrs !! "path" = Some (VStr "/tickets")
  /\ op_returning response request [] ∅ w0 = (Returned response, later w0)
  /\ (exists w2,
        track_http_request render (op_returning response) request [] ∅ w0
        = (Returned response, w2)
        /\ w_registry w2
           = run [OpInc (m_name http_requests_total, ["GET"; "/tickets"; "200"]) (NInt 1)]
                 (w_registry (later w0)))
  /\ op_raising TimeoutError request [] ∅ w0 = (Raised TimeoutError, later w0)
  /\ exn_is_Exception TimeoutError = true
  /\ (exists w2,
        track_http_request render (op_raising TimeoutError) request [] ∅ w0
        = (Raised TimeoutError, w2)
        /\ w_registry w2
           = run [OpInc (m_name http_requests_total, ["GET"; "/tickets"; "500"]) (NInt 1)]
                 (w_registry (later w0))).
Proof.
  split; [reflexivity|]. split; [reflexivity|]. split; [reflexivity|].
  split.
  { destruct (track_http_request_outcomes render (op_returning response)
                "Request" request_attrs (VStr "GET") (VStr "/tickets") [] ∅ w0 eq_refl eq_refl)
      as (Hok & _ & _).
    destruct (Hok "Response" response_attrs (VInt 200) (later w0)
                eq_refl eq_refl) as (w2 & Hrun & Hreg & _).
    exists w2. split; assumption. }
  split; [reflexivity|]. split; [reflexivity|].
  destruct (track_http_request_outcomes render (op_raising TimeoutError)
              "Request" request_attrs (VStr "GET") (VStr "/tickets") [] ∅ w0 eq_refl eq_refl)
    as (_ & Hfail & _).
  destruct (Hfail TimeoutError (later w0) eq_refl eq_refl) as (w2 & Hrun & Hreg & _).
  exists w2. split; assumption.
Defined.

(** C6 fails as stated: a cancelled handler raises, yet the request counter
    with status 500 is not incremented. *)
Lemma track_http_request_cancelled_counterexample :
  op_raising CancelledError request [] ∅ w0 = (Raised CancelledError, later w0)
  /\ fst (track_http_request render (op_raising CancelledError) request [] ∅ w0)
     = Raised CancelledError
  /\ counter_value
       (w_registry (snd (track_http_request render (op_raising CancelledError)
                           request [] ∅ w0)))
       (m_name http_requests_total, ["GET"; "/tickets"; "500"])
     = XFin 0.
Proof. split; [reflexivity|]. split; vm_compute; reflexivity. Defined.

(** The example of the module: auto-resolved with confidence 0.87. *)
Lemma confidence_tier_strict_boundaries_witness :
  op_returning
    (VDict (auto_resolved_result (VFloat (F64.lit 87 100))))
    (VDict ticket) [] ∅ w0
  = (Returned (VDict (auto_resolved_result (VFloat (F64.lit 87 100)))),
     later w0)
  /\ exists w2,
       track_ticket_processing render
         (op_returning
            (VDict (auto_resolved_result (VFloat (F64.lit 87 100)))))
         (VDict ticket) [] ∅ w0
       = (Returned (VDict (auto_resolved_result (VFloat (F64.lit 87 100)))),
          w2)
       /\ counter_value (w_registry w2)
            (m_name tickets_resolved_auto_total, ["billing"; "high"])
          = xadd (counter_value (w_registry (later w0))
                    (m_name tickets_resolved_auto_total, ["billing"; "high"]))
                 (XFin 1).
Proof.
  split; [reflexivity|].
  destruct (proj2 (proj2 (confidence_tier_strict_boundaries render))
              (op_returning
                 (VDict (auto_resolved_result (VFloat (F64.lit 87 100)))))
              ticket [] ∅ w0 (auto_resolved_result (VFloat (F64.lit 87 100))) (later w0)
              (NFloat (F64.lit 87 100))
              eq_refl eq_refl eq_refl)
    as (w2 & _ & Hrun & Hcount).
  exists w2. split; assumption.
Defined.

(** Auto-resolved without a confidence, and auto-resolved while escalated. *)
Lemma auto_resolved_default_and_precedence_witness :
  (unrated_result !! "auto_resolved" = Some (VBool true)
   /\ unrated_result !! "confidence" = None
   /\ exists w2,
        track_ticket_processing render (op_returning (VDict unrated_result))
          (VDict ticket) [] ∅ w0
        = (Returned (VDict unrated_result), w2)
        /\ counter_value (w_registry w2)
             (m_name tickets_resolved_auto_total, ["billing"; "low"])
           = xadd (counter_value (w_registry (later w0))
                     (m_name tickets_resolved_auto_total, ["billing"; "low"]))
                  (XFin 1))
  /\ (conflicting_result !! "auto_resolved" = Some (VBool true)
      /\ conflicting_result !! "escalated" = Some (VBool true)
      /\ exists w2,
           track_ticket_processing render (op_returning (VDict conflicting_result))
             (VDict ticket) [] ∅ w0
           = (Returned (VDict conflicting_result), w2)
           /\ forall lv,
                counter_value (w_registry w2) (m_name tickets_escalated_total, lv)
                = counter_value (w_registry (later w0))
                    (m_name tickets_escalated_total, lv)).
Proof.
  split.
  - split; [reflexivity|]. split; [reflexivity|].
    destruct (proj1 (auto_resolved_default_and_precedence render)
                (op_returning (VDict unrated_result))
                ticket [] ∅ w0 unrated_result (later w0) (VBool true))
      as (w2 & Hrun & _ & Hcount); try reflexivity.
    exists w2. split; assumption.
  - split; [reflexivity|]. split; [reflexivity|].
    destruct (proj2 (auto_resolved_default_and_precedence render)
                (op_returning (VDict conflicting_result))
                ticket [] ∅ w0 conflicting_result
                (later w0) (VBool true) (VBool true))
      as (Hesc & Hauto); try reflexivity.
    destruct (Hauto (NInt 0)) as (w2 & tier & Hrun & _); [reflexivity|].
    exists w2. split; [assumption|].
    intros lv. rewrite <- (Hesc lv), Hrun. reflexivity.
Defined.

End Runs.

(* ===================================================================== *)
(** ** Running the updaters, and reading a run backwards *)
(* ===================================================================== *)

Section MoreExecution.

Import Exporter Updaters Registry.



Lemma bind_dict_get_raised {B} v key dflt (k : value -> M B) w :
  (forall d, v <> VDict d) ->
  bind (dict_get v key dflt) k w
  = (Raised (AttributeError ("'" +:+ type_name v +:+ "' object has no attribute 'get'")), w).
Proof. intros H. destruct v; try reflexivity. exfalso. eapply H. reflexivity. Qed.


(** A sequence that returned: its first part returned, then the rest did. *)
Lemma bind_returned_inv {A B} (c : M A) (k : A -> M B) w v w2 :
  bind c k w = (Returned v, w2) ->
  exists a w1, c w = (Returned a, w1) /\ k a w1 = (Returned v, w2).
Proof. unfold bind. destruct (c w) as [[a|e] w1]; [eauto | discriminate]. Qed.

(** A sequence that raised: its first part raised, or the rest did. *)
Lemma bind_raised_inv {A B} (c : M A) (k : A -> M B) w e w2 :
  bind c k w = (Raised e, w2) ->
  c w = (Raised e, w2)
  \/ exists a w1, c w = (Returned a, w1) /\ k a w1 = (Raised e, w2).
Proof.
  unfold bind. destruct (c w) as [[a|e'] w1]; intros H.
  - right. exists a, w1. split; [reflexivity | exact H].
  - left. injection H as <- <-. reflexivity.
Qed.

(** A guarded block that returned: its body did, or its handler did. *)
Lemma try_returned_inv {A} (body : M A) handler w v w2 :
  try_except_Exception body handler w = (Returned v, w2) ->
  body w = (Returned v, w2)
  \/ exists e w1, body w = (Raised e, w1) /\ exn_is_Exception e = true
                  /\ handler e w1 = (Returned v, w2).
Proof.
  unfold try_except_Exception. destruct (body w) as [[a|e] w1]; [auto|].
  destruct (exn_is_Exception e) eqn:He; [eauto 6 | discriminate].
Qed.

(** A guarded block that raised: its handler did, or its body raised
    something the guard does not catch. *)
Lemma try_raised_inv {A} (body : M A) handler w e w2 :
  try_except_Exception body handler w = (Raised e, w2) ->
  (body w = (Raised e, w2) /\ exn_is_Exception e = false)
  \/ exists e1 w1, body w = (Raised e1, w1) /\ exn_is_Exception e1 = true
                   /\ handler e1 w1 = (Raised e, w2).
Proof.
  unfold try_except_Exception. destruct (body w) as [[a|e1] w1]; [discriminate|].
  destruct (exn_is_Exception e1) eqn:He; [eauto 6|].
  intros H. left. injection H as <- <-. auto.
Qed.

End MoreExecution.



(** Reading a returned sequence backwards, one statement at a time. *)
Ltac unbind H :=
  repeat match type of H with
         | bind _ _ _ = (Returned _, _) =>
             let a := fresh "a" in
             let w := fresh "w" in
             let Hc := fresh "Hc" in
             apply bind_returned_inv in H; destruct H as (a & w & Hc & H)
         end.

(* ===================================================================== *)
(** ** The ticket wrapper beyond auto-resolution *)
(* ===================================================================== *)

Section TicketPaths.

Import Exporter Registry RegistryFacts.

Variable obj_str : value -> string.

(** X1. The tier of an integer confidence. Against the thresholds 0.85 and 0.70
    an integer is either at least 1, and then 'high', or at most 0, and then
    'low': a confidence given on an integer scale (say 87 for 87 %) is always
    'high', and no integer or boolean is ever 'medium'. *)
Theorem confidence_tier_integer z b w :
  confidence_tier (VInt z) w = (Returned (if 1 <=? z then "high" else "low"), w)
  /\ confidence_tier (VBool b) w = (Returned (if b then "high" else "low"), w)
  /\ fst (confidence_tier (VInt z) w) <> Returned "medium".
Proof.
  assert (Hz : confidence_tier (VInt z) w
               = (Returned (if 1 <=? z then "high" else "low"), w)).
  { rewrite (confidence_tier_number (VInt z) (NInt z) w eq_refl).
    destruct float_literals as (_ & _ & -> & ->).
    unfold num_gtb, num_compare, Zcompare_float.
    change (0 <=? -53) with false. cbv iota.
    change (2 ^ (- (-53))) with 9007199254740992.
    destruct (Z.leb_spec 1 z);
      destruct (Z.compare_spec (z * 9007199254740992) 7656119366529843);
      destruct (Z.compare_spec (z * 9007199254740992) 6305039478318694);
      try reflexivity; exfalso; lia. }
  split; [exact Hz|]. split.
  - destruct b; vm_compute; reflexivity.
  - rewrite Hz. destruct (1 <=? z); simpl; congruence.
Qed.

(** What the wrapper does with a result that is not auto-resolved. *)
Lemma track_ticket_processing_not_auto func d args kwargs w res w1 :
  func (VDict d) args kwargs w = (Returned (VDict res), w1) ->
  truthy (default (VBool false) (res !! "auto_resolved")) = false ->
  let category := py_str obj_str (default (VStr "general_inquiry") (d !! "category")) in
  let environment := py_str obj_str (default (VStr "production") (kwargs !! "environment")) in
  let channel := py_str obj_str (default (VStr "web") (d !! "channel")) in
  let reason := py_str obj_str (default (VStr "unknown") (res !! "escalation_reason")) in
  track_ticket_processing obj_str func (VDict d) args kwargs w
  = (Returned (VDict res),
     with_registry
       (run (OpObserve (unlabelled response_duration_milliseconds)
               (NFloat (F64.mul (F64.sub (w_now w1) (w_now w)) (F64.of_Z 1000)))
             :: OpInc (m_name tickets_processed_total, [category; environment; channel])
                  (NInt 1)
             :: (if truthy (default (VBool false) (res !! "escalated"))
                 then [OpInc (m_name tickets_escalated_total, [category; reason]) (NInt 1)]
                 else []))
            (w_registry w1))
       w1).
Proof.
  intros Hf Ha category environment channel reason.
  unfold track_ticket_processing. msteps.
  erewrite try_returned; [reflexivity|].
  msteps. rewrite Ha. msteps.
  destruct (truthy (default (VBool false) (res !! "escalated"))); msteps; reflexivity.
Qed.

(** X2. A result that is not auto-resolved and signals escalation: the wrapper
    returns it unchanged, having observed the duration and incremented the
    processed counter and the escalated counter labelled with the category
    and the escalation reason ('unknown' when the result has none); no
    series of the auto-resolved counter moves and nothing is logged. *)
Theorem track_ticket_processing_escalated func d args kwargs w res w1 :
  func (VDict d) args kwargs w = (Returned (VDict res), w1) ->
  truthy (default (VBool false) (res !! "auto_resolved")) = false ->
  truthy (default (VBool false) (res !! "escalated")) = true ->
  let category := py_str obj_str (default (VStr "general_inquiry") (d !! "category")) in
  let environment := py_str obj_str (default (VStr "production") (kwargs !! "environment")) in
  let channel := py_str obj_str (default (VStr "web") (d !! "channel")) in
  let reason := py_str obj_str (default (VStr "unknown") (res !! "escalation_reason")) in
  let processed := (m_name tickets_processed_total, [category; environment; channel]) in
  let escalated := (m_name tickets_escalated_total, [category; reason]) in
  exists w2,
    track_ticket_processing obj_str func (VDict d) args kwargs w
    = (Returned (VDict res), w2)
    /\ counter_value (w_registry w2) escalated
       = xadd (counter_value (w_registry w1) escalated) (XFin 1)
    /\ counter_value (w_registry w2) processed
       = xadd (counter_value (w_registry w1) processed) (XFin 1)
    /\ (forall k, k <> escalated -> k <> processed ->
          counter_value (w_registry w2) k = counter_value (w_registry w1) k)
    /\ observations (w_registry w2) (unlabelled response_duration_milliseconds)
       = observations (w_registry w1) (unlabelled response_duration_milliseconds)
         ++ [NFloat (F64.mul (F64.sub (w_now w1) (w_now w)) (F64.of_Z 1000))]
    /\ w_log w2 = w_log w1.
Proof.
  intros Hf Ha He category environment channel reason processed escalated.
  eexists. split.
  { rewrite (track_ticket_processing_not_auto _ _ _ _ _ _ _ Hf Ha), He. reflexivity. }
  cbn [w_registry with_registry w_log].
  subst processed escalated category environment channel reason.
  split; [counter_after_run; reflexivity|].
  split; [counter_after_run; reflexivity|].
  split; [intros k H1 H2; counter_after_run; reflexivity|].
  split; [|reflexivity].
  apply observations_run_observe_incs. repeat constructor.
Qed.

(** X3. A result that signals neither auto-resolution nor escalation (both keys
    missing or false): the ticket is timed and counted as processed, and no
    series of the auto-resolved or of the escalated counter moves. *)
Theorem track_ticket_processing_unclassified func d args kwargs w res w1 :
  func (VDict d) args kwargs w = (Returned (VDict res), w1) ->
  truthy (default (VBool false) (res !! "auto_resolved")) = false ->
  truthy (default (VBool false) (res !! "escalated")) = false ->
  let category := py_str obj_str (default (VStr "general_inquiry") (d !! "category")) in
  let environment := py_str obj_str (default (VStr "production") (kwargs !! "environment")) in
  let channel := py_str obj_str (default (VStr "web") (d !! "channel")) in
  let processed := (m_name tickets_processed_total, [category; environment; channel]) in
  exists w2,
    track_ticket_processing obj_str func (VDict d) args kwargs w
    = (Returned (VDict res), w2)
    /\ counter_value (w_registry w2) processed
       = xadd (counter_value (w_registry w1) processed) (XFin 1)
    /\ (forall k, k <> processed ->
          counter_value (w_registry w2) k = counter_value (w_registry w1) k)
    /\ observations (w_registry w2) (unlabelled response_duration_milliseconds)
       = observations (w_registry w1) (unlabelled response_duration_milliseconds)
         ++ [NFloat (F64.mul (F64.sub (w_now w1) (w_now w)) (F64.of_Z 1000))]
    /\ w_log w2 = w_log w1.
Proof.
  intros Hf Ha He category environment channel processed.
  eexists. split.
  { rewrite (track_ticket_processing_not_auto _ _ _ _ _ _ _ Hf Ha), He. reflexivity. }
  cbn [w_registry with_registry w_log].
  subst processed category environment channel.
  split; [counter_after_run; reflexivity|].
  split; [intros k H1; counter_after_run; reflexivity|].
  split; [|reflexivity].
  apply observations_run_observe_incs. repeat constructor.
Qed.

(** What the wrapper does with a returned value that is not a mapping. *)
Lemma track_ticket_processing_result_without_get func d args kwargs w v w1 :
  func (VDict d) args kwargs w = (Returned v, w1) ->
  (forall res, v <> VDict res) ->
  let category := py_str obj_str (default (VStr "general_inquiry") (d !! "category")) in
  let environment := py_str obj_str (default (VStr "production") (kwargs !! "environment")) in
  let channel := py_str obj_str (default (VStr "web") (d !! "channel")) in
  let e := AttributeError ("'" +:+ type_name v +:+ "' object has no attribute 'get'") in
  track_ticket_processing obj_str func (VDict d) args kwargs w
  = (Raised e,
     logged (Log ERROR ("Error processing ticket: " +:+ exn_str e))
       (with_registry
          (run [OpObserve (unlabelled response_duration_milliseconds)
                  (NFloat (F64.mul (F64.sub (w_now w1) (w_now w)) (F64.of_Z 1000)));
                OpInc (m_name tickets_processed_total,
                       [category; environment; channel]) (NInt 1)]
               (w_registry w1))
          w1)).
Proof.
  intros Hf Hv category environment channel e.
  unfold track_ticket_processing. msteps.
  erewrite try_caught; [ | | ].
  - msteps. reflexivity.
  - msteps. erewrite bind_dict_get_raised by exact Hv. reflexivity.
  - reflexivity.
Qed.



(** X6. Every ticket whose operation returns is timed and counted as processed
    exactly once, whatever was returned and whatever the wrapper does next
    (return the result, or raise on a result it cannot read). With no
    category, channel or environment given, the series counted is
    ('general_inquiry', 'production', 'web'). *)
Theorem track_ticket_processing_counts_every_return func d args kwargs w v w1 :
  func (VDict d) args kwargs w = (Returned v, w1) ->
  let category := py_str obj_str (default (VStr "general_inquiry") (d !! "category")) in
  let environment := py_str obj_str (default (VStr "production") (kwargs !! "environment")) in
  let channel := py_str obj_str (default (VStr "web") (d !! "channel")) in
  let processed := (m_name tickets_processed_total, [category; environment; channel]) in
  let w2 := snd (track_ticket_processing obj_str func (VDict d) args kwargs w) in
  counter_value (w_registry w2) processed
  = xadd (counter_value (w_registry w1) processed) (XFin 1)
  /\ observations (w_registry w2) (unlabelled response_duration_milliseconds)
     = observations (w_registry w1) (unlabelled response_duration_milliseconds)
       ++ [NFloat (F64.mul (F64.sub (w_now w1) (w_now w)) (F64.of_Z 1000))]
  /\ (d !! "category" = None -> d !! "channel" = None ->
      kwargs !! "environment" = None ->
      processed = (m_name tickets_processed_total,
                   ["general_inquiry"; "production"; "web"])).
Proof.
  intros Hf category environment channel processed w2.
  assert (Hreg : exists ops,
             w_registry w2
             = run (OpObserve (unlabelled response_duration_milliseconds)
                      (NFloat (F64.mul (F64.sub (w_now w1) (w_now w)) (F64.of_Z 1000)))
                    :: OpInc processed (NInt 1) :: ops) (w_registry w1)
             /\ Forall (fun o => exists k a, o = OpInc k a /\ k.1 <> processed.1) ops).
  { subst w2.
    destruct (match v with VDict res => Some res | _ => None end) as [res|] eqn:Ev.
    - assert (v = VDict res) as -> by (destruct v; congruence).
      destruct (truthy (default (VBool false) (res !! "auto_resolved"))) eqn:Ha.
      + destruct (number_of_value (default (VInt 0) (res !! "confidence")))
          as [n|] eqn:Hn.
        * rewrite (track_ticket_processing_auto_resolved obj_str _ _ _ _ _ _ _ _ Hf Ha Hn).
          eexists [_]. split; [reflexivity|].
          repeat constructor. eexists _, _. split; [reflexivity | discriminate].
        * destruct (track_ticket_processing_auto_resolved_untyped obj_str
                      _ _ _ _ _ _ _ Hf Ha Hn) as (e & ->).
          exists []. split; [reflexivity | constructor].
      + rewrite (track_ticket_processing_not_auto _ _ _ _ _ _ _ Hf Ha).
        destruct (truthy (default (VBool false) (res !! "escalated"))).
        * eexists [_]. split; [reflexivity|].
          repeat constructor. eexists _, _. split; [reflexivity | discriminate].
        * exists []. split; [reflexivity | constructor].
    - rewrite (track_ticket_processing_result_without_get _ _ _ _ _ _ _ Hf).
      + exists []. split; [reflexivity | constructor].
      + intros res ->. discriminate. }
  destruct Hreg as (ops & -> & Hops).
  split; [|split].
  - rewrite !run_cons, counter_value_run_untouched.
    + rewrite !counter_value_apply.
      change (contribution processed (OpObserve _ _)) with (XFin 0).
      rewrite contribution_same by reflexivity. rewrite xadd_0_r. reflexivity.
    + eapply Forall_impl; [exact Hops|].
      intros o (k & a & -> & Hk). apply accepted_other_name, Hk.
  - apply observations_run_observe_incs. constructor; [exact I|].
    eapply Forall_impl; [exact Hops|]. intros o (k & a & -> & _). exact I.
  - intros Hc Hch Henv. subst processed category environment channel.
    rewrite Hc, Hch, Henv. reflexivity.
Qed.

End TicketPaths.

(* ===================================================================== *)
(** ** The LLM wrapper on results it cannot account for *)
(* ===================================================================== *)

Section LlmPaths.

Import Exporter Registry RegistryFacts.

Variable obj_str : value -> string.



Lemma bind_contains_raised {B} key v (k : bool -> M B) w :
  (forall d, v <> VDict d) -> (forall s, v <> VStr s) ->
  bind (contains key v) k w
  = (Raised (TypeError ("argument of type '" +:+ type_name v
                        +:+ "' is not iterable")), w).
Proof.
  intros Hd Hs.
  destruct v; try reflexivity; exfalso; [eapply Hs | eapply Hd]; reflexivity.
Qed.



(** X8. A wrapped call that returns something other than a mapping. A text that
    does not contain the word 'usage' passes as a success without tokens;
    a text that contains it is subscripted with a string, which raises
    [TypeError], and a value that supports no membership test (such as
    [None]) raises [TypeError] at once: both are counted under status
    'error' and type 'TypeError', logged, and raised to the caller in place
    of the result. *)
Theorem track_llm_call_non_mapping_result provider model func args kwargs w v w1 :
  func args kwargs w = (Returned v, w1) ->
  let latency := (m_name llm_response_duration_seconds, [provider; model]) in
  let elapsed := NFloat (F64.sub (w_now w1) (w_now w)) in
  let success := (m_name llm_api_requests_total, [provider; model; "success"]) in
  let requests_error := (m_name llm_api_requests_total, [provider; model; "error"]) in
  let errors := (m_name llm_api_errors_total, [provider; "TypeError"]) in
  let failed (text : string) :=
    track_llm_call obj_str provider model func args kwargs w
    = (Raised (TypeError text),
       World (run [OpObserve latency elapsed;
                   OpInc requests_error (NInt 1); OpInc errors (NInt 1)]
                  (w_registry w1))
             (Log ERROR ("LLM API error: " +:+ text) :: w_log w1) (w_now w1)) in
  (forall s, v = VStr s -> is_substring "usage" s = false ->
     track_llm_call obj_str provider model func args kwargs w
     = (Returned v,
        with_registry (run [OpObserve latency elapsed; OpInc success (NInt 1)]
                           (w_registry w1)) w1)) /\
  (forall s, v = VStr s -> is_substring "usage" s = true ->
     failed "string indices must be integers, not 'str'") /\
  ((forall d, v <> VDict d) -> (forall s, v <> VStr s) ->
     failed ("argument of type '" +:+ type_name v +:+ "' is not iterable")).
Proof.
  intros Hf latency elapsed success requests_error errors failed.
  split; [|split].
  - intros s -> Hs. unfold track_llm_call. mstep.
    erewrite try_returned; [reflexivity|].
    msteps. unfold contains. msteps. rewrite Hs. msteps. reflexivity.
  - intros s -> Hs. subst failed. cbv beta. unfold track_llm_call. mstep.
    erewrite try_caught; [ | | ].
    2: { msteps. unfold contains. msteps. rewrite Hs. reflexivity. }
    2: reflexivity.
    msteps. reflexivity.
  - intros Hd Hs. subst failed. cbv beta. unfold track_llm_call. mstep.
    erewrite try_caught; [ | | ].
    2: { msteps. erewrite bind_contains_raised by assumption. reflexivity. }
    2: reflexivity.
    msteps. reflexivity.
Qed.


End LlmPaths.

(* ===================================================================== *)
(** ** The HTTP wrapper on objects it cannot read; what wrappers return *)
(* ===================================================================== *)

Section HttpPaths.

Import Exporter Registry RegistryFacts.

Variable obj_str : value -> string.

Lemma getattr_raised v name w :
  (forall cls attrs, v = VObj cls attrs -> attrs !! name = None) ->
  getattr v name w
  = (Raised (AttributeError ("'" +:+ type_name v +:+ "' object has no attribute '"
                             +:+ name +:+ "'")), w).
Proof.
  intros H. destruct v; try reflexivity.
  unfold getattr. rewrite (H _ _ eq_refl). reflexivity.
Qed.

(** X10. A handler whose return value has no [status_code] (it returned nothing,
    or a body text, or an object of another shape) is counted as a failure:
    reading the status raises [AttributeError] inside the guarded block, the
    request is counted once with the fixed status 500, and the caller gets
    the [AttributeError] instead of the value the handler returned. *)
Theorem track_http_request_unreadable_response
    func cls attrs method path args kwargs w v w1 :
  attrs !! "method" = Some method ->
  attrs !! "path" = Some path ->
  func (VObj cls attrs) args kwargs w = (Returned v, w1) ->
  (forall rcls rattrs, v = VObj rcls rattrs -> rattrs !! "status_code" = None) ->
  let k := (m_name http_requests_total,
            [py_str obj_str method; py_str obj_str path; "500"]) in
  exists w2,
    track_http_request obj_str func (VObj cls attrs) args kwargs w
    = (Raised (AttributeError ("'" +:+ type_name v
                               +:+ "' object has no attribute 'status_code'")), w2)
    /\ w_registry w2 = run [OpInc k (NInt 1)] (w_registry w1)
    /\ counter_value (w_registry w2) k
       = xadd (counter_value (w_registry w1) k) (XFin 1)
    /\ (forall k', k' <> k ->
          counter_value (w_registry w2) k' = counter_value (w_registry w1) k')
    /\ w_log w2 = w_log w1.
Proof.
  intros Hm Hp Hf Hv k.
  exists (with_registry (run [OpInc k (NInt 1)] (w_registry w1)) w1).
  split.
  { unfold track_http_request.
    erewrite try_caught; [ | | ].
    2: { msteps. erewrite bind_raised by (apply getattr_raised, Hv). reflexivity. }
    2: reflexivity.
    msteps. reflexivity. }
  cbn [w_registry w_log with_registry]. subst k.
  split; [reflexivity|].
  split; [counter_after_run; reflexivity|].
  split; [intros k' Hk'; counter_after_run; reflexivity | reflexivity].
Qed.

(** X11. A request that has no [method] is never counted. Whether the handler
    returns or raises an instance of [Exception], the wrapper raises
    [AttributeError] for the missing attribute, in the world the handler
    left: the handler's own exception, or its return value, is lost. *)
Theorem track_http_request_unreadable_request func request args kwargs w o w1 :
  (forall cls attrs, request = VObj cls attrs -> attrs !! "method" = None) ->
  func request args kwargs w = (o, w1) ->
  (forall e, o = Raised e -> exn_is_Exception e = true) ->
  track_http_request obj_str func request args kwargs w
  = (Raised (AttributeError ("'" +:+ type_name request
                             +:+ "' object has no attribute 'method'")), w1).
Proof.
  intros Hr Hf Ho. unfold track_http_request.
  destruct o as [response|e].
  - erewrite try_caught; [ | | ].
    2: { msteps. erewrite bind_raised by (apply getattr_raised, Hr). reflexivity. }
    2: reflexivity.
    erewrite bind_raised by (apply getattr_raised, Hr). reflexivity.
  - erewrite try_caught; [ | | ].
    2: { msteps. reflexivity. }
    2: { apply Ho. reflexivity. }
    erewrite bind_raised by (apply getattr_raised, Hr). reflexivity.
Qed.

End HttpPaths.

Section Transparency.

Import Exporter Registry.

Variable obj_str : value -> string.

Lemma dict_get_world v key dflt w a w' :
  dict_get v key dflt w = (Returned a, w') -> w' = w.
Proof. destruct v; simpl; unfold ret, raise; congruence. Qed.

(** X12. No wrapper invents a result or swallows a failure: whenever a wrapper
    returns a value, the wrapped operation was called with the wrapper's
    arguments in the wrapper's world and returned that very value. So a
    wrapped operation that raises never makes its wrapper return. *)
Theorem wrappers_return_what_the_operation_returned :
  (forall func ticket args kwargs w v w2,
     track_ticket_processing obj_str func ticket args kwargs w = (Returned v, w2) ->
     exists w1, func ticket args kwargs w = (Returned v, w1)) /\
  (forall provider model func args kwargs w v w2,
     track_llm_call obj_str provider model func args kwargs w = (Returned v, w2) ->
     exists w1, func args kwargs w = (Returned v, w1)) /\
  (forall func request args kwargs w v w2,
     track_http_request obj_str func request args kwargs w = (Returned v, w2) ->
     exists w1, func request args kwargs w = (Returned v, w1)).
Proof.
  split; [|split].
  - intros func ticket args kwargs w v w2 H.
    unfold track_ticket_processing in H.
    rewrite bind_time_time in H.
    apply bind_returned_inv in H. destruct H as (category & wa & Hc & H).
    apply dict_get_world in Hc. subst wa.
    apply bind_returned_inv in H. destruct H as (channel & wb & Hc & H).
    apply dict_get_world in Hc. subst wb.
    apply try_returned_inv in H. destruct H as [H | (e & w1 & _ & _ & H)].
    + apply bind_returned_inv in H. destruct H as (result & w1 & Hf & H).
      unbind H. injection H as <- _. eauto.
    + unbind H. discriminate.
  - intros provider model func args kwargs w v w2 H.
    unfold track_llm_call in H.
    rewrite bind_time_time in H.
    apply try_returned_inv in H. destruct H as [H | (e & w1 & _ & _ & H)].
    + apply bind_returned_inv in H. destruct H as (result & w1 & Hf & H).
      unbind H. injection H as <- _. eauto.
    + unbind H. discriminate.
  - intros func request args kwargs w v w2 H.
    unfold track_http_request in H.
    apply try_returned_inv in H. destruct H as [H | (e & w1 & _ & _ & H)].
    + apply bind_returned_inv in H. destruct H as (response & w1 & Hf & H).
      unbind H. injection H as <- _. eauto.
    + unbind H. discriminate.
Qed.

End Transparency.

Section Budget.

Import Exporter Registry RegistryFacts.

Variable obj_str : value -> string.

Lemma apply_set_again k a r :
  gauge_value r k = Some a -> apply (OpSet k a) r = r.
Proof.
  destruct r as [c h g]. unfold gauge_value, apply, set. cbn.
  intros H. f_equal. apply insert_id, H.
Qed.

(** The budget refresh as a run of six gauge updates. *)
Lemma update_cost_budget_tracking_run w :
  update_cost_budget_tracking obj_str w
  = (Returned VNone,
     with_registry
       (run [OpSet (m_name cost_budget_monthly, ["llm_api"]) (NInt 1200);
             OpSet (m_name cost_budget_monthly, ["aws_infrastructure"]) (NInt 800);
             OpSet (m_name cost_budget_monthly, ["vector_db"]) (NInt 300);
             OpSet (m_name cost_budget_monthly, ["monitoring"]) (NInt 200);
             OpSet (unlabelled support_agent_cost_savings_dollars) (NInt 4000);
             OpSet (unlabelled monthly_cost_savings_dollars) (NInt (4000 - 2500))]
            (w_registry w))
       w).
Proof.
  unfold update_cost_budget_tracking, budgets. cbn [for_each]. msteps. reflexivity.
Qed.

(** X13. The budget refresh is idempotent and local: run in the world an earlier
    refresh left, it returns [None] and leaves that world exactly as it is;
    and a refresh changes no gauge series other than the budget series and
    the two savings gauges. *)
Theorem update_cost_budget_tracking_idempotent w :
  let w1 := snd (update_cost_budget_tracking obj_str w) in
  update_cost_budget_tracking obj_str w1 = (Returned VNone, w1)
  /\ (forall k,
        k.1 <> m_name cost_budget_monthly ->
        k <> unlabelled support_agent_cost_savings_dollars ->
        k <> unlabelled monthly_cost_savings_dollars ->
        gauge_value (w_registry w1) k = gauge_value (w_registry w) k).
Proof.
  intros w1. subst w1. rewrite !update_cost_budget_tracking_run.
  unfold with_registry. cbn [snd w_registry w_log w_now]. split.
  - f_equal. f_equal.
    set (r1 := run _ (w_registry w)).
    unfold run at 1. cbn [foldl].
    rewrite !apply_set_again; first reflexivity;
      subst r1; unfold run; cbn [foldl];
      repeat first [ apply gauge_value_set_eq
                   | rewrite gauge_value_set_ne by discriminate ].
  - intros k H1 H2 H3. unfold run. cbn [foldl].
    rewrite !gauge_value_set_ne; first reflexivity;
      first [ exact (not_eq_sym H2) | exact (not_eq_sym H3)
            | intros <-; apply H1; reflexivity ].
Qed.

End Budget.

(* ===================================================================== *)
(** ** The periodic updaters *)
(* ===================================================================== *)

Section UpdaterRuns.

Import Exporter Updaters Registry RegistryFacts.

Variable obj_str : value -> string.

Lemma raises_Exception_only_bind {A B} (c : M A) (k : A -> M B) :
  raises_Exception_only c -> (forall a, raises_Exception_only (k a)) ->
  raises_Exception_only (bind c k).
Proof.
  intros Hc Hk w e w' H. apply bind_raised_inv in H.
  destruct H as [H | (a & w1 & _ & H)]; [eapply Hc | eapply Hk]; exact H.
Qed.

Lemma raises_Exception_only_ret {A} (a : A) : raises_Exception_only (ret a).
Proof. intros w e w' H. discriminate. Qed.

Lemma raises_Exception_only_getattr v name : raises_Exception_only (getattr v name).
Proof.
  intros w e w' H. unfold getattr in H.
  destruct v; try (injection H as <- _; reflexivity).
  destruct (attrs !! name); [discriminate | injection H as <- _; reflexivity].
Qed.

Lemma raises_Exception_only_int_to_float z w e w' :
  lift (int_to_float z) w = (Raised e, w') -> exn_is_Exception e = true.
Proof.
  unfold lift, int_to_float. destruct (F64.is_finite (F64.of_Z z)); [discriminate|].
  intros H. injection H as <- _. reflexivity.
Qed.

Lemma raises_Exception_only_number_to_float n :
  raises_Exception_only (lift (number_to_float n)).
Proof.
  intros w e w' H. destruct n as [z|f]; [|discriminate].
  eapply raises_Exception_only_int_to_float, H.
Qed.

Lemma raises_Exception_only_py_sub a b : raises_Exception_only (py_sub a b).
Proof.
  unfold py_sub.
  destruct (number_of_value a) as [[x|f]|], (number_of_value b) as [[y|g]|];
    try (intros w e w' H; first [discriminate | injection H as <- _; reflexivity]);
    (apply raises_Exception_only_bind;
     [apply raises_Exception_only_number_to_float|intros fa];
     apply raises_Exception_only_bind;
     [apply raises_Exception_only_number_to_float|intros fb];
     apply raises_Exception_only_ret).
Qed.

Lemma raises_Exception_only_gauge_set_value k amount :
  raises_Exception_only (gauge_set_value k amount).
Proof.
  intros w e w' H. unfold gauge_set_value in H.
  destruct (number_of_value amount); [discriminate|].
  destruct amount; injection H as <- _; reflexivity.
Qed.

Lemma raises_Exception_only_labels m kw : raises_Exception_only (labels obj_str m kw).
Proof.
  intros w e w' H. unfold labels in H.
  destruct (label_values m _); [discriminate | injection H as <- _; reflexivity].
Qed.




(** X15. A failing read skips the whole refresh. Whichever of the three reads
    raises an instance of [Exception], the first, the second or the third,
    the refresh returns [None], logs the error and leaves the registry as
    the failing read left it: the sets come after all three reads, so no
    gauge is updated from the reads that did succeed. *)
Theorem update_queue_metrics_read_failure llen w e wf :
  exn_is_Exception e = true ->
  (llen "queue:high" w = (Raised e, wf)
   \/ (exists vh w1,
         llen "queue:high" w = (Returned vh, w1)
         /\ llen "queue:medium" w1 = (Raised e, wf))
   \/ (exists vh w1 vm w2,
         llen "queue:high" w = (Returned vh, w1)
         /\ llen "queue:medium" w1 = (Returned vm, w2)
         /\ llen "queue:low" w2 = (Raised e, wf))) ->
  update_queue_metrics obj_str llen w
  = (Returned VNone,
     logged (Log ERROR ("Error updating queue metrics: " +:+ exn_str e)) wf).
Proof.
  intros He H. unfold update_queue_metrics.
  erewrite try_caught; [ | | exact He ].
  2: { destruct H as [H | [(vh & w1 & H1 & H) | (vh & w1 & vm & w2 & H1 & H2 & H)]];
       msteps; reflexivity. }
  msteps. reflexivity.
Qed.





(** X19. Neither updater lets an instance of [Exception] escape. The pool
    refresh returns [None] for every pool object whatsoever. The queue
    refresh returns [None] unless the queue client itself raises something
    that derives from [BaseException] only, which then passes through
    unchanged; nothing the refresh does on its own can make it raise. *)
Theorem updaters_contain_failures :
  (forall db_pool w,
     exists w', update_db_connection_metrics db_pool w = (Returned VNone, w')) /\
  (forall llen w o w',
     update_queue_metrics obj_str llen w = (o, w') ->
     o = Returned VNone
     \/ exists e key wa,
          o = Raised e /\ exn_is_Exception e = false
          /\ llen key wa = (Raised e, w')).
Proof.
  split.
  - intros db_pool w. unfold update_db_connection_metrics.
    match goal with |- context [try_except_Exception ?b ?h] =>
      set (body := b); set (handler := h) end.
    assert (Hb : raises_Exception_only body).
    { subst body.
      repeat first [ apply raises_Exception_only_ret
                   | apply raises_Exception_only_getattr
                   | apply raises_Exception_only_py_sub
                   | apply raises_Exception_only_gauge_set_value
                   | apply raises_Exception_only_bind; [|intros ?] ]. }
    destruct (body w) as [[v|e] w1] eqn:E.
    + exists w1. erewrite try_returned by exact E.
      subst body. unbind E. injection E as <- _. reflexivity.
    + eexists. erewrite try_caught; [ | exact E | eapply Hb, E ].
      subst handler. msteps. reflexivity.
  - intros llen w o w' H. unfold update_queue_metrics in H.
    destruct o as [v|e].
    + left. apply try_returned_inv in H.
      destruct H as [H | (e & w1 & _ & _ & H)]; unbind H; injection H as <- _;
        reflexivity.
    + right. apply try_raised_inv in H.
      destruct H as [(H & He) | (e1 & w1 & _ & _ & H)].
      2: { apply bind_raised_inv in H.
           destruct H as [H | (a & wa & _ & H)]; discriminate. }
      apply bind_raised_inv in H. destruct H as [H | (vh & w1 & _ & H)]; [eauto 6|].
      apply bind_raised_inv in H. destruct H as [H | (vm & w2 & _ & H)]; [eauto 6|].
      apply bind_raised_inv in H. destruct H as [H | (vl & w3 & _ & H)]; [eauto 6|].
      exfalso.
      assert (Hrest : exn_is_Exception e = true); [|congruence].
      revert H. generalize w3 e w'.
      change (raises_Exception_only
                (k <- labels obj_str queue_depth [("priority", VStr "high")] ;;
                 gauge_set_value k vh ;;
                 k <- labels obj_str queue_depth [("priority", VStr "medium")] ;;
                 gauge_set_value k vm ;;
                 k <- labels obj_str queue_depth [("priority", VStr "low")] ;;
                 gauge_set_value k vl ;;
                 ret VNone)).
      repeat first [ apply raises_Exception_only_ret
                   | apply raises_Exception_only_labels
                   | apply raises_Exception_only_gauge_set_value
                   | apply raises_Exception_only_bind; [|intros ?] ].
Qed.

End UpdaterRuns.

(* ===================================================================== *)
(** ** What the exporter may do to the registry *)
(* ===================================================================== *)

Section Closure.

Import Exporter Updaters Registry.

Variable obj_str : value -> string.

Variable R : registry -> registry -> Prop.
Hypothesis R_refl : forall r, R r r.
Hypothesis R_trans : forall a b c, R a b -> R b c -> R a c.

Lemma respects_unchanged {A} (c : M A) :
  (forall w, w_registry (snd (c w)) = w_registry w) -> respects R c.
Proof. intros H w. rewrite H. apply R_refl. Qed.

Lemma respects_ret {A} (a : A) : respects R (ret a).
Proof. apply respects_unchanged. reflexivity. Qed.

Lemma respects_raise {A} e : respects R (@raise A e).
Proof. apply respects_unchanged. reflexivity. Qed.

Lemma respects_lift {A} (o : outcome A) : respects R (lift o).
Proof. apply respects_unchanged. reflexivity. Qed.

Lemma respects_time_time : respects R time_time.
Proof. apply respects_unchanged. reflexivity. Qed.

Lemma respects_logger lv text : respects R (logger lv text).
Proof. apply respects_unchanged. reflexivity. Qed.

Lemma respects_dict_get v key dflt : respects R (dict_get v key dflt).
Proof. apply respects_unchanged. intros w. destruct v; reflexivity. Qed.

Lemma respects_getattr v name : respects R (getattr v name).
Proof.
  apply respects_unchanged. intros w. unfold getattr.
  destruct v; try reflexivity. destruct (attrs !! name); reflexivity.
Qed.

Lemma respects_contains key v : respects R (contains key v).
Proof. apply respects_unchanged. intros w. destruct v; reflexivity. Qed.

Lemma respects_getitem v key : respects R (getitem v key).
Proof.
  apply respects_unchanged. intros w. unfold getitem.
  destruct v; try reflexivity. destruct (d !! key); reflexivity.
Qed.

Lemma respects_labels m kw : respects R (labels obj_str m kw).
Proof.
  apply respects_unchanged. intros w. unfold labels.
  destruct (label_values m _); reflexivity.
Qed.

Lemma respects_py_gt v c : respects R (py_gt v c).
Proof.
  apply respects_unchanged. intros w. unfold py_gt.
  destruct (number_of_value v); reflexivity.
Qed.

Lemma respects_bind {A B} (c : M A) (k : A -> M B) :
  respects R c -> (forall a, respects R (k a)) -> respects R (bind c k).
Proof.
  intros Hc Hk w. unfold bind. specialize (Hc w).
  destruct (c w) as [[a|e] w1]; cbn [snd] in *.
  - eapply R_trans; [exact Hc | apply Hk].
  - exact Hc.
Qed.

(** After [labels] the series is known: it belongs to the instrument. *)
Lemma respects_bind_labels {B} m kw (k : series -> M B) :
  (forall lv, respects R (k (m_name m, lv))) ->
  respects R (bind (labels obj_str m kw) k).
Proof.
  intros Hk w. unfold bind, labels.
  destruct (label_values m _) as [lv|]; [apply Hk | apply R_refl].
Qed.

Lemma respects_try {A} (body : M A) handler :
  respects R body -> (forall e, respects R (handler e)) ->
  respects R (try_except_Exception body handler).
Proof.
  intros Hb Hh w. unfold try_except_Exception. specialize (Hb w).
  destruct (body w) as [[a|e] w1]; cbn [snd] in *; [exact Hb|].
  destruct (exn_is_Exception e); [|exact Hb].
  eapply R_trans; [exact Hb | apply Hh].
Qed.

Lemma respects_for_each {A} (l : list A) (body : A -> M unit) :
  (forall x, respects R (body x)) -> respects R (for_each l body).
Proof.
  intros H. induction l as [|x l IH]; cbn [for_each].
  - apply respects_ret.
  - apply respects_bind; [apply H | intros _; exact IH].
Qed.

Lemma respects_py_mul v r : respects R (py_mul v r).
Proof.
  unfold py_mul. destruct (number_of_value v); [|apply respects_raise].
  apply respects_bind; [apply respects_lift | intros f; apply respects_ret].
Qed.

Lemma respects_py_sub a b : respects R (py_sub a b).
Proof.
  unfold py_sub.
  destruct (number_of_value a) as [[x|f]|], (number_of_value b) as [[y|g]|];
    first [ apply respects_ret | apply respects_raise
          | apply respects_bind; [apply respects_lift | intros fa];
            apply respects_bind; [apply respects_lift | intros fb];
            apply respects_ret ].
Qed.

Lemma respects_confidence_tier c : respects R (confidence_tier c).
Proof.
  unfold confidence_tier.
  apply respects_bind; [apply respects_py_gt | intros [|]]; [apply respects_ret|].
  apply respects_bind; [apply respects_py_gt | intros [|]]; apply respects_ret.
Qed.

Lemma respects_calculate_llm_cost provider model i o :
  respects R (calculate_llm_cost provider model i o).
Proof.
  unfold calculate_llm_cost. destruct (rates_for provider model) as [r|].
  - apply respects_bind; [apply respects_py_mul | intros a].
    apply respects_bind; [apply respects_py_mul | intros b]. apply respects_ret.
  - apply respects_bind; [apply respects_logger | intros _; apply respects_ret].
Qed.

End Closure.

(** Taking a computation apart down to its registry operations. *)
Ltac respects_step Rrefl Rtrans :=
  cbv beta zeta;
  lazymatch goal with
  | |- respects _ (bind (Exporter.labels _ _ _) _) =>
      apply (respects_bind_labels _ _ Rrefl); intros ?
  | |- respects _ (bind _ _) => apply (respects_bind _ Rtrans); [|intros ?]
  | |- respects _ (try_except_Exception _ _) =>
      apply (respects_try _ Rtrans); [|intros ?]
  | |- respects _ (for_each _ _) => apply (respects_for_each _ Rrefl Rtrans); intros ?
  | |- respects _ (ret _) => apply (respects_ret _ Rrefl)
  | |- respects _ (raise _) => apply (respects_raise _ Rrefl)
  | |- respects _ time_time => apply (respects_time_time _ Rrefl)
  | |- respects _ (logger _ _) => apply (respects_logger _ Rrefl)
  | |- respects _ (dict_get _ _ _) => apply (respects_dict_get _ Rrefl)
  | |- respects _ (getattr _ _) => apply (respects_getattr _ Rrefl)
  | |- respects _ (contains _ _) => apply (respects_contains _ Rrefl)
  | |- respects _ (getitem _ _) => apply (respects_getitem _ Rrefl)
  | |- respects _ (Exporter.labels _ _ _) => apply (respects_labels _ _ Rrefl)
  | |- respects _ (py_sub _ _) => apply (respects_py_sub _ Rrefl Rtrans)
  | |- respects _ (Exporter.confidence_tier _) =>
      apply (respects_confidence_tier _ Rrefl Rtrans)
  | |- respects _ (Exporter.calculate_llm_cost _ _ _ _) =>
      apply (respects_calculate_llm_cost _ Rrefl Rtrans)
  | |- respects _ (if ?b then _ else _) => destruct b
  | |- respects _ (let '(_, _) := ?p in _) => destruct p
  end.

Ltac respects_steps Rrefl Rtrans :=
  repeat first [ assumption | respects_step Rrefl Rtrans ].

Section Invariants.

Import Exporter Updaters Registry RegistryFacts.

Variable obj_str : value -> string.

Lemma only_records_refl r : only_records r r.
Proof. split; [intros k; apply not_below_refl | split; reflexivity]. Qed.

Lemma only_records_trans a b c :
  only_records a b -> only_records b c -> only_records a c.
Proof.
  intros (C1 & H1 & G1) (C2 & H2 & G2). split; [|split].
  - intros k. eapply not_below_trans; [apply C1 | apply C2].
  - intros k. etransitivity; [apply H1 | apply H2].
  - congruence.
Qed.

Lemma only_gauges_refl r : only_gauges r r.
Proof. split; reflexivity. Qed.

Lemma only_gauges_trans a b c : only_gauges a b -> only_gauges b c -> only_gauges a c.
Proof. intros (C1 & H1) (C2 & H2). split; congruence. Qed.

Lemma only_records_counter_inc k amount : respects only_records (counter_inc k amount).
Proof.
  intros w. rewrite counter_inc_registry.
  destruct (number_of_value amount) as [n|]; [|apply only_records_refl].
  split; [|split].
  - intros k'. rewrite counter_value_apply.
    apply not_below_xadd, nonnegative_contribution.
  - intros k'. rewrite observations_apply_inc. reflexivity.
  - apply reg_gauges_apply_inc.
Qed.

Lemma only_records_hist_observe k amount : respects only_records (hist_observe k amount).
Proof.
  intros w. cbn [hist_observe snd w_registry with_registry].
  split; [|split].
  - intros k'. apply not_below_refl.
  - intros k'. unfold observations at 2. cbn [observe reg_histograms].
    destruct (decide (k = k')) as [->|Hne].
    + rewrite lookup_insert_eq. cbn [default]. apply prefix_app_r. reflexivity.
    + rewrite lookup_insert_ne by exact Hne. reflexivity.
  - reflexivity.
Qed.

Lemma only_gauges_gauge_set_value k amount : respects only_gauges (gauge_set_value k amount).
Proof.
  intros w. unfold gauge_set_value.
  destruct (number_of_value amount); split; reflexivity.
Qed.

Lemma only_gauges_gauge_set k amount : respects only_gauges (gauge_set k amount).
Proof. intros w. split; reflexivity. Qed.

(** X20. The three wrappers only record. Around an operation that itself only
    records (in particular one that leaves the registry alone), a wrapper
    call never lowers a counter, never drops or reorders what a histogram
    series has observed, and never changes a gauge: on every path, whether
    the operation returns or raises and whatever shape its result has. *)
Theorem wrappers_only_record :
  (forall func ticket args kwargs,
     respects only_records (func ticket args kwargs) ->
     respects only_records (track_ticket_processing obj_str func ticket args kwargs)) /\
  (forall provider model func args kwargs,
     respects only_records (func args kwargs) ->
     respects only_records (track_llm_call obj_str provider model func args kwargs)) /\
  (forall func request args kwargs,
     respects only_records (func request args kwargs) ->
     respects only_records (track_http_request obj_str func request args kwargs)).
Proof.
  split; [|split].
  - intros func ticket args kwargs Hf. unfold track_ticket_processing.
    repeat first [ assumption
                 | apply only_records_counter_inc
                 | apply only_records_hist_observe
                 | respects_step only_records_refl only_records_trans ].
  - intros provider model func args kwargs Hf. unfold track_llm_call.
    repeat first [ assumption
                 | apply only_records_counter_inc
                 | apply only_records_hist_observe
                 | respects_step only_records_refl only_records_trans ].
  - intros func request args kwargs Hf. unfold track_http_request.
    repeat first [ assumption
                 | apply only_records_counter_inc
                 | apply only_records_hist_observe
                 | respects_step only_records_refl only_records_trans ].
Qed.

(** X21. The three periodic updaters write gauges only: no run of the pool
    refresh or of the budget refresh changes a counter or a histogram, and
    none of the queue refresh does either as long as the queue client's
    reads do not. *)
Theorem updaters_touch_gauges_only :
  (forall db_pool, respects only_gauges (update_db_connection_metrics db_pool)) /\
  (forall llen,
     (forall key, respects only_gauges (llen key)) ->
     respects only_gauges (update_queue_metrics obj_str llen)) /\
  respects only_gauges (update_cost_budget_tracking obj_str).
Proof.
  split; [|split].
  - intros db_pool. unfold update_db_connection_metrics.
    repeat first [ apply only_gauges_gauge_set_value
                 | respects_step only_gauges_refl only_gauges_trans ].
  - intros llen Hl. unfold update_queue_metrics.
    repeat first [ apply only_gauges_gauge_set_value
                 | apply Hl
                 | respects_step only_gauges_refl only_gauges_trans ].
  - unfold update_cost_budget_tracking.
    repeat first [ apply only_gauges_gauge_set
                 | respects_step only_gauges_refl only_gauges_trans ].
Qed.

(** X22. One failure, two layers. When a ticket operation makes its LLM call
    through the LLM wrapper and that call raises an instance of [Exception],
    the ticket wrapper around the operation raises the same exception; the
    failure is counted once, in the two LLM error counters, and logged
    twice, first by the LLM wrapper and then by the ticket wrapper; the
    ticket is not counted as processed and its duration is not observed. *)
Theorem llm_failure_inside_ticket_operation
    provider model llm largs lkwargs d args kwargs w e w1 :
  llm largs lkwargs w = (Raised e, w1) ->
  exn_is_Exception e = true ->
  let operation := fun (_ : value) (_ : list value) (_ : gmap string value) =>
                     track_llm_call obj_str provider model llm largs lkwargs in
  let requests_error := (m_name llm_api_requests_total, [provider; model; "error"]) in
  let errors := (m_name llm_api_errors_total, [provider; exn_type e]) in
  exists w2,
    track_ticket_processing obj_str operation (VDict d) args kwargs w = (Raised e, w2)
    /\ w_registry w2
       = run [OpInc requests_error (NInt 1); OpInc errors (NInt 1)] (w_registry w1)
    /\ counter_value (w_registry w2) requests_error
       = xadd (counter_value (w_registry w1) requests_error) (XFin 1)
    /\ counter_value (w_registry w2) errors
       = xadd (counter_value (w_registry w1) errors) (XFin 1)
    /\ (forall k, k <> requests_error -> k <> errors ->
          counter_value (w_registry w2) k = counter_value (w_registry w1) k)
    /\ reg_histograms (w_registry w2) = reg_histograms (w_registry w1)
    /\ w_log w2
       = Log ERROR ("Error processing ticket: " +:+ exn_str e)
         :: Log ERROR ("LLM API error: " +:+ exn_str e) :: w_log w1.
Proof.
  intros Hl He operation requests_error errors.
  assert (Hop : track_llm_call obj_str provider model llm largs lkwargs w
                = (Raised e,
                   World (run [OpInc requests_error (NInt 1); OpInc errors (NInt 1)]
                              (w_registry w1))
                         (Log ERROR ("LLM API error: " +:+ exn_str e) :: w_log w1)
                         (w_now w1))).
  { unfold track_llm_call. mstep.
    erewrite try_caught; [ | msteps; reflexivity | exact He ].
    msteps. reflexivity. }
  eexists. split.
  { unfold track_ticket_processing. msteps.
    erewrite try_caught; [ | | exact He ].
    2: { subst operation. cbv beta. erewrite bind_raised by exact Hop. reflexivity. }
    msteps. reflexivity. }
  cbn [w_registry w_log logged].
  split; [reflexivity|]. subst requests_error errors.
  split; [counter_after_run; reflexivity|].
  split; [counter_after_run; reflexivity|].
  split; [intros k H1 H2; counter_after_run; reflexivity|].
  split; reflexivity.
Qed.

End Invariants.

(* ===================================================================== *)
(** ** The cost model over the whole price table *)
(* ===================================================================== *)

Section PriceTable.

Import Exporter Registry.

(** One case per entry of the price table. *)
Lemma rates_for_cases (P : rates -> Prop) provider model r :
  rates_for provider model = Some r ->
  (provider = "anthropic" -> model = "claude-sonnet-4" ->
   P (Rates (per_million (F64.lit 30 10)) (per_million (F64.lit 150 10)))) ->
  (provider = "anthropic" -> model = "claude-haiku" ->
   P (Rates (per_million (F64.lit 25 100)) (per_million (F64.lit 125 100)))) ->
  (provider = "openai" -> model = "gpt-4" ->
   P (Rates (per_million (F64.lit 300 10)) (per_million (F64.lit 600 10)))) ->
  (provider = "openai" -> model = "gpt-3.5-turbo" ->
   P (Rates (per_million (F64.lit 5 10)) (per_million (F64.lit 15 10)))) ->
  P r.
Proof.
  unfold rates_for, pricing. intros Hr H1 H2 H3 H4. revert Hr.
  rewrite lookup_insert. case_decide as Ha; cbn [mbind option_bind].
  - rewrite lookup_insert. case_decide as Hb; cbn [mbind option_bind].
    + intros Hr. apply (inj Some) in Hr. destruct Hr. apply H1; congruence.
    + rewrite lookup_insert. case_decide as Hc; cbn [mbind option_bind].
      * intros Hr. apply (inj Some) in Hr. destruct Hr. apply H2; congruence.
      * rewrite lookup_empty. discriminate.
  - rewrite lookup_insert. case_decide as Hb; cbn [mbind option_bind].
    + rewrite lookup_insert. case_decide as Hc; cbn [mbind option_bind].
      * intros Hr. apply (inj Some) in Hr. destruct Hr. apply H3; congruence.
      * rewrite lookup_insert. case_decide as Hd; cbn [mbind option_bind].
        -- intros Hr. apply (inj Some) in Hr. destruct Hr. apply H4; congruence.
        -- rewrite lookup_empty. discriminate.
    + rewrite lookup_empty. discriminate.
Qed.

(** X23. Dividing a published price by one million and multiplying it back
    loses nothing, on every entry of the price table: each rate is the
    millionth of a dollar amount, one million input tokens cost exactly
    that amount, one million output tokens exactly the output amount, and
    one million of each exactly the double-precision sum of the two. *)
Theorem calculate_llm_cost_per_million provider model r :
  rates_for provider model = Some r ->
  exists dollars_in dollars_out,
    r = Rates (per_million dollars_in) (per_million dollars_out)
    /\ (forall w, calculate_llm_cost provider model (VInt 1000000) (VInt 0) w
                  = (Returned dollars_in, w))
    /\ (forall w, calculate_llm_cost provider model (VInt 0) (VInt 1000000) w
                  = (Returned dollars_out, w))
    /\ (forall w, calculate_llm_cost provider model (VInt 1000000) (VInt 1000000) w
                  = (Returned (F64.add dollars_in dollars_out), w)).
Proof.
  intros Hr. unfold calculate_llm_cost. rewrite Hr.
  apply (rates_for_cases
           (fun r => exists dollars_in dollars_out,
              r = Rates (per_million dollars_in) (per_million dollars_out)
              /\ (forall w, (a <- py_mul (VInt 1000000) (rate_input r) ;;
                             b <- py_mul (VInt 0) (rate_output r) ;;
                             ret (F64.add a b)) w = (Returned dollars_in, w))
              /\ (forall w, (a <- py_mul (VInt 0) (rate_input r) ;;
                             b <- py_mul (VInt 1000000) (rate_output r) ;;
                             ret (F64.add a b)) w = (Returned dollars_out, w))
              /\ (forall w, (a <- py_mul (VInt 1000000) (rate_input r) ;;
                             b <- py_mul (VInt 1000000) (rate_output r) ;;
                             ret (F64.add a b)) w
                            = (Returned (F64.add dollars_in dollars_out), w)))
           provider model r Hr); intros _ _.
  - exists (F64.lit 30 10), (F64.lit 150 10).
    split; [reflexivity|]. repeat split; intros w; vm_compute; reflexivity.
  - exists (F64.lit 25 100), (F64.lit 125 100).
    split; [reflexivity|]. repeat split; intros w; vm_compute; reflexivity.
  - exists (F64.lit 300 10), (F64.lit 600 10).
    split; [reflexivity|]. repeat split; intros w; vm_compute; reflexivity.
  - exists (F64.lit 5 10), (F64.lit 15 10).
    split; [reflexivity|]. repeat split; intros w; vm_compute; reflexivity.
Qed.

(** X24. For a priced pair the price lookup comes first and the arithmetic
    second: a token count that is not a number makes the call raise
    [TypeError], and nothing is logged. (For an unpriced pair the same
    arguments return 0.0: the counts are never looked at.) *)
Theorem calculate_llm_cost_non_numeric_tokens provider model r input_tokens output_tokens w :
  rates_for provider model = Some r ->
  (number_of_value input_tokens = None ->
   exists text,
     calculate_llm_cost provider model input_tokens output_tokens w
     = (Raised (TypeError text), w)) /\
  (forall n f,
     number_of_value input_tokens = Some n -> number_to_float n = Returned f ->
     number_of_value output_tokens = None ->
     exists text,
       calculate_llm_cost provider model input_tokens output_tokens w
       = (Raised (TypeError text), w)).
Proof.
  intros Hr. unfold calculate_llm_cost. rewrite Hr. split.
  - intros Hn. eexists. unfold bind, py_mul. rewrite Hn. reflexivity.
  - intros n f Hn Hf Ho. eexists. unfold bind, py_mul, lift.
    rewrite Hn, Hf, Ho. reflexivity.
Qed.

End PriceTable.

(* ===================================================================== *)
(** ** The cost of any convertible token counts is a finite number *)
(* ===================================================================== *)

Section CostRange.

Import F64 F64Facts Exporter Registry RegistryFacts.

Lemma shr_record_of_loc_m m l : shr_m (shr_record_of_loc m l) = m.
Proof. destruct l as [|[]]; reflexivity. Qed.

Lemma Zdigits2_nonneg m : 0 <= Zdigits2 m.
Proof. destruct m; simpl; lia. Qed.

Lemma Zdigits2_upper m : 0 <= m -> m < 2 ^ Zdigits2 m.
Proof. destruct m as [|p|p]; [simpl; lia | intros _; apply digits_upper | lia]. Qed.

(** The mantissa and the exponent that one truncation step yields. *)
Lemma shr_fexp_shape m e l :
  0 <= m ->
  let k := Z.max (fexp prec emax (Zdigits2 m + e) - e) 0 in
  shr_m (fst (shr_fexp prec emax m e l)) = m / 2 ^ k
  /\ snd (shr_fexp prec emax m e l) = e + k.
Proof.
  intros Hm k. subst k. unfold shr_fexp, shr.
  destruct (fexp prec emax (Zdigits2 m + e) - e) as [|q|q]; cbn [fst snd].
  - rewrite shr_record_of_loc_m. change (Z.max 0 0) with 0.
    rewrite Z.pow_0_r, Z.div_1_r. lia.
  - rewrite iter_pos_shr_1_m by (rewrite shr_record_of_loc_m; exact Hm).
    rewrite shr_record_of_loc_m.
    replace (Z.max (Z.pos q) 0) with (Z.pos q) by lia. lia.
  - rewrite shr_record_of_loc_m.
    replace (Z.max (Z.neg q) 0) with 0 by lia.
    rewrite Z.pow_0_r, Z.div_1_r. lia.
Qed.

Lemma Zdigits2_div_pow2 m k :
  0 <= m -> 0 <= k -> Zdigits2 (m / 2 ^ k) <= Z.max (Zdigits2 m - k) 0.
Proof.
  intros Hm Hk.
  pose proof (Zdigits2_upper m Hm) as Hu. pose proof (Zdigits2_nonneg m) as Hd.
  assert (Hp : 0 < 2 ^ k) by (apply Z.pow_pos_nonneg; lia).
  destruct (Z_le_gt_dec k (Zdigits2 m)) as [Hle|Hgt].
  - replace (Z.max (Zdigits2 m - k) 0) with (Zdigits2 m - k) by lia.
    apply Zdigits2_le; [lia|]. split; [apply Z.div_pos; lia|].
    apply Z.div_lt_upper_bound; [lia|].
    rewrite <- Z.pow_add_r by lia.
    replace (k + (Zdigits2 m - k)) with (Zdigits2 m) by lia. exact Hu.
  - rewrite Z.div_small; [simpl; lia|]. split; [lia|].
    apply Z.lt_le_trans with (2 ^ Zdigits2 m); [exact Hu|].
    apply Z.pow_le_mono_r; lia.
Qed.

Lemma Zdigits2_div_pow2_pos m k :
  0 <= m -> 0 <= k -> 0 < m / 2 ^ k -> Zdigits2 (m / 2 ^ k) + k <= Zdigits2 m.
Proof.
  intros Hm Hk Hpos.
  pose proof (Zdigits2_div_pow2 m k Hm Hk) as H.
  pose proof (Zdigits2_upper m Hm) as Hu. pose proof (Zdigits2_nonneg m) as Hd.
  destruct (Z_le_gt_dec k (Zdigits2 m)) as [Hle|Hgt]; [lia|].
  exfalso. rewrite Z.div_small in Hpos; [lia|]. split; [lia|].
  apply Z.lt_le_trans with (2 ^ Zdigits2 m); [exact Hu|].
  apply Z.pow_le_mono_r; lia.
Qed.

(** What rounding an exact positive mantissa yields when it yields a finite
    double: at most 53 bits, an exponent of at most 971, and a magnitude
    that grew by one bit at most. *)
Lemma binary_round_aux_within s p e D E :
  Zdigits2 (Z.pos p) + e <= D -> e <= E ->
  match binary_round_aux prec emax s (Z.pos p) e loc_Exact with
  | S754_finite _ m' e' =>
      Zdigits2 (Z.pos m') <= 53 /\ e' <= 971
      /\ Zdigits2 (Z.pos m') + e' <= Z.max (D + 1) (-1073)
      /\ e' <= Z.max E (Z.max (D - 52) (-1074))
  | _ => True
  end.
Proof.
  intros HD HE. unfold binary_round_aux.
  pose proof (shr_fexp_exact_bounds p e) as H1. cbv zeta in H1.
  destruct (shr_fexp prec emax (Z.pos p) e loc_Exact) as [mrs' e'].
  destruct H1 as (Hm' & He' & Hd').
  set (m1 := round_nearest_even (shr_m mrs') (loc_of_shr_record mrs')) in *.
  assert (Hm1 : 0 <= m1).
  { pose proof (round_nearest_even_bounds (shr_m mrs') (loc_of_shr_record mrs')).
    subst m1. lia. }
  pose proof (shr_fexp_shape m1 e' loc_Exact Hm1) as Hs. cbv zeta in Hs.
  destruct (shr_fexp prec emax m1 e' loc_Exact) as [mrs'' e''].
  cbn [fst snd] in Hs. destruct Hs as [Hs1 Hs2].
  destruct (shr_m mrs'') as [|m''|m''] eqn:Em; [exact I | | exact I].
  destruct (e'' <=? emax - prec) eqn:Ele; [|exact I].
  apply Z.leb_le in Ele.
  set (k := Z.max (fexp prec emax (Zdigits2 m1 + e') - e') 0) in *.
  assert (Hk : 0 <= k) by (subst k; lia).
  pose proof (Zdigits2_div_pow2 m1 k Hm1 Hk) as Hdiv.
  assert (Hpos : 0 < m1 / 2 ^ k) by (rewrite <- Hs1; lia).
  pose proof (Zdigits2_div_pow2_pos m1 k Hm1 Hk Hpos) as Hdivp.
  rewrite <- Hs1 in Hdiv, Hdivp.
  assert (H1 : 1 <= Zdigits2 (Z.pos p)) by (simpl; lia).
  assert (H2 : 1 <= Zdigits2 (Z.pos m'')) by (simpl; lia).
  revert He' Hd' Hdiv Hdivp Hs2 Ele Hk. subst k.
  unfold fexp, emin, prec, emax. lia.
Qed.

(** Aligning a mantissa to its canonical exponent keeps its magnitude and
    does not raise its exponent. *)
Lemma shl_align_fexp_shape m e :
  let '(mz, ez) := shl_align m e (fexp prec emax (Z.pos (digits2_pos m) + e)) in
  Zdigits2 (Z.pos mz) + ez = Z.pos (digits2_pos m) + e /\ ez <= e.
Proof.
  unfold shl_align.
  destruct (fexp prec emax (Z.pos (digits2_pos m) + e) - e) as [|d|d] eqn:E;
    simpl Zdigits2; [lia | lia |].
  rewrite digits2_pos_iter_xO. lia.
Qed.

Lemma binary_round_finite s m e :
  Z.pos (digits2_pos m) + e <= 1023 -> e <= 970 ->
  is_finite (binary_round prec emax s m e) = true.
Proof.
  intros HD He. unfold binary_round.
  pose proof (shl_align_fexp_shape m e) as H.
  destruct (shl_align m e _) as [mz ez]. destruct H as [H1 H2].
  apply binary_round_aux_finite; lia.
Qed.

(** Aligning a mantissa to a lower exponent keeps its magnitude. *)
Lemma shl_align_down mx ex ez :
  ez <= ex ->
  Zdigits2 (Z.pos (fst (shl_align mx ex ez))) + ez = Z.pos (digits2_pos mx) + ex.
Proof.
  intros H. unfold shl_align.
  destruct (ez - ex) as [|d|d] eqn:E; cbn [fst]; simpl Zdigits2; [lia | lia |].
  rewrite digits2_pos_iter_xO. lia.
Qed.

Lemma Zdigits2_mul a b :
  Zdigits2 (Z.pos (a * b)) <= Zdigits2 (Z.pos a) + Zdigits2 (Z.pos b).
Proof.
  pose proof (digits_upper a) as Ha. pose proof (digits_upper b) as Hb.
  apply Zdigits2_le; [simpl; lia|].
  split; [lia|]. simpl Zdigits2. rewrite Z.pow_add_r by lia.
  rewrite Pos2Z.inj_mul. nia.
Qed.

Lemma Zdigits2_add a b M :
  Zdigits2 (Z.pos a) <= M -> Zdigits2 (Z.pos b) <= M ->
  Zdigits2 (Z.pos (a + b)) <= M + 1.
Proof.
  intros Ha Hb.
  pose proof (digits_upper a) as Ua. pose proof (digits_upper b) as Ub.
  simpl Zdigits2 in Ha, Hb.
  assert (HM : 0 <= M) by lia.
  assert (Pa : 2 ^ Z.pos (digits2_pos a) <= 2 ^ M) by (apply Z.pow_le_mono_r; lia).
  assert (Pb : 2 ^ Z.pos (digits2_pos b) <= 2 ^ M) by (apply Z.pow_le_mono_r; lia).
  apply Zdigits2_le; [lia|]. split; [lia|].
  rewrite Z.pow_add_r, Z.pow_1_r by lia. rewrite Pos2Z.inj_add. lia.
Qed.

(** The double of a convertible nonnegative integer. *)
Lemma of_Z_within z :
  0 <= z < 2 ^ 1024 - 2 ^ 970 -> positive_within 1024 971 (of_Z z).
Proof.
  intros Hz.
  pose proof (of_Z_finite_range z Hz) as Hfin.
  pose proof (of_Z_nonneg z (proj1 Hz)) as Hnn.
  destruct z as [|p|p]; [exact I | | lia].
  unfold of_Z, binary_normalize, binary_round in *.
  destruct (shl_align p 0 _) as [mz ez].
  pose proof (binary_round_aux_within false mz ez (Zdigits2 (Z.pos mz) + ez) ez
                (Z.le_refl _) (Z.le_refl _)) as H.
  destruct (binary_round_aux prec emax false (Z.pos mz) ez loc_Exact)
    as [[]|[]| |[] m e]; try discriminate; try exact I.
  destruct H as (H53 & H971 & _). cbn [positive_within]. lia.
Qed.

(** A count times a rate of the table. *)
Lemma mul_within x r :
  positive_within 1024 971 x -> positive_within (-14) (-67) r ->
  positive_within 1011 958 (mul x r).
Proof.
  destruct x as [[]|[]| |[] mx ex]; cbn [positive_within]; try contradiction;
    destruct r as [[]|[]| |[] mr er]; cbn [positive_within]; try contradiction;
    try (intros; exact I).
  intros (Hx53 & _ & Hex) (Hr53 & _ & Her).
  unfold mul, SFmul. cbn [xorb].
  pose proof (Zdigits2_mul mx mr) as Hmul.
  pose proof (binary_round_aux_sign false (Z.pos (mx * mr)) (ex + er) loc_Exact
                ltac:(lia)) as Hsign.
  pose proof (binary_round_aux_within false (mx * mr) (ex + er) 1010 904
                ltac:(lia) ltac:(lia)) as H.
  pose proof (binary_round_aux_finite false (mx * mr) (ex + er)
                ltac:(lia) ltac:(lia)) as Hfin.
  destruct (binary_round_aux prec emax false (Z.pos (mx * mr)) (ex + er) loc_Exact)
    as [s|s| |s m e]; try discriminate; cbn [has_sign] in Hsign; subst s;
    cbn [positive_within]; [exact I|].
  lia.
Qed.

(** The sum of two such products does not overflow. *)
Lemma add_finite D E a b :
  positive_within D E a -> positive_within D E b -> D <= 1022 -> E <= 970 ->
  is_finite (add a b) = true /\ nonneg (add a b) = true.
Proof.
  intros Ha Hb HD HE.
  split; [|apply add_nonneg;
           [destruct a as [[]|[]| |[] ? ?] | destruct b as [[]|[]| |[] ? ?]];
           first [reflexivity | contradiction]].
  destruct a as [[]|[]| |[] ma ea]; cbn [positive_within] in Ha; try contradiction;
    destruct b as [[]|[]| |[] mb eb]; cbn [positive_within] in Hb; try contradiction;
    try reflexivity.
  destruct Ha as (_ & HDa & HEa), Hb as (_ & HDb & HEb).
  unfold add, SFadd, cond_Zopp, binary_normalize.
  set (ez := Z.min ea eb).
  pose proof (shl_align_down ma ea ez ltac:(subst ez; lia)) as Sa.
  pose proof (shl_align_down mb eb ez ltac:(subst ez; lia)) as Sb.
  destruct (shl_align ma ea ez) as [a' ea'], (shl_align mb eb ez) as [b' eb'].
  cbn [fst] in *.
  change (Z.pos a' + Z.pos b') with (Z.pos (a' + b')).
  simpl Zdigits2 in HDa, HDb.
  pose proof (Zdigits2_add a' b' (D - ez) ltac:(lia) ltac:(lia)) as Hsum.
  simpl Zdigits2 in Hsum.
  apply binary_round_finite; subst ez; lia.
Qed.

(** Every rate of the price table is a positive double below [2^-14] with
    an exponent of at most -67. *)
Lemma rates_for_within provider model r :
  rates_for provider model = Some r ->
  positive_within (-14) (-67) (rate_input r)
  /\ positive_within (-14) (-67) (rate_output r).
Proof.
  intros Hr.
  apply (rates_for_cases
           (fun r => positive_within (-14) (-67) (rate_input r)
                     /\ positive_within (-14) (-67) (rate_output r))
           provider model r Hr);
    intros _ _; vm_compute; repeat split; discriminate.
Qed.

(** X25. For all nonnegative integer token counts that convert to a double, and
    every provider and model, the cost is a finite double that is not
    negative, never an infinity or a NaN: it denotes a nonnegative rational
    number, so a cost counter that holds a finite value still holds one
    after the increment. *)
Theorem calculate_llm_cost_finite provider model i o :
  0 <= i < 2 ^ 1024 - 2 ^ 970 -> 0 <= o < 2 ^ 1024 - 2 ^ 970 ->
  exists cost q,
    (forall w, calculate_llm_cost provider model (VInt i) (VInt o) w
               = (Returned cost, warned provider model w))
    /\ F64.is_finite cost = true
    /\ exact (NFloat cost) = XFin q /\ (0 <= q)%Qc
    /\ (forall v, xadd (XFin v) (exact (NFloat cost)) = XFin (v + q)).
Proof.
  intros Hi Ho.
  assert (Hcost : exists cost,
             (forall w, calculate_llm_cost provider model (VInt i) (VInt o) w
                        = (Returned cost, warned provider model w))
             /\ F64.is_finite cost = true /\ F64.nonneg cost = true).
  { pose proof (of_Z_finite_range i Hi) as Fi.
    pose proof (of_Z_finite_range o Ho) as Fo.
    unfold calculate_llm_cost, warned.
    destruct (rates_for provider model) as [r|] eqn:Er.
    - destruct (rates_for_within _ _ _ Er) as (Ri & Ro).
      exists (F64.add (F64.mul (F64.of_Z i) (rate_input r))
                      (F64.mul (F64.of_Z o) (rate_output r))).
      split.
      + intros w. unfold bind. rewrite !py_mul_int by assumption. reflexivity.
      + apply (add_finite 1011 958);
          [apply mul_within | apply mul_within | lia | lia];
          auto using of_Z_within.
    - exists (S754_zero false). repeat split; reflexivity. }
  destruct Hcost as (cost & Hrun & Hfin & Hnn).
  pose proof (nonneg_not_negative cost Hnn) as Hneg.
  pose proof (exact_accepted (NFloat cost) Hneg) as Hq.
  destruct (exact (NFloat cost)) as [q| |] eqn:Eq.
  - exists cost, q. rewrite Eq. repeat split; auto.
  - exfalso. destruct cost; simpl in *; discriminate.
  - exfalso. destruct cost; simpl in *; discriminate.
Qed.

End CostRange.

(* ===================================================================== *)
(** ** More concrete runs *)
(* ===================================================================== *)

Section MoreRuns.

Import Exporter Updaters Registry Samples Cases.

(** An escalated ticket. *)
Lemma track_ticket_processing_escalated_witness :
  op_returning (VDict escalated_result) (VDict ticket) [] ∅ w0
  = (Returned (VDict escalated_result), later w0)
  /\ truthy (default (VBool false) (escalated_result !! "auto_resolved")) = false
  /\ truthy (default (VBool false) (escalated_result !! "escalated")) = true
  /\ exists w2,
       track_ticket_processing render (op_returning (VDict escalated_result))
         (VDict ticket) [] ∅ w0
       = (Returned (VDict escalated_result), w2)
       /\ counter_value (w_registry w2)
            (m_name tickets_escalated_total, ["billing"; "low_confidence"])
          = xadd (counter_value (w_registry (later w0))
                    (m_name tickets_escalated_total, ["billing"; "low_confidence"]))
                 (XFin 1)
       /\ w_log w2 = w_log (later w0).
Proof.
  split; [reflexivity|]. split; [reflexivity|]. split; [reflexivity|].
  destruct (track_ticket_processing_escalated render
              (op_returning (VDict escalated_result))
              ticket [] ∅ w0 escalated_result (later w0) eq_refl eq_refl eq_refl)
    as (w2 & Hrun & Hesc & _ & _ & _ & Hlog).
  exists w2. split; [assumption|]. split; assumption.
Defined.

(** A ticket answered without resolution or escalation. *)
Lemma track_ticket_processing_unclassified_witness :
  op_returning (VDict plain_result) (VDict ticket) [] ∅ w0
  = (Returned (VDict plain_result), later w0)
  /\ truthy (default (VBool false) (plain_result !! "auto_resolved")) = false
  /\ truthy (default (VBool false) (plain_result !! "escalated")) = false
  /\ exists w2,
       track_ticket_processing render (op_returning (VDict plain_result))
         (VDict ticket) [] ∅ w0
       = (Returned (VDict plain_result), w2)
       /\ counter_value (w_registry w2)
            (m_name tickets_processed_total, ["billing"; "production"; "email"])
          = xadd (counter_value (w_registry (later w0))
                    (m_name tickets_processed_total, ["billing"; "production"; "email"]))
                 (XFin 1).
Proof.
  split; [reflexivity|]. split; [reflexivity|]. split; [reflexivity|].
  destruct (track_ticket_processing_unclassified render
              (op_returning (VDict plain_result))
              ticket [] ∅ w0 plain_result (later w0) eq_refl eq_refl eq_refl)
    as (w2 & Hrun & Hproc & _).
  exists w2. split; assumption.
Defined.



(** An empty ticket whose operation returns nothing. *)
Lemma track_ticket_processing_counts_every_return_witness :
  op_returning VNone (VDict ∅) [] ∅ w0 = (Returned VNone, later w0)
  /\ counter_value
       (w_registry (snd (track_ticket_processing render (op_returning VNone)
                           (VDict ∅) [] ∅ w0)))
       (m_name tickets_processed_total, ["general_inquiry"; "production"; "web"])
     = xadd (counter_value (w_registry (later w0))
               (m_name tickets_processed_total,
                ["general_inquiry"; "production"; "web"]))
            (XFin 1).
Proof.
  split; [reflexivity|].
  exact (proj1 (track_ticket_processing_counts_every_return render
                  (op_returning VNone) ∅ [] ∅ w0 VNone (later w0) eq_refl)).
Defined.


(** A call that returns a text mentioning its usage. *)
Lemma track_llm_call_non_mapping_result_witness :
  llm_returning (VStr "usage: 150 tokens") [] ∅ w0
  = (Returned (VStr "usage: 150 tokens"), later w0)
  /\ is_substring "usage" "usage: 150 tokens" = true
  /\ fst (track_llm_call render "anthropic" "claude-sonnet-4"
            (llm_returning (VStr "usage: 150 tokens")) [] ∅ w0)
     = Raised (TypeError "string indices must be integers, not 'str'").
Proof.
  split; [reflexivity|]. split; [reflexivity|].
  pose proof (track_llm_call_non_mapping_result render "anthropic" "claude-sonnet-4"
                (llm_returning (VStr "usage: 150 tokens")) [] ∅ w0
                (VStr "usage: 150 tokens") (later w0) eq_refl) as H.
  cbv zeta in H. destruct H as (_ & H & _).
  rewrite (H "usage: 150 tokens" eq_refl eq_refl). reflexivity.
Defined.


(** A handler that returns nothing. *)
Lemma track_http_request_unreadable_response_witness :
  request_attrs !! "method" = Some (VStr "GET")
  /\ request_attrs !! "path" = Some (VStr "/tickets")
  /\ op_returning VNone request [] ∅ w0 = (Returned VNone, later w0)
  /\ exists w2,
       track_http_request render (op_returning VNone) request [] ∅ w0
       = (Raised (AttributeError "'NoneType' object has no attribute 'status_code'"),
          w2)
       /\ w_registry w2
          = run [OpInc (m_name http_requests_total, ["GET"; "/tickets"; "500"]) (NInt 1)]
                (w_registry (later w0)).
Proof.
  split; [reflexivity|]. split; [reflexivity|]. split; [reflexivity|].
  destruct (track_http_request_unreadable_response render (op_returning VNone)
              "Request" request_attrs (VStr "GET") (VStr "/tickets") [] ∅ w0
              VNone (later w0) eq_refl eq_refl eq_refl)
    as (w2 & Hrun & Hreg & _); [discriminate|].
  exists w2. split; assumption.
Defined.

(** A request without a method whose handler times out. *)
Lemma track_http_request_unreadable_request_witness :
  (forall cls attrs,
     VObj "Request" bare_request_attrs = VObj cls attrs -> attrs !! "method" = None)
  /\ op_raising TimeoutError (VObj "Request" bare_request_attrs) [] ∅ w0
     = (Raised TimeoutError, later w0)
  /\ track_http_request render (op_raising TimeoutError)
       (VObj "Request" bare_request_attrs) [] ∅ w0
     = (Raised (AttributeError "'Request' object has no attribute 'method'"),
        later w0).
Proof.
  assert (Hreq : forall cls attrs,
             VObj "Request" bare_request_attrs = VObj cls attrs ->
             attrs !! "method" = None).
  { intros cls attrs H. injection H as _ <-. reflexivity. }
  split; [exact Hreq|]. split; [reflexivity|].
  apply (track_http_request_unreadable_request render (op_raising TimeoutError)
           (VObj "Request" bare_request_attrs) [] ∅ w0 (Raised TimeoutError) (later w0)
           Hreq eq_refl).
  intros e He. injection He as <-. reflexivity.
Defined.

(** The example ticket, processed. *)
Lemma wrappers_return_what_the_operation_returned_witness :
  track_ticket_processing render (op_returning (VDict plain_result))
    (VDict ticket) [] ∅ w0
  = (Returned (VDict plain_result),
     snd (track_ticket_processing render (op_returning (VDict plain_result))
            (VDict ticket) [] ∅ w0))
  /\ exists w1,
       op_returning (VDict plain_result) (VDict ticket) [] ∅ w0
       = (Returned (VDict plain_result), w1).
Proof.
  assert (H : track_ticket_processing render (op_returning (VDict plain_result))
                (VDict ticket) [] ∅ w0
              = (Returned (VDict plain_result),
                 snd (track_ticket_processing render (op_returning (VDict plain_result))
                        (VDict ticket) [] ∅ w0))) by (vm_compute; reflexivity).
  split; [exact H|].
  exact (proj1 (wrappers_return_what_the_operation_returned render) _ _ _ _ _ _ _ H).
Defined.

(** A gauge of another instrument across one budget refresh. *)
Lemma update_cost_budget_tracking_idempotent_witness :
  ("ai_agent_queue_depth", ["high"]).1 <> m_name cost_budget_monthly
  /\ update_cost_budget_tracking render (snd (update_cost_budget_tracking render w0))
     = (Returned VNone, snd (update_cost_budget_tracking render w0))
  /\ gauge_value (w_registry (snd (update_cost_budget_tracking render w0)))
       ("ai_agent_queue_depth", ["high"])
     = gauge_value (w_registry w0) ("ai_agent_queue_depth", ["high"]).
Proof.
  assert (H1 : ("ai_agent_queue_depth", ["high"]).1 <> m_name cost_budget_monthly)
    by discriminate.
  split; [exact H1|].
  destruct (update_cost_budget_tracking_idempotent render w0) as (Hagain & Hother).
  split; [exact Hagain|].
  apply Hother; [exact H1 | discriminate | discriminate].
Defined.


(** The third read fails after two lengths were read. *)
Lemma update_queue_metrics_read_failure_witness :
  exn_is_Exception ConnectionError = true
  /\ redis_failing_at "queue:low" ConnectionError "queue:high" w0 = (Returned (VInt 7), w0)
  /\ redis_failing_at "queue:low" ConnectionError "queue:medium" w0
     = (Returned (VInt 7), w0)
  /\ redis_failing_at "queue:low" ConnectionError "queue:low" w0
     = (Raised ConnectionError, w0)
  /\ update_queue_metrics render (redis_failing_at "queue:low" ConnectionError) w0
     = (Returned VNone,
        logged (Log ERROR
                  "Error updating queue metrics: Error 111 connecting to localhost:6379")
               w0).
Proof.
  split; [reflexivity|]. split; [reflexivity|]. split; [reflexivity|].
  split; [reflexivity|].
  apply (update_queue_metrics_read_failure render
           (redis_failing_at "queue:low" ConnectionError) w0 ConnectionError w0 eq_refl).
  right. right. exists (VInt 7), w0, (VInt 7), w0.
  split; [reflexivity|]. split; reflexivity.
Defined.




(** A queue store that is down. *)
Lemma updaters_contain_failures_witness :
  update_queue_metrics render (redis_failing_at "queue:high" ConnectionError) w0
  = (Returned VNone,
     snd (update_queue_metrics render (redis_failing_at "queue:high" ConnectionError) w0))
  /\ (Returned VNone = Returned VNone
      \/ exists e key wa,
           @Returned value VNone = Raised e /\ exn_is_Exception e = false
           /\ redis_failing_at "queue:high" ConnectionError key wa
              = (Raised e,
                 snd (update_queue_metrics render
                        (redis_failing_at "queue:high" ConnectionError) w0))).
Proof.
  assert (H : update_queue_metrics render
                (redis_failing_at "queue:high" ConnectionError) w0
              = (Returned VNone,
                 snd (update_queue_metrics render
                        (redis_failing_at "queue:high" ConnectionError) w0)))
    by (vm_compute; reflexivity).
  split; [exact H|].
  exact (proj2 (updaters_contain_failures render) _ _ _ _ H).
Defined.

(** The example ticket around an operation that leaves the registry alone. *)
Lemma wrappers_only_record_witness :
  respects only_records (op_returning (VDict plain_result) (VDict ticket) [] ∅)
  /\ respects only_records
       (track_ticket_processing render (op_returning (VDict plain_result))
          (VDict ticket) [] ∅).
Proof.
  assert (H : respects only_records
                (op_returning (VDict plain_result) (VDict ticket) [] ∅)).
  { intros w. apply only_records_refl. }
  split; [exact H|].
  exact (proj1 (wrappers_only_record render) _ _ _ _ H).
Defined.

(** A queue store whose reads leave the registry alone. *)
Lemma updaters_touch_gauges_only_witness :
  (forall key, respects only_gauges (redis_lengths 5 3 1 key))
  /\ respects only_gauges (update_queue_metrics render (redis_lengths 5 3 1)).
Proof.
  assert (H : forall key, respects only_gauges (redis_lengths 5 3 1 key))
    by (intros key w; split; reflexivity).
  split; [exact H|].
  exact (proj1 (proj2 (updaters_touch_gauges_only render)) _ H).
Defined.

(** A ticket operation whose LLM call times out. *)
Lemma llm_failure_inside_ticket_operation_witness :
  llm_raising TimeoutError [] ∅ w0 = (Raised TimeoutError, later w0)
  /\ exn_is_Exception TimeoutError = true
  /\ exists w2,
       track_ticket_processing render (op_calling_llm (llm_raising TimeoutError))
         (VDict ticket) [] ∅ w0
       = (Raised TimeoutError, w2)
       /\ w_registry w2
          = run [OpInc (m_name llm_api_requests_total,
                        ["anthropic"; "claude-sonnet-4"; "error"]) (NInt 1);
                 OpInc (m_name llm_api_errors_total,
                        ["anthropic"; "TimeoutError"]) (NInt 1)]
                (w_registry (later w0))
       /\ w_log w2
          = [Log ERROR "Error processing ticket: request timed out";
             Log ERROR "LLM API error: request timed out"].
Proof.
  split; [reflexivity|]. split; [reflexivity|].
  destruct (llm_failure_inside_ticket_operation render "anthropic" "claude-sonnet-4"
              (llm_raising TimeoutError) [] ∅ ticket [] ∅ w0 TimeoutError (later w0)
              eq_refl eq_refl)
    as (w2 & Hrun & Hreg & _ & _ & _ & _ & Hlog).
  exists w2. split; [exact Hrun|]. split; assumption.
Defined.

(** The most expensive model of the table. *)
Lemma calculate_llm_cost_per_million_witness :
  rates_for "openai" "gpt-4"
  = Some (Rates (per_million (F64.lit 300 10)) (per_million (F64.lit 600 10)))
  /\ exists dollars_in dollars_out,
       Rates (per_million (F64.lit 300 10)) (per_million (F64.lit 600 10))
       = Rates (per_million dollars_in) (per_million dollars_out)
       /\ calculate_llm_cost "openai" "gpt-4" (VInt 1000000) (VInt 0) w0
          = (Returned dollars_in, w0)
       /\ calculate_llm_cost "openai" "gpt-4" (VInt 0) (VInt 1000000) w0
          = (Returned dollars_out, w0).
Proof.
  assert (Hr : rates_for "openai" "gpt-4"
               = Some (Rates (per_million (F64.lit 300 10))
                             (per_million (F64.lit 600 10)))) by reflexivity.
  split; [exact Hr|].
  destruct (calculate_llm_cost_per_million "openai" "gpt-4" _ Hr)
    as (dollars_in & dollars_out & Hrates & Hin & Hout & _).
  exists dollars_in, dollars_out.
  split; [exact Hrates|]. split; [apply Hin | apply Hout].
Defined.

(** A token count that arrived as [None]. *)
Lemma calculate_llm_cost_non_numeric_tokens_witness :
  rates_for "openai" "gpt-4"
  = Some (Rates (per_million (F64.lit 300 10)) (per_million (F64.lit 600 10)))
  /\ number_of_value VNone = None
  /\ exists text,
       calculate_llm_cost "openai" "gpt-4" VNone (VInt 300) w0
       = (Raised (TypeError text), w0).
Proof.
  assert (Hr : rates_for "openai" "gpt-4"
               = Some (Rates (per_million (F64.lit 300 10))
                             (per_million (F64.lit 600 10)))) by reflexivity.
  split; [exact Hr|]. split; [reflexivity|].
  exact (proj1 (calculate_llm_cost_non_numeric_tokens "openai" "gpt-4" _
                  VNone (VInt 300) w0 Hr) eq_refl).
Defined.

(** The example usage record on the most expensive model. *)
Lemma calculate_llm_cost_finite_witness :
  0 <= 150 < 2 ^ 1024 - 2 ^ 970 /\ 0 <= 300 < 2 ^ 1024 - 2 ^ 970
  /\ exists cost,
       calculate_llm_cost "openai" "gpt-4" (VInt 150) (VInt 300) w0
       = (Returned cost, w0)
       /\ F64.is_finite cost = true.
Proof.
  assert (H150 : 0 <= 150 < 2 ^ 1024 - 2 ^ 970) by (split; [lia | reflexivity]).
  assert (H300 : 0 <= 300 < 2 ^ 1024 - 2 ^ 970) by (split; [lia | reflexivity]).
  split; [exact H150|]. split; [exact H300|].
  destruct (calculate_llm_cost_finite "openai" "gpt-4" 150 300 H150 H300)
    as (cost & q & Hrun & Hfin & _).
  exists cost. split; [exact (Hrun w0) | exact Hfin].
Defined.

End MoreRuns.

(* ===================================================================== *)
(** ** Every call is counted exactly once *)
(* ===================================================================== *)

Section Accounting.

Import Exporter Updaters Registry RegistryFacts.

Variable obj_str : value -> string.

Lemma raises_Exception_only_raise {A} e :
  exn_is_Exception e = true -> raises_Exception_only (@raise A e).
Proof. intros He w e' w' H. injection H as <- _. exact He. Qed.

Lemma raises_Exception_only_time_time : raises_Exception_only time_time.
Proof. intros w e w' H. discriminate. Qed.

Lemma raises_Exception_only_logger lv text : raises_Exception_only (logger lv text).
Proof. intros w e w' H. discriminate. Qed.

Lemma raises_Exception_only_hist_observe k amount :
  raises_Exception_only (hist_observe k amount).
Proof. intros w e w' H. discriminate. Qed.

Lemma raises_Exception_only_dict_get v key dflt :
  raises_Exception_only (dict_get v key dflt).
Proof.
  intros w e w' H. destruct v; first [discriminate | injection H as <- _; reflexivity].
Qed.

Lemma raises_Exception_only_contains key v : raises_Exception_only (contains key v).
Proof.
  intros w e w' H. destruct v; first [discriminate | injection H as <- _; reflexivity].
Qed.

Lemma raises_Exception_only_getitem v key : raises_Exception_only (getitem v key).
Proof.
  intros w e w' H. unfold getitem in H.
  destruct v; try (injection H as <- _; reflexivity).
  destruct (d !! key); [discriminate | injection H as <- _; reflexivity].
Qed.

Lemma raises_Exception_only_counter_inc k amount :
  raises_Exception_only (counter_inc k amount).
Proof.
  intros w e w' H. unfold counter_inc in H.
  destruct (number_of_value amount) as [n|]; [|injection H as <- _; reflexivity].
  destruct (inc k n (w_registry w)); [discriminate | injection H as <- _; reflexivity].
Qed.

Lemma raises_Exception_only_py_mul v r : raises_Exception_only (py_mul v r).
Proof.
  unfold py_mul. destruct (number_of_value v) as [n|].
  - apply raises_Exception_only_bind;
      [apply raises_Exception_only_number_to_float
      | intros f; apply raises_Exception_only_ret].
  - apply raises_Exception_only_raise. reflexivity.
Qed.

Lemma raises_Exception_only_calculate_llm_cost provider model i o :
  raises_Exception_only (calculate_llm_cost provider model i o).
Proof.
  unfold calculate_llm_cost. destruct (rates_for provider model) as [r|].
  - apply raises_Exception_only_bind; [apply raises_Exception_only_py_mul | intros a].
    apply raises_Exception_only_bind; [apply raises_Exception_only_py_mul | intros b].
    apply raises_Exception_only_ret.
  - apply raises_Exception_only_bind;
      [apply raises_Exception_only_logger | intros _; apply raises_Exception_only_ret].
Qed.

Lemma keeps_counter_refl name r : keeps_counter name r r.
Proof. intros lv. reflexivity. Qed.

Lemma keeps_counter_trans name a b c :
  keeps_counter name a b -> keeps_counter name b c -> keeps_counter name a c.
Proof. intros H1 H2 lv. rewrite H2. apply H1. Qed.

Lemma keeps_counter_counter_inc name k amount :
  k.1 <> name -> respects (keeps_counter name) (counter_inc k amount).
Proof.
  intros Hk w lv. rewrite counter_inc_registry.
  destruct (number_of_value amount) as [n|]; [|reflexivity].
  rewrite counter_value_apply, contribution_other; [apply xadd_0_r|].
  intros ->. apply Hk. reflexivity.
Qed.

Lemma keeps_counter_hist_observe name k amount :
  respects (keeps_counter name) (hist_observe k amount).
Proof. intros w lv. reflexivity. Qed.

(** A statement that leaves the instrument alone and raises instances of
    [Exception] only may come before a computation that accounts for
    itself. *)
Lemma accounts_bind {A B} ok (c : M A) (k : A -> M B) :
  respects (keeps_counter ok.1) c -> raises_Exception_only c ->
  (forall a, accounts ok (k a)) -> accounts ok (bind c k).
Proof.
  intros Hr He Hk w. unfold bind.
  specialize (Hr w). destruct (c w) as [[a|e] w1] eqn:Ec; cbn [snd] in Hr.
  - specialize (Hk a w1). destruct (k a w1) as [[b|e] w2].
    + destruct Hk as [H1 H2]. split.
      * rewrite H1. f_equal. destruct ok as [name lv]. apply Hr.
      * intros lv Hlv. rewrite (H2 lv Hlv). apply Hr.
    + destruct Hk as [H1 H2]. split; [exact H1|].
      eapply keeps_counter_trans; [exact Hr | exact H2].
  - split; [eapply He, Ec | exact Hr].
Qed.

(** The last statements of the guarded block of the LLM wrapper. *)
Lemma accounts_success provider model (result : value) :
  accounts (m_name llm_api_requests_total, [provider; model; "success"])
    (k <- labels obj_str llm_api_requests_total
            [("provider", VStr provider); ("model", VStr model);
             ("status", VStr "success")] ;;
     counter_inc k (VInt 1) ;;
     ret result).
Proof.
  intros w. msteps. unfold ret. cbn [w_registry with_registry]. split.
  - rewrite counter_value_apply, contribution_same by reflexivity. reflexivity.
  - intros lv Hlv. rewrite counter_value_apply, contribution_other; [apply xadd_0_r|].
    intros Heq. apply Hlv. injection Heq as <-. reflexivity.
Qed.

End Accounting.

(** Statements that raise instances of [Exception] only. *)
Ltac raises_step :=
  cbv beta zeta;
  lazymatch goal with
  | |- raises_Exception_only (bind _ _) =>
      apply raises_Exception_only_bind; [|intros ?]
  | |- raises_Exception_only (ret _) => apply raises_Exception_only_ret
  | |- raises_Exception_only time_time => apply raises_Exception_only_time_time
  | |- raises_Exception_only (logger _ _) => apply raises_Exception_only_logger
  | |- raises_Exception_only (Exporter.hist_observe _ _) =>
      apply raises_Exception_only_hist_observe
  | |- raises_Exception_only (dict_get _ _ _) => apply raises_Exception_only_dict_get
  | |- raises_Exception_only (getattr _ _) => apply raises_Exception_only_getattr
  | |- raises_Exception_only (contains _ _) => apply raises_Exception_only_contains
  | |- raises_Exception_only (getitem _ _) => apply raises_Exception_only_getitem
  | |- raises_Exception_only (Exporter.labels _ _ _) =>
      apply raises_Exception_only_labels
  | |- raises_Exception_only (Exporter.counter_inc _ _) =>
      apply raises_Exception_only_counter_inc
  | |- raises_Exception_only (Exporter.calculate_llm_cost _ _ _ _) =>
      apply raises_Exception_only_calculate_llm_cost
  | |- raises_Exception_only (if ?b then _ else _) => destruct b
  end.

Ltac raises_steps := repeat raises_step.

(** Statements that leave the counter instrument [name] alone. *)
Ltac keeps_step name :=
  cbv beta zeta;
  lazymatch goal with
  | |- respects _ (Exporter.hist_observe _ _) => apply keeps_counter_hist_observe
  | |- respects _ (Exporter.counter_inc _ _) =>
      apply keeps_counter_counter_inc; discriminate
  | |- _ => respects_step (keeps_counter_refl name) (keeps_counter_trans name)
  end.

Ltac keeps_steps name := repeat keeps_step name.

(** A statement that comes before the final increment. *)
Ltac accounts_step name :=
  cbv beta zeta;
  lazymatch goal with
  | |- accounts _ (bind (Exporter.labels _ Exporter.llm_api_requests_total _) _) =>
      apply accounts_success
  | |- accounts _ (bind _ _) =>
      apply accounts_bind; [ keeps_steps name | raises_steps | intros ? ]
  end.

Section ExactlyOnce.

Import Exporter Updaters Registry RegistryFacts.

Variable obj_str : value -> string.

(** X26. Every LLM call is counted exactly once in the request counter. Whenever
    the wrapped call returns anything at all or raises an instance of
    [Exception], the wrapper either returns, and then the series labelled
    'success' went up by one and the one labelled 'error' did not move, or
    raises, and then 'error' went up by one and 'success' did not move; no
    other series of the request counter changes. A result the wrapper cannot
    account for (malformed usage, refused or unconvertible token counts) is
    thus counted as an error, never as both and never as neither. *)
Theorem track_llm_call_counts_every_call_once provider model func args kwargs w o w1 :
  func args kwargs w = (o, w1) ->
  (forall e, o = Raised e -> exn_is_Exception e = true) ->
  let requests := m_name llm_api_requests_total in
  let success := (requests, [provider; model; "success"]) in
  let error := (requests, [provider; model; "error"]) in
  let outcome := fst (track_llm_call obj_str provider model func args kwargs w) in
  let w2 := snd (track_llm_call obj_str provider model func args kwargs w) in
  (forall lv, lv <> [provider; model; "success"] -> lv <> [provider; model; "error"] ->
     counter_value (w_registry w2) (requests, lv)
     = counter_value (w_registry w1) (requests, lv))
  /\ (((exists v, outcome = Returned v)
       /\ counter_value (w_registry w2) success
          = xadd (counter_value (w_registry w1) success) (XFin 1)
       /\ counter_value (w_registry w2) error = counter_value (w_registry w1) error)
      \/ ((exists e, outcome = Raised e)
          /\ counter_value (w_registry w2) error
             = xadd (counter_value (w_registry w1) error) (XFin 1)
          /\ counter_value (w_registry w2) success
             = counter_value (w_registry w1) success)).
Proof.
  intros Hf Ho requests success error outcome w2.
  subst outcome w2. unfold track_llm_call. rewrite bind_time_time.
  match goal with
  | |- context [try_except_Exception (bind (func args kwargs) ?K) ?h] =>
      set (rest := K); set (handler := h)
  end.
  (* the handler, run in any world *)
  assert (Hhandler : forall e w',
             handler e w'
             = (Raised e,
                logged (Log ERROR ("LLM API error: " +:+ exn_str e))
                  (with_registry
                     (run [OpInc error (NInt 1);
                           OpInc (m_name llm_api_errors_total, [provider; exn_type e])
                             (NInt 1)] (w_registry w')) w'))).
  { intros e w'. subst handler. msteps. reflexivity. }
  assert (Herr : forall e w',
             counter_value
               (run [OpInc error (NInt 1);
                     OpInc (m_name llm_api_errors_total, [provider; exn_type e])
                       (NInt 1)] (w_registry w')) error
             = xadd (counter_value (w_registry w') error) (XFin 1)).
  { intros e w'. subst error requests. counter_after_run. reflexivity. }
  assert (Hoth : forall e w' lv,
             lv <> [provider; model; "error"] ->
             counter_value
               (run [OpInc error (NInt 1);
                     OpInc (m_name llm_api_errors_total, [provider; exn_type e])
                       (NInt 1)] (w_registry w')) (requests, lv)
             = counter_value (w_registry w') (requests, lv)).
  { intros e w' lv Hlv. subst error requests.
    rewrite counter_value_run. cbn [fmap list_fmap xsum foldr].
    rewrite !contribution_other by congruence.
    rewrite !xadd_0_r. reflexivity. }
  (* what follows the call accounts for itself *)
  assert (Hrest : forall result, accounts success (rest result)).
  { intros result. subst rest. cbv beta zeta.
    repeat accounts_step requests. }
  destruct o as [result|e].
  - specialize (Hrest result w1).
    destruct (rest result w1) as [[v|e] w'] eqn:Erest.
    + erewrite try_returned
        by (erewrite bind_returned by exact Hf; exact Erest).
      cbn [fst snd]. destruct Hrest as [H1 H2]. split.
      * intros lv Hs _. apply (H2 lv Hs).
      * left. split; [eauto|]. split; [exact H1|].
        apply (H2 [provider; model; "error"]). discriminate.
    + destruct Hrest as [He Hkeep].
      erewrite try_caught;
        [ | erewrite bind_returned by exact Hf; exact Erest | exact He ].
      rewrite Hhandler. cbn [fst snd w_registry with_registry logged]. split.
      * intros lv _ Hlv. rewrite Hoth by exact Hlv. apply Hkeep.
      * right. split; [eauto|]. split.
        -- rewrite Herr. f_equal. apply Hkeep.
        -- unfold success. rewrite (Hoth e w' [provider; model; "success"]) by discriminate.
           apply Hkeep.
  - pose proof (Ho e eq_refl) as He.
    erewrite try_caught; [ | erewrite bind_raised by exact Hf; reflexivity | exact He ].
    rewrite Hhandler. cbn [fst snd w_registry with_registry logged]. split.
    + intros lv _ Hlv. apply Hoth, Hlv.
    + right. split; [eauto|]. split; [apply Herr|].
      apply (Hoth e w1 [provider; model; "success"]). discriminate.
Qed.

(** X27. Every HTTP request is counted exactly once. For a request that has a
    method and a path, whenever the handler returns anything at all or
    raises an instance of [Exception], the wrapper makes exactly one
    increment of the request counter and logs nothing: under the status of
    the response when the handler returned an object that has one, under the
    fixed status 500 otherwise. *)
Theorem track_http_request_counts_every_request_once
    func cls attrs method path args kwargs w o w1 :
  attrs !! "method" = Some method ->
  attrs !! "path" = Some path ->
  func (VObj cls attrs) args kwargs w = (o, w1) ->
  (forall e, o = Raised e -> exn_is_Exception e = true) ->
  let status :=
    match o with
    | Returned (VObj _ rattrs) =>
        match rattrs !! "status_code" with
        | Some code => py_str obj_str code
        | None => "500"
        end
    | _ => "500"
    end in
  let w2 := snd (track_http_request obj_str func (VObj cls attrs) args kwargs w) in
  w_registry w2
  = run [OpInc (m_name http_requests_total,
                [py_str obj_str method; py_str obj_str path; status]) (NInt 1)]
        (w_registry w1)
  /\ w_log w2 = w_log w1.
Proof.
  intros Hm Hp Hf Ho status w2. subst w2 status. unfold track_http_request.
  destruct o as [response|e].
  - destruct (match response with
              | VObj _ rattrs => rattrs !! "status_code"
              | _ => None
              end) as [code|] eqn:Ecode.
    + destruct response as [| | | | | |rcls rattrs]; try discriminate Ecode.
      rewrite Ecode.
      erewrite try_returned; [ | msteps; reflexivity ].
      split; reflexivity.
    + assert (Hmissing : forall rcls rattrs,
                 response = VObj rcls rattrs -> rattrs !! "status_code" = None).
      { intros rcls rattrs ->. exact Ecode. }
      erewrite try_caught; [ | | ].
      2: { msteps. erewrite bind_raised by (apply getattr_raised, Hmissing).
           reflexivity. }
      2: reflexivity.
      msteps. cbn [snd].
      destruct response as [| | | | | |rcls rattrs]; try (split; reflexivity).
      rewrite Ecode. split; reflexivity.
  - erewrite try_caught; [ | msteps; reflexivity | apply Ho; reflexivity ].
    msteps. split; reflexivity.
Qed.

End ExactlyOnce.

Section ExactlyOnceRuns.

Import Exporter Updaters Registry Samples Cases.

(** A call whose usage record has a negative output count is counted as an
    error and as nothing else. *)
Lemma track_llm_call_counts_every_call_once_witness :
  llm_returning (VDict negative_usage_result) [] ∅ w0
  = (Returned (VDict negative_usage_result), later w0)
  /\ (forall e, Returned (VDict negative_usage_result) = Raised e ->
                exn_is_Exception e = true)
  /\ (((exists v,
          fst (track_llm_call render "anthropic" "claude-sonnet-4"
                 (llm_returning (VDict negative_usage_result)) [] ∅ w0) = Returned v)
       /\ counter_value
            (w_registry (snd (track_llm_call render "anthropic" "claude-sonnet-4"
                                (llm_returning (VDict negative_usage_result)) [] ∅ w0)))
            (m_name llm_api_requests_total, ["anthropic"; "claude-sonnet-4"; "success"])
          = xadd (counter_value (w_registry (later w0))
                    (m_name llm_api_requests_total,
                     ["anthropic"; "claude-sonnet-4"; "success"])) (XFin 1)
       /\ counter_value
            (w_registry (snd (track_llm_call render "anthropic" "claude-sonnet-4"
                                (llm_returning (VDict negative_usage_result)) [] ∅ w0)))
            (m_name llm_api_requests_total, ["anthropic"; "claude-sonnet-4"; "error"])
          = counter_value (w_registry (later w0))
              (m_name llm_api_requests_total, ["anthropic"; "claude-sonnet-4"; "error"]))
      \/ ((exists e,
             fst (track_llm_call render "anthropic" "claude-sonnet-4"
                    (llm_returning (VDict negative_usage_result)) [] ∅ w0) = Raised e)
          /\ counter_value
               (w_registry (snd (track_llm_call render "anthropic" "claude-sonnet-4"
                                   (llm_returning (VDict negative_usage_result)) [] ∅ w0)))
               (m_name llm_api_requests_total, ["anthropic"; "claude-sonnet-4"; "error"])
             = xadd (counter_value (w_registry (later w0))
                       (m_name llm_api_requests_total,
                        ["anthropic"; "claude-sonnet-4"; "error"])) (XFin 1)
          /\ counter_value
               (w_registry (snd (track_llm_call render "anthropic" "claude-sonnet-4"
                                   (llm_returning (VDict negative_usage_result)) [] ∅ w0)))
               (m_name llm_api_requests_total,
                ["anthropic"; "claude-sonnet-4"; "success"])
             = counter_value (w_registry (later w0))
                 (m_name llm_api_requests_total,
                  ["anthropic"; "claude-sonnet-4"; "success"]))).
Proof.
  assert (Ho : forall e, Returned (VDict negative_usage_result) = Raised e ->
                         exn_is_Exception e = true) by (intros e H; discriminate H).
  split; [reflexivity|]. split; [exact Ho|].
  exact (proj2 (track_llm_call_counts_every_call_once render
                  "anthropic" "claude-sonnet-4"
                  (llm_returning (VDict negative_usage_result)) [] ∅ w0
                  (Returned (VDict negative_usage_result)) (later w0) eq_refl Ho)).
Defined.

(** A handler that returns a response without a status. *)
Lemma track_http_request_counts_every_request_once_witness :
  request_attrs !! "method" = Some (VStr "GET")
  /\ request_attrs !! "path" = Some (VStr "/tickets")
  /\ op_returning (VObj "Response" bare_response_attrs) request [] ∅ w0
     = (Returned (VObj "Response" bare_response_attrs), later w0)
  /\ w_registry (snd (track_http_request render
                        (op_returning (VObj "Response" bare_response_attrs))
                        request [] ∅ w0))
     = run [OpInc (m_name http_requests_total, ["GET"; "/tickets"; "500"]) (NInt 1)]
           (w_registry (later w0)).
Proof.
  split; [reflexivity|]. split; [reflexivity|]. split; [reflexivity|].
  refine (proj1 (track_http_request_counts_every_request_once render
                   (op_returning (VObj "Response" bare_response_attrs))
                   "Request" request_attrs (VStr "GET") (VStr "/tickets") [] ∅ w0
                   (Returned (VObj "Response" bare_response_attrs)) (later w0)
                   eq_refl eq_refl eq_refl _)).
  intros e H. discriminate H.
Defined.

End ExactlyOnceRuns.
